(** * Swoop / HighEagle: the object tree of HighEagle.jinja.py

    A shallow embedding of the Python module: the attribute coercions
    [parseByType] / [unparseByType], the base class [EagleFilePart] with its
    parent link, the accessors the template generates for list and map
    sections, the layer table and load / save of [EagleFile], the
    cross-reference walks of [Part] and [convertToExternal].

    Python objects are references, so the embedding keeps a store of objects
    addressed by identity; an exception is a value of [exn]. *)

From Stdlib Require Import ZArith Ascii String List.
From stdpp Require Import base option list strings gmap pretty.

Open Scope string_scope.
Open Scope list_scope.
Open Scope Z_scope.

(** ** Exceptions and the result of a call *)

Inductive exn : Type :=
| HighEagleError (text : string)
| EagleFormatError (text : string)
| AttributeError
| TypeError
| ValueError
| KeyError
| IndexError
| AssertionError
| IOError
| RuntimeError      (* maximum recursion depth exceeded *)
| InvalidReference. (* a store address with no object: no Python state has one *)

Inductive result (A : Type) : Type :=
| Ok (a : A)
| Raise (e : exn).
Arguments Ok {A} a.
Arguments Raise {A} e.

Definition bind {A B : Type} (m : result A) (f : A -> result B) : result B :=
  match m with
  | Ok a => f a
  | Raise e => Raise e
  end.

Declare Scope py_scope.
Delimit Scope py_scope with py.
Notation "'let*' x ':=' m 'in' k" := (bind m (fun x => k))
  (at level 10, x pattern, m at level 100, k at level 200) : py_scope.
Open Scope py_scope.

Definition is_Raise {A : Type} (r : result A) : Prop := exists e, r = Raise e.

(** ** Values of attributes *)

(** A Python float is carried by its [repr]; the interpreter's conversions on
    floats are the primitives of [PyBuiltins]. *)
Inductive pyfloat : Type := Float (repr : string).

Inductive value : Type :=
| VNone
| VBool (b : bool)
| VInt (z : Z)
| VFloat (f : pyfloat)
| VStr (s : string).

#[global] Instance pyfloat_eq_dec : EqDecision pyfloat.
Proof. solve_decision. Defined.
#[global] Instance value_eq_dec : EqDecision value.
Proof. solve_decision. Defined.

(** The builtins [int], [float] and [str] on strings and floats belong to the
    interpreter, not to the module. *)
Class PyBuiltins : Type := {
  int_of_str : string -> option Z;          (* int(s), None: ValueError *)
  float_of_str : string -> option pyfloat;  (* float(s), None: ValueError *)
  str_of_float : pyfloat -> string;         (* str(f) *)
  int_of_float : pyfloat -> option Z;       (* int(f), None: inf or nan *)
  float_truth : pyfloat -> bool             (* bool(f) *)
}.

Definition upper_ascii (c : ascii) : ascii :=
  let n := nat_of_ascii c in
  if (andb (Nat.leb 97 n) (Nat.leb n 122)) then ascii_of_nat (n - 32) else c.

(** [s.upper()] of a text of ASCII characters, where [str.upper] and
    [unicode.upper] agree: the letters a to z are raised, every other
    character is kept. *)
Fixpoint upper (s : string) : string :=
  match s with
  | EmptyString => EmptyString
  | String c r => String (upper_ascii c) (upper r)
  end.

(** The text is made of ASCII characters only (lxml hands such a text over
    as a str, and any other as unicode, whose [upper] follows Unicode). *)
Fixpoint ascii_text (s : string) : bool :=
  match s with
  | EmptyString => true
  | String c r => Nat.ltb (nat_of_ascii c) 128 && ascii_text r
  end.

(** [str(n)] for an int *)
Definition str_of_int (n : Z) : string := pretty n.

Section Builtins.
Context `{PyBuiltins}.

(** [str(v)] *)
Definition py_str (v : value) : string :=
  match v with
  | VNone => "None"
  | VBool true => "True"
  | VBool false => "False"
  | VInt z => str_of_int z
  | VFloat f => str_of_float f
  | VStr s => s
  end.

(** the truth value of [v], as [if v:] takes it *)
Definition py_truth (v : value) : bool :=
  match v with
  | VNone => false
  | VBool b => b
  | VInt z => negb (z =? 0)
  | VFloat f => float_truth f
  | VStr s => negb (String.eqb s "")
  end.

(** [int(v)] *)
Definition py_int (v : value) : result Z :=
  match v with
  | VNone => Raise TypeError
  | VBool b => Ok (if b then 1 else 0)
  | VInt z => Ok z
  | VFloat f => match int_of_float f with Some z => Ok z | None => Raise ValueError end
  | VStr s => match int_of_str s with Some z => Ok z | None => Raise ValueError end
  end.

(** [a + b] where [a] is a str *)
Definition str_add (a : string) (b : value) : result string :=
  match b with
  | VStr s => Ok (a +:+ s)
  | _ => Raise TypeError
  end.

End Builtins.

(** ** Objects and the store *)

(** The identity of an object is its address in the store. *)
Abbreviation oid := nat.

(** A dict whose values are objects.  Its entries are kept in the order in
    which [values()] lists them, whatever that order is; keys are scalars,
    compared as they are written (the keys of this program are names and
    layer numbers, so that 1, 1.0 and True being one key does not arise). *)
Abbreviation dict := (list (value * oid)).

(** An lxml element. *)
#[warnings="-register-all"]
Inductive element : Type :=
| Element (tag : string) (attrib : list (string * string))
          (text : option string) (children : list element).

(** What an instance attribute holds: a scalar, a list of objects or a dict
    of objects.  Singleton sections, which [get_children] leaves out, are not
    part of the model. *)
Inductive field : Type :=
| FVal (v : value)
| FList (l : list oid)
| FDict (d : dict).

(** An instance: its class with the classes it inherits from, the [parent]
    link of [EagleFilePart], its instance attributes, the sections its class
    was generated with ([tag.lists], and [tag.maps] with their [mapkey]) in
    the order of the schema, and the element tree a file was loaded from
    ([ef.root], [ef.tree]), which only [from_file] touches. *)
Record object : Type := Object {
  mro : list string;
  parent : option oid;
  fields : gmap string field;
  lists : list string;
  maps : list (string * string);
  tree : option element
}.

Abbreviation heap := (list object).

Definition isinstance (o : object) (c : string) : bool :=
  bool_decide (c ∈ mro o).

Definition with_parent (o : object) (p : option oid) : object :=
  {| mro := mro o; parent := p; fields := fields o;
     lists := lists o; maps := maps o; tree := tree o |}.

Definition setattr (o : object) (a : string) (f : field) : object :=
  {| mro := mro o; parent := parent o; fields := <[a := f]> (fields o);
     lists := lists o; maps := maps o; tree := tree o |}.

Definition with_tree (o : object) (t : element) : object :=
  {| mro := mro o; parent := parent o; fields := fields o;
     lists := lists o; maps := maps o; tree := Some t |}.

Definition getattr (o : object) (a : string) : result field :=
  match fields o !! a with
  | Some f => Ok f
  | None => Raise AttributeError
  end.

Definition deref (h : heap) (o : oid) : result object :=
  match h !! o with
  | Some x => Ok x
  | None => Raise InvalidReference
  end.

(** [o.parent = p] *)
Definition set_parent (h : heap) (o : oid) (p : option oid) : result heap :=
  let* x := deref h o in
  Ok (<[o := with_parent x p]> h).

(** [o.a = f] *)
Definition set_field (h : heap) (o : oid) (a : string) (f : field) : result heap :=
  let* x := deref h o in
  Ok (<[o := setattr x a f]> h).

(** [o.a] *)
Definition get_field (h : heap) (o : oid) (a : string) : result field :=
  let* x := deref h o in
  getattr x a.

(** A new object is stored at the first free address. *)
Definition alloc (h : heap) (x : object) : heap * oid := (h ++ [x], length h).

(** *** dict *)

Fixpoint dict_get (d : dict) (k : value) : option oid :=
  match d with
  | [] => None
  | (k', v) :: r => if decide (k' = k) then Some v else dict_get r k
  end.

(** [d[k] = v] *)
Fixpoint dict_set (d : dict) (k : value) (v : oid) : dict :=
  match d with
  | [] => [(k, v)]
  | (k', v') :: r =>
      if decide (k' = k) then (k', v) :: r else (k', v') :: dict_set r k v
  end.

(** [del d[k]], [None] when the key is absent *)
Fixpoint dict_del (d : dict) (k : value) : option dict :=
  match d with
  | [] => None
  | (k', v') :: r =>
      if decide (k' = k) then Some r
      else match dict_del r k with
           | Some r' => Some ((k', v') :: r')
           | None => None
           end
  end.

Definition dict_values (d : dict) : list oid := map snd d.

(** [xs[k] = v] on a list: an int index, counted from the end when negative *)
Definition list_setitem (xs : list oid) (k : value) (v : oid) : result (list oid) :=
  let at_index (i : Z) :=
    let n := Z.of_nat (length xs) in
    if (0 <=? i) && (i <? n) then Ok (<[Z.to_nat i := v]> xs)
    else if (- n <=? i) && (i <? 0) then Ok (<[Z.to_nat (n + i) := v]> xs)
    else Raise IndexError in
  match k with
  | VInt i => at_index i
  | VBool b => at_index (if b then 1 else 0)
  | _ => Raise TypeError
  end.

(** [del xs[k]] on a list *)
Definition list_delitem (xs : list oid) (k : value) : result (list oid) :=
  let at_index (i : Z) :=
    let n := Z.of_nat (length xs) in
    if (0 <=? i) && (i <? n) then Ok (delete (Z.to_nat i) xs)
    else if (- n <=? i) && (i <? 0) then Ok (delete (Z.to_nat (n + i)) xs)
    else Raise IndexError in
  match k with
  | VInt i => at_index i
  | VBool b => at_index (if b then 1 else 0)
  | _ => Raise TypeError
  end.

(** [for x in xs: h = f h x], stopping at the first exception *)
Fixpoint for_each {A S : Type} (f : S -> A -> result S) (xs : list A) (s : S)
  : result S :=
  match xs with
  | [] => Ok s
  | x :: r => let* s' := f s x in for_each f r s'
  end.

Fixpoint assoc {V : Type} (k : string) (l : list (string * V)) : option V :=
  match l with
  | [] => None
  | (k', v) :: r => if String.eqb k' k then Some v else assoc k r
  end.

(** ** The accessors the template generates *)

(** [add_{{l.accessorName}}]: [self.l.append(s); s.parent = self] *)
Definition add_list (l : string) (h : heap) (self s : oid) : result heap :=
  let* o := deref h self in
  if bool_decide (l ∈ lists o) then
    let* f := getattr o l in
    match f with
    | FList xs =>
        set_parent (<[self := setattr o l (FList (xs ++ [s]))]> h) s (Some self)
    | _ => Raise AttributeError
    end
  else Raise AttributeError.

(** [clear_{{l.name}}] of a list section *)
Definition clear_list (l : string) (h : heap) (self : oid) : result heap :=
  let* o := deref h self in
  let* f := getattr o l in
  match f with
  | FList xs =>
      let* h1 := for_each (fun h' efp => set_parent h' efp None) xs h in
      set_field h1 self l (FList [])
  | FDict d =>
      (* iterating a dict yields its keys, which have no [parent] to set *)
      match d with
      | [] => set_field h self l (FList [])
      | _ => Raise AttributeError
      end
  | FVal (VStr s) =>
      (* and iterating a str its characters *)
      if String.eqb s EmptyString then set_field h self l (FList [])
      else Raise AttributeError
  | FVal _ => Raise TypeError
  end.

(** [add_{{m.accessorName}}]: [self.m[s.mapkey] = s; s.parent = self] *)
Definition add_map (m : string) (h : heap) (self s : oid) : result heap :=
  let* o := deref h self in
  match assoc m (maps o) with
  | None => Raise AttributeError
  | Some key =>
      let* f := getattr o m in
      let* kf := get_field h s key in
      match f, kf with
      | FDict d, FVal k =>
          set_parent (<[self := setattr o m (FDict (dict_set d k s))]> h) s (Some self)
      | FList xs, FVal k =>
          let* xs' := list_setitem xs k s in
          set_parent (<[self := setattr o m (FList xs')]> h) s (Some self)
      | _, _ => Raise TypeError
      end
  end.

(** [remove_{{m.accessorName}}]: [del self.m[efp.mapkey]; efp.parent = None] *)
Definition remove_map (m : string) (h : heap) (self efp : oid) : result heap :=
  let* o := deref h self in
  match assoc m (maps o) with
  | None => Raise AttributeError
  | Some key =>
      let* f := getattr o m in
      let* kf := get_field h efp key in
      match f, kf with
      | FDict d, FVal k =>
          match dict_del d k with
          | Some d' => set_parent (<[self := setattr o m (FDict d')]> h) efp None
          | None => Raise KeyError
          end
      | FList xs, FVal k =>
          let* xs' := list_delitem xs k in
          set_parent (<[self := setattr o m (FList xs')]> h) efp None
      | _, _ => Raise TypeError
      end
  end.

(** [clear_{{m.name}}] of a map section *)
Definition clear_map (m : string) (h : heap) (self : oid) : result heap :=
  let* o := deref h self in
  let* f := getattr o m in
  match f with
  | FDict d =>
      let* h1 := for_each (fun h' efp => set_parent h' efp None) (dict_values d) h in
      set_field h1 self m (FDict [])
  | _ => Raise AttributeError
  end.

(** [clear_X] is the method of the list section or of the map section named
    [X], whichever the class declares. *)
Definition clear (x : string) (h : heap) (self : oid) : result heap :=
  let* o := deref h self in
  if bool_decide (x ∈ lists o) then clear_list x h self
  else match assoc x (maps o) with
       | Some _ => clear_map x h self
       | None => Raise AttributeError
       end.

(** [get_children]: the list sections, then the values of the map sections *)
Definition get_children (h : heap) (self : oid) : result (list oid) :=
  let* o := deref h self in
  let* r := for_each (fun r l =>
              let* f := getattr o l in
              match f with
              | FList xs => Ok (r ++ xs)
              | _ => Raise TypeError
              end) (lists o) [] in
  for_each (fun r m =>
              let* f := getattr o (fst m) in
              match f with
              | FDict d => Ok (r ++ dict_values d)
              | _ => Raise AttributeError
              end) (maps o) r.

(** ** Subscripts and membership on what an attribute holds *)

(** [f[k] = v] *)
Definition setitem (f k : field) (v : oid) : result field :=
  match f, k with
  | FDict d, FVal k => Ok (FDict (dict_set d k v))
  | FList xs, FVal k => let* xs' := list_setitem xs k v in Ok (FList xs')
  | _, _ => Raise TypeError
  end.

(** [f[k]] *)
Definition getitem (f k : field) : result oid :=
  match f, k with
  | FDict d, FVal k =>
      match dict_get d k with Some v => Ok v | None => Raise KeyError end
  | FList xs, FVal k =>
      let at_index (i : Z) :=
        let n := Z.of_nat (length xs) in
        let j := if i <? 0 then n + i else i in
        if (0 <=? j) && (j <? n)
        then match xs !! Z.to_nat j with Some v => Ok v | None => Raise IndexError end
        else Raise IndexError in
      match k with
      | VInt i => at_index i
      | VBool b => at_index (if b then 1 else 0)
      | _ => Raise TypeError
      end
  | _, _ => Raise TypeError
  end.

(** [k in f]; an object of the tree never equals a scalar, and on a str
    [in] looks for a substring *)
Definition py_in (k : value) (f : field) : result bool :=
  match f with
  | FDict d => Ok (bool_decide (is_Some (dict_get d k)))
  | FList _ => Ok false
  | FVal (VStr s) =>
      match k with
      | VStr k => Ok (bool_decide (is_Some (index 0 k s)))
      | _ => Raise TypeError
      end
  | FVal _ => Raise TypeError
  end.

Section Model.
Context `{PyBuiltins}.

(** ** str() of objects *)

Definition class_name (x : object) : string :=
  match mro x with
  | c :: _ => c
  | [] => "object"
  end.

(** The default [str] of an instance names its class and its address (here
    the address in the store; the name of the module is left out). *)
Definition default_str (o : oid) (x : object) : string :=
  "<" +:+ class_name x +:+ " object at " +:+ pretty o +:+ ">".

(** [str(f)]; the rendering of a section is kept abstract *)
Definition field_str (f : field) : string :=
  match f with
  | FVal v => py_str v
  | FList _ => "[...]"
  | FDict _ => "{...}"
  end.

(** [a + f] where [a] is a str *)
Definition str_add_field (a : string) (f : field) : result string :=
  match f with
  | FVal v => str_add a v
  | _ => Raise TypeError
  end.

(** [Attribute.__str__]:
    [self.name + " = '" + self.value + "' [const=" + str(self.constant)
     + ";lib=" + str(self.from_library) + "]"] *)
Definition Attribute_str (x : object) : result string :=
  let* name := getattr x "name" in
  match name with
  | FVal (VStr n) =>
      let* value := getattr x "value" in
      let* s := str_add_field (n +:+ " = '") value in
      let* constant := getattr x "constant" in
      let* from_library := getattr x "from_library" in
      Ok (s +:+ "' [const=" +:+ field_str constant +:+ ";lib="
            +:+ field_str from_library +:+ "]")
  | _ => Raise TypeError
  end.

(** [str(o)] *)
Definition object_str (h : heap) (o : oid) : result string :=
  let* x := deref h o in
  if isinstance x "Attribute" then Attribute_str x else Ok (default_str o x).

(** [str(o)] where [o] may be [None] *)
Definition opt_object_str (h : heap) (o : option oid) : result string :=
  match o with
  | Some o => object_str h o
  | None => Ok "None"
  end.

(** ** EagleFilePart: navigation *)

(** [get_root]; [depth] is the recursion depth the interpreter still allows *)
Fixpoint get_root (depth : nat) (h : heap) (self : oid) : result oid :=
  match depth with
  | O => Raise RuntimeError
  | S d =>
      let* x := deref h self in
      match parent x with
      | Some p => get_root d h p
      | None => Ok self
      end
  end.

(** [get_file] *)
Definition get_file (depth : nat) (h : heap) (self : oid) : result (option oid) :=
  let* r := get_root depth h self in
  let* x := deref h r in
  if isinstance x "EagleFile" then Ok (Some r) else Ok None.

(** ** EagleFile: the layer table *)

(** [layer_number_to_name] *)
Definition layer_number_to_name (h : heap) (self : oid) (num : value) : result field :=
  let* x := deref h self in
  let* n := py_int num in
  let* layers := getattr x "layers" in
  let* present := py_in (VInt n) layers in
  if negb present then
    let* filename := getattr x "filename" in
    Raise (HighEagleError ("No layer number " +:+ str_of_int n +:+ " in "
                             +:+ field_str filename))
  else
    let* l := getitem layers (FVal (VInt n)) in
    get_field h l "name".

(** [layer_name_to_number] *)
Definition layer_name_to_number (h : heap) (self : oid) (name : field) : result field :=
  let* x := deref h self in
  match name with
  | FVal (VStr s) =>
      let* layersByName := getattr x "layersByName" in
      let* present := py_in (VStr s) layersByName in
      if negb present then
        let* filename := getattr x "filename" in
        Raise (HighEagleError ("No layer named '" +:+ s +:+ "' in "
                                 +:+ field_str filename))
      else
        let* l := getitem layersByName name in
        get_field h l "number"
  | _ => Raise AssertionError
  end.

(** [add_layer] *)
Definition add_layer (h : heap) (self layer : oid) : result heap :=
  let* l := deref h layer in
  if isinstance l "Layer" then
    let* x := deref h self in
    let* layers := getattr x "layers" in
    let* number := getattr l "number" in
    let* n := match number with FVal v => py_int v | _ => Raise TypeError end in
    let* layers' := setitem layers (FVal (VInt n)) layer in
    let h1 := <[self := setattr x "layers" layers']> h in
    let* x1 := deref h1 self in
    let* layersByName := getattr x1 "layersByName" in
    let* name := get_field h1 layer "name" in
    let* layersByName' := setitem layersByName name layer in
    let h2 := <[self := setattr x1 "layersByName" layersByName']> h1 in
    set_parent h2 layer (Some self)
  else Raise AssertionError.

(** ** Attribute coercion *)

(** [parseByType(efp, attrType, s)]; [efp] is [None] for the root of a file *)
Definition parseByType (depth : nat) (h : heap) (efp : option oid)
    (attrType : string) (s : option string) : result field :=
  match s with
  | Some s =>
      let* r :=
        if String.eqb attrType "str" then Ok (FVal (VStr s))
        else if String.eqb attrType "int" then
          match int_of_str s with
          | Some z => Ok (FVal (VInt z))
          | None => Raise ValueError
          end
        else if String.eqb attrType "float" then
          match float_of_str s with
          | Some f => Ok (FVal (VFloat f))
          | None => Raise ValueError
          end
        else if String.eqb attrType "bool" then
          if bool_decide (upper s ∈ ["YES"]) then Ok (FVal (VBool true))
          else if bool_decide (upper s ∈ ["NO"]) then Ok (FVal (VBool false))
          else
            let* e := opt_object_str h efp in
            Raise (HighEagleError ("Invalid eagle bool value '" +:+ s
                                     +:+ "' in child of " +:+ e))
        else if String.eqb attrType "constant_bool" then
          Ok (FVal (VBool (negb (String.eqb s "no"))))
        else if String.eqb attrType "layer_string" then
          match efp with
          | None => Raise AttributeError
          | Some e =>
              let* f := get_file depth h e in
              match f with
              | None => Raise AttributeError
              | Some f =>
                  match int_of_str s with
                  | Some z => layer_number_to_name h f (VInt z)
                  | None => Raise ValueError
                  end
              end
          end
        else Raise (HighEagleError ("Unknown attr type '" +:+ attrType +:+ "'")) in
      match r with
      | FVal VNone => Raise AssertionError
      | _ => Ok r
      end
  | None => Ok (FVal VNone)
  end.

(** the truth value of what an attribute holds *)
Definition field_truth (f : field) : bool :=
  match f with
  | FVal v => py_truth v
  | FList l => negb (bool_decide (l = []))
  | FDict d => negb (bool_decide (d = []))
  end.

(** [unparseByType(efp, attrType, v)] *)
Definition unparseByType (depth : nat) (h : heap) (efp : option oid)
    (attrType : string) (v : field) : result field :=
  match v with
  | FVal VNone => Ok (FVal VNone)
  | _ =>
      let* r :=
        if String.eqb attrType "str" then Ok v
        else if bool_decide (attrType ∈ ["int"; "float"]) then
          Ok (FVal (VStr (field_str v)))
        else if String.eqb attrType "bool" then
          (* [return "yes"] / [return "no"]: the assertion below, which the
             early return skips, holds of both *)
          if field_truth v then Ok (FVal (VStr "yes")) else Ok (FVal (VStr "no"))
        else if String.eqb attrType "constant_bool" then
          if negb (field_truth v) then Ok (FVal (VStr "no")) else Ok (FVal VNone)
        else if String.eqb attrType "layer_string" then
          match efp with
          | None => Raise AttributeError
          | Some e =>
              let* f := get_file depth h e in
              match f with
              | None => Raise AttributeError
              | Some f => layer_name_to_number h f v
              end
          end
        else Raise (HighEagleError ("Unknown attr type '" +:+ attrType +:+ "'")) in
      if negb (String.eqb attrType "constant_bool") then
        match r with
        | FVal VNone => Raise AssertionError
        | _ => Ok r
        end
      else Ok r
  end.

(** ** EagleFilePart.check_sanity and Part *)

(** [f.get(k)] *)
Definition get_method (f k : field) : result (option oid) :=
  match f, k with
  | FDict d, FVal k => Ok (dict_get d k)
  | FDict _, _ => Raise TypeError
  | _, _ => Raise AttributeError
  end.

(** [Part.find_library]: [self.get_root().libraries.get(self.library)] *)
Definition find_library (depth : nat) (h : heap) (self : oid) : result (option oid) :=
  let* r := get_root depth h self in
  let* libraries := get_field h r "libraries" in
  let* library := get_field h self "library" in
  get_method libraries library.

(** [Part.find_deviceset] *)
Definition find_deviceset (depth : nat) (h : heap) (self : oid) : result (option oid) :=
  let* lib := find_library depth h self in
  match lib with
  | None => Raise AttributeError
  | Some lib =>
      let* devicesets := get_field h lib "devicesets" in
      let* deviceset := get_field h self "deviceset" in
      get_method devicesets deviceset
  end.

(** [Part.find_device] *)
Definition find_device (depth : nat) (h : heap) (self : oid) : result (option oid) :=
  let* deviceset := find_deviceset depth h self in
  match deviceset with
  | None => Raise AttributeError
  | Some deviceset =>
      let* devices := get_field h deviceset "devices" in
      let* device := get_field h self "device" in
      get_method devices device
  end.

(** [Part.find_technology] *)
Definition find_technology (depth : nat) (h : heap) (self : oid) : result (option oid) :=
  let* device := find_device depth h self in
  match device with
  | None => Raise AttributeError
  | Some device =>
      let* technologies := get_field h device "technologies" in
      let* technology := get_field h self "technology" in
      get_method technologies technology
  end.

(** [x.name] of the object a [find_] method returns *)
Definition found_name (h : heap) (r : result (option oid)) : result field :=
  let* o := r in
  match o with
  | None => Raise AttributeError
  | Some o => get_field h o "name"
  end.

(** [try: assert e is not None / except Exception:] takes the handler unless
    [e] returned an object *)
Definition resolved (r : result (option oid)) : bool :=
  match r with
  | Ok (Some _) => true
  | _ => false
  end.

(** the three messages of [Part.check_sanity] *)
Definition library_missing (h : heap) (self : oid) : result string :=
  let* library := get_field h self "library" in
  let* s := str_add_field "Library '" library in
  let* name := get_field h self "name" in
  Ok (s +:+ "' missing for " +:+ field_str name).

Definition deviceset_missing (depth : nat) (h : heap) (self : oid) : result string :=
  let* lname := found_name h (find_library depth h self) in
  let* s := str_add_field "DeviceSet '" lname in
  let* deviceset := get_field h self "deviceset" in
  let* s := str_add_field (s +:+ ":") deviceset in
  let* name := get_field h self "name" in
  Ok (s +:+ "' missing for " +:+ field_str name).

Definition device_missing (depth : nat) (h : heap) (self : oid) : result string :=
  let* lname := found_name h (find_library depth h self) in
  let* s := str_add_field "Device '" lname in
  let* dname := found_name h (find_deviceset depth h self) in
  let* s := str_add_field (s +:+ ":") dname in
  let* device := get_field h self "device" in
  let* s := str_add_field (s +:+ ":") device in
  let* name := get_field h self "name" in
  Ok (s +:+ "' missing for " +:+ field_str name).

(** [raise HighEagleError(msg)], where building [msg] may raise itself *)
Definition raise_HighEagleError {A : Type} (msg : result string) : result A :=
  let* m := msg in Raise (HighEagleError m).

(** the message of [EagleFilePart.check_sanity]:
    ["Parent pointer mismatch.  Child = " + str(i) + "; child.parent = "
     + str(i.parent) + "; Parent = " + str(self)] *)
Definition parent_mismatch (h : heap) (i : oid) (p : option oid) (self : oid)
  : result string :=
  let* si := object_str h i in
  let* sp := opt_object_str h p in
  let* ss := object_str h self in
  Ok ("Parent pointer mismatch.  Child = " +:+ si +:+ "; child.parent = "
        +:+ sp +:+ "; Parent = " +:+ ss).

(** One turn of the loop of [EagleFilePart.check_sanity]; [rec] is the
    [check_sanity] the child is sent. *)
Definition check_child (rec : heap -> oid -> result unit) (h : heap) (self : oid)
    (_ : unit) (i : oid) : result unit :=
  let* x := deref h i in
  if bool_decide (parent x = Some self) then rec h i
  else raise_HighEagleError (parent_mismatch h i (parent x) self).

(** [EagleFilePart.check_sanity] *)
Definition EagleFilePart_check_sanity (rec : heap -> oid -> result unit)
    (h : heap) (self : oid) : result unit :=
  let* children := get_children h self in
  for_each (check_child rec h self) children tt.

(** [Part.check_sanity] *)
Definition Part_check_sanity (depth : nat) (rec : heap -> oid -> result unit)
    (h : heap) (self : oid) : result unit :=
  if negb (resolved (find_library depth h self)) then
    raise_HighEagleError (library_missing h self)
  else if negb (resolved (find_deviceset depth h self)) then
    raise_HighEagleError (deviceset_missing depth h self)
  else if negb (resolved (find_device depth h self)) then
    raise_HighEagleError (device_missing depth h self)
  else EagleFilePart_check_sanity rec h self.

(** [self.check_sanity()], sent to the method of the class of [self] *)
Fixpoint check_sanity (depth : nat) (h : heap) (self : oid) : result unit :=
  match depth with
  | O => Raise RuntimeError
  | S d =>
      let* x := deref h self in
      if isinstance x "Part" then Part_check_sanity d (check_sanity d) h self
      else EagleFilePart_check_sanity (check_sanity d) h self
  end.

End Model.

(** ** Construction and convertToExternal *)

(** What the template is instantiated with for one tag, as far as the
    constructor reads it. *)
Record Tag : Type := {
  classes : list string;            (* the class and what it inherits from *)
  attrs : list string;              (* [tag.attrs] *)
  tlists : list string;             (* [tag.lists] *)
  tmaps : list (string * string)    (* [tag.maps] with their [mapkey] *)
}.

Definition kwarg (kwargs : list (string * field)) (a : string) (default : field)
  : field :=
  match assoc a kwargs with
  | Some f => f
  | None => default
  end.

(** The generated [__init__]: an attribute is what was passed or [None], a
    list section what was passed or [[]], a map section what was passed or
    [{}]; a keyword the signature does not have is a [TypeError]. *)
Definition construct (t : Tag) (kwargs : list (string * field)) : result object :=
  let names := attrs t ++ tlists t ++ map fst (tmaps t) in
  if forallb (fun kw => bool_decide (fst kw ∈ names)) kwargs then
    Ok {| mro := classes t;
          parent := None;
          fields :=
            list_to_map
              (map (fun a => (a, kwarg kwargs a (FVal VNone))) (attrs t)
               ++ map (fun l => (l, kwarg kwargs l (FList []))) (tlists t)
               ++ map (fun m => (fst m, kwarg kwargs (fst m) (FDict []))) (tmaps t));
          lists := tlists t;
          maps := tmaps t;
          tree := None |}
  else Raise TypeError.

(** [Base_Attribute]: the keywords [Attribute.__init__] hands on *)
Definition Attribute_tag : Tag :=
  {| classes := ["Attribute"; "Base_Attribute"; "EagleFilePart"];
     attrs := ["layer"; "ratio"; "name"; "value"; "y"; "x"; "constant"; "font";
               "rot"; "display"; "size"];
     tlists := [];
     tmaps := [] |}.

(** [Attribute(...)] with the keywords given, [in_library] left at its
    default [True] *)
Definition new_Attribute (kwargs : list (string * field)) : result object :=
  let* x := construct Attribute_tag kwargs in
  Ok (setattr x "in_library" (FVal (VBool true))).

(** [get_{{m.name}}] / [get_{{l.name}}]: the section as it is *)
Definition get_section (x : string) (h : heap) (self : oid) : result field :=
  let* o := deref h self in
  if bool_decide (x ∈ lists o) || bool_decide (x ∈ map fst (maps o))
  then getattr o x
  else Raise AttributeError.

(** [len(f)] *)
Definition py_len (f : field) : result nat :=
  match f with
  | FList l => Ok (length l)
  | FDict d => Ok (length d)
  | FVal (VStr s) => Ok (String.length s)
  | FVal _ => Raise TypeError
  end.

(** [f.values()] *)
Definition values (f : field) : result (list oid) :=
  match f with
  | FDict d => Ok (dict_values d)
  | _ => Raise AttributeError
  end.

(** [t.add_attribute(Attribute(name="_EXTERNAL_"))] *)
Definition add_marker (h : heap) (t : oid) : result heap :=
  let* a := new_Attribute [("name", FVal (VStr "_EXTERNAL_"))] in
  let '(h, a) := alloc h a in
  add_map "attributes" h t a.

Section Externalize.
(** The tags of [Device] and [Technology] come from the schema table. *)
Variables Device_tag Technology_tag : Tag.

(** [convertToExternal] *)
Definition convertToExternal (h : heap) (self : oid) : result heap :=
  let* devices := get_section "devices" h self in
  let* n := py_len devices in
  let* (h, d) :=
    if bool_decide (0 < n)%nat then
      let* vs := values devices in
      let* d := match vs with d :: _ => Ok d | [] => Raise IndexError end in
      let* h := for_each (fun h i => remove_map "devices" h self i) vs h in
      let* h := set_field h d "name" (FVal (VStr "")) in
      let* h := set_field h d "package" (FVal (VStr "_EXTERNAL_")) in
      let* h := clear "connects" h d in
      Ok (h, d)
    else
      let* t := construct Technology_tag [("name", FVal (VStr ""))] in
      let '(h, t) := alloc h t in
      let* d := construct Device_tag [("name", FVal (VStr ""));
                                      ("package", FVal (VStr "_EXTERNAL_"));
                                      ("technologies", FList [t])] in
      Ok (alloc h d) in
  let* h := add_map "devices" h self d in
  let* technologies := get_section "technologies" h d in
  let* ts := values technologies in
  for_each add_marker ts h.

End Externalize.

(** ** EagleFile: load and save *)

(** lxml, the DTD validator and the generated parse and serialize methods of
    the file classes, whose schema table is not part of the module. *)
Class External : Type := {
  (* [ET.parse] on the text of a file; [None]: [XMLSyntaxError] *)
  ET_parse : string -> option element;
  (* [ET.tostring(ET.ElementTree(et), pretty_print=True)] *)
  ET_tostring : element -> string;
  (* [EagleFile.DTD.validate(et)] *)
  DTD_validate : element -> bool;
  (* [str] of each entry of [EagleFile.DTD.error_log.filter_from_errors()]
     after validating [et] *)
  DTD_error_log : element -> list string;
  (* [cls.from_et(root, None)] for the file class named [cls] *)
  from_et : string -> element -> heap -> result (heap * oid);
  (* [self.get_et()] *)
  get_et : heap -> oid -> result element
}.

(** The file system and the log. *)
Record world : Type := {
  files : gmap string string;
  writable : string -> bool;       (* may [open(path, "w")] succeed *)
  log : list (string * string)     (* level and message, latest first *)
}.

Definition log_msg (level msg : string) (w : world) : world :=
  {| files := files w; writable := writable w; log := (level, msg) :: log w |}.

(** [f = open(path, "w")], which truncates, then [f.write(text)] *)
Definition write_file (path text : string) (w : world) : world :=
  {| files := <[path := text]> (files w); writable := writable w; log := log w |}.

Definition dquote : string := String (ascii_of_nat 34) EmptyString.
Definition newline : string := String (ascii_of_nat 10) EmptyString.

Definition header : string :=
  "<?xml version=" +:+ dquote +:+ "1.0" +:+ dquote +:+ " encoding="
    +:+ dquote +:+ "utf-8" +:+ dquote +:+ "?>" +:+ newline
    +:+ "<!DOCTYPE eagle SYSTEM " +:+ dquote +:+ "eagle.dtd" +:+ dquote +:+ ">"
    +:+ newline.

(** [et.findall(".//*")]: the elements below [et], in document order *)
Fixpoint descendants (et : element) : list element :=
  match et with
  | Element _ _ _ children =>
      flat_map (fun c => c :: descendants c) children
  end.

Definition attrib_values (et : element) : list string :=
  match et with
  | Element _ attrib _ _ => map snd attrib
  end.

(** [s[-4:]] *)
Definition last4 (s : string) : string :=
  substring (String.length s - 4) 4 s.

Section Files.
Context `{PyBuiltins} `{External}.

(** [errors[0]] of the validator's log *)
Definition first_error (et : element) : result string :=
  match DTD_error_log et with
  | e :: _ => Ok e
  | [] => Raise IndexError
  end.

(** [EagleFile.validate] *)
Definition validate (h : heap) (self : oid) (w : world) : world * result bool :=
  match get_et h self with
  | Raise e => (w, Raise e)
  | Ok et =>
      let v := DTD_validate et in
      let logged : world * result unit :=
        if negb v then
          match (let* filename := get_field h self "filename" in
                 let* e := first_error et in
                 Ok ("Eagle file opened as '" +:+ field_str filename
                       +:+ "' is invalid: " +:+ e)) with
          | Ok m => (log_msg "warning" m w, Ok tt)
          | Raise e => (w, Raise e)
          end
        else
          match (let* filename := get_field h self "filename" in
                 let* s := str_add_field "Eagle file opened as '" filename in
                 Ok (s +:+ "' parsed to valid Eagle data.")) with
          | Ok m => (log_msg "info" m w, Ok tt)
          | Raise e => (w, Raise e)
          end in
      match logged with
      | (w, Raise e) => (w, Raise e)
      | (w, Ok _) =>
          if existsb (fun t => existsb (fun a => String.eqb a "None")
                                 (attrib_values t)) (descendants et)
          then
            match get_field h self "filename" with
            | Ok filename =>
                (log_msg "warning"
                   ("Eagle file opened as '" +:+ field_str filename
                      +:+ "' has 'None' attribute value") w, Ok false)
            | Raise e => (w, Raise e)
            end
          else (w, Ok v)
      end
  end.

(** [EagleFile.write] *)
Definition write (depth : nat) (h : heap) (self : oid) (filename : string)
    (w : world) : world * result unit :=
  match check_sanity depth h self with
  | Raise e => (w, Raise e)
  | Ok _ =>
      match validate h self w with
      | (w, Raise e) => (w, Raise e)
      | (w, Ok v) =>
          if negb v then
            let path := filename +:+ ".broken.xml" in
            if writable w path then
              let w := write_file path "" w in
              match get_et h self with
              | Raise e => (w, Raise e)
              | Ok et =>
                  let w := write_file path (header +:+ ET_tostring et) w in
                  (w, raise_HighEagleError (
                        let* e := first_error et in
                        Ok ("element tree does not validate" +:+ e)))
              end
            else (w, Raise IOError)
          else
            if writable w filename then
              let w := write_file filename "" w in
              match get_et h self with
              | Raise e => (w, Raise e)
              | Ok et => (write_file filename (header +:+ ET_tostring et) w, Ok tt)
              end
            else (w, Raise IOError)
      end
  end.

(** The end of [from_file], from the dispatch on the suffix on: the root
    is parsed by the class of the suffix, the file takes its name and its
    tree, and is checked. *)
Definition from_root (depth : nat) (filename : string) (root : element)
    (h : heap) : result (heap * oid) :=
  let* (h, ef) :=
    if String.eqb (last4 filename) ".sch" then from_et "SchematicFile" root h
    else if String.eqb (last4 filename) ".brd" then from_et "BoardFile" root h
    else if String.eqb (last4 filename) ".lbr" then from_et "LibraryFile" root h
    else Raise (HighEagleError
                  ("Unknown file suffix: '" +:+ last4 filename +:+ "'")) in
  let* h := set_field h ef "filename" (FVal (VStr filename)) in
  let* x := deref h ef in
  let h := <[ef := with_tree x root]> h in
  let* _ := check_sanity depth h ef in
  Ok (h, ef).

(** [EagleFile.from_file] *)
Definition from_file (depth : nat) (filename : string) (bestEffort : bool)
    (h : heap) (w : world) : world * result (heap * oid) :=
  match files w !! filename with
  | None => (w, Raise IOError)
  | Some text =>
      match ET_parse text with
      | None =>
          (w, Raise (EagleFormatError
                       ("Eagle file '" +:+ filename +:+
                        "' doesn't look like XML eagle file.  Try resaving with a newer version of eagle.")))
      | Some root =>
          let v := DTD_validate root in
          let invalid :=
            let* e := first_error root in
            Ok ("Eagle file opened as '" +:+ filename
                  +:+ "' is invalid on disk: " +:+ e) in
          let checked : world * result unit :=
            if negb v then
              if bestEffort then
                match invalid with
                | Ok m => (log_msg "warning" m w, Ok tt)
                | Raise e => (w, Raise e)
                end
              else
                match invalid with
                | Ok m => (w, Raise (EagleFormatError m))
                | Raise e => (w, Raise e)
                end
            else (w, Ok tt) in
          match checked with
          | (w, Raise e) => (w, Raise e)
          | (w, Ok _) => (w, from_root depth filename root h)
          end
      end
  end.

End Files.

(** ** Further methods of the generated classes, of EagleFile and of Part *)

(** An argument that is a scalar or an object. *)
Inductive pyarg : Type :=
| AVal (v : value)
| AObj (o : oid).

(** [del f[k]] *)
Definition delitem (f k : field) : result field :=
  match f, k with
  | FDict d, FVal k =>
      match dict_del d k with
      | Some d' => Ok (FDict d')
      | None => Raise KeyError
      end
  | FList xs, FVal k => let* xs' := list_delitem xs k in Ok (FList xs')
  | _, _ => Raise TypeError
  end.

(** [get_nth_{{l.accessorName}}]: [self.l[n]] (a section that holds a str
    would yield a str, which is no object of the store: a [TypeError] here) *)
Definition get_nth (l : string) (h : heap) (self : oid) (n : value) : result oid :=
  let* o := deref h self in
  if bool_decide (l ∈ lists o) then
    let* f := getattr o l in
    getitem f (FVal n)
  else Raise AttributeError.

(** [get_{{m.accessorName}}(key)]: [self.m[key]] *)
Definition get_item (m : string) (h : heap) (self : oid) (key : value) : result oid :=
  let* o := deref h self in
  match assoc m (maps o) with
  | None => Raise AttributeError
  | Some _ =>
      let* f := getattr o m in
      getitem f (FVal key)
  end.

(** [EagleFile.find_library_by_name]: [self.libraries.get(l)] *)
Definition find_library_by_name (h : heap) (self : oid) (l : value)
  : result (option oid) :=
  let* libraries := get_field h self "libraries" in
  get_method libraries (FVal l).

(** [Part.set_device] *)
Definition set_device (h : heap) (self : oid) (library deviceset device : value)
  : result heap :=
  let assign (a : string) (v : value) (h : heap) : result heap :=
    match v with
    | VNone => Ok h
    | _ => set_field h self a (FVal v)
    end in
  let* h := assign "library" library h in
  let* h := assign "deviceset" deviceset h in
  assign "device" device h.

(** [Part.get_package] *)
Definition get_package (depth : nat) (h : heap) (self : oid) : result (option oid) :=
  let* device := find_device depth h self in
  let* lib := find_library depth h self in
  match device with
  | None => Raise AttributeError
  | Some device =>
      let* package := get_field h device "package" in
      match package with
      | FVal VNone => Ok None
      | _ =>
          match lib with
          | None => Raise AttributeError
          | Some lib =>
              let* packages := get_field h lib "packages" in
              get_method packages package
          end
      end
  end.

(** [Attribute(name=name, value=value, in_library=False)] *)
Definition new_part_Attribute (name value : value) : result object :=
  let* x := construct Attribute_tag [("name", FVal name); ("value", FVal value)] in
  Ok (setattr x "in_library" (FVal (VBool false))).

(** [Part.set_attribute] *)
Definition set_attribute (h : heap) (self : oid) (name value : value) : result heap :=
  let* attributes := get_field h self "attributes" in
  let* present := py_in name attributes in
  if present then
    let* a := getitem attributes (FVal name) in
    set_field h a "value" (FVal value)
  else
    let* n := new_part_Attribute name value in
    let '(h, n) := alloc h n in
    add_map "attributes" h self n.

(** [for x in f]: the objects a loop over [f] visits.  A loop over a dict
    visits its keys and a loop over a str its characters, none of which is
    an object of the tree: the first thing the loops below do with one
    raises [AttributeError]. *)
Definition iterate (f : field) : result (list oid) :=
  match f with
  | FList xs => Ok xs
  | FDict [] => Ok []
  | FDict _ => Raise AttributeError
  | FVal (VStr s) => if String.eqb s EmptyString then Ok [] else Raise AttributeError
  | FVal _ => Raise TypeError
  end.

(** [clone] of a generated class that is no file class and has no
    singleton section: [n = copy.copy(self)], then every map section and
    every list section of [n] is emptied and filled, through the generated
    [add_] accessor, with clones of what the section of [self] holds, and
    [n.parent = None].  A file is outside this description: it keeps
    [layersByName] outside its generated sections, [copy.copy] shares that
    dict between the file and its copy, and the copy's [add_layer] writes
    into it. *)
Fixpoint clone (depth : nat) (h : heap) (self : oid) : result (heap * oid) :=
  match depth with
  | O => Raise RuntimeError
  | S d =>
      let* x := deref h self in
      let '(h, n) := alloc h x in
      let clone_into (add : heap -> oid -> oid -> result heap) (h : heap) (c : oid) :=
        let* (h, c') := clone d h c in
        add h n c' in
      let* h := for_each (fun h m =>
                  let* h := set_field h n (fst m) (FDict []) in
                  let* f := get_field h self (fst m) in
                  let* vs := values f in
                  for_each (clone_into (add_map (fst m))) vs h) (maps x) h in
      let* h := for_each (fun h l =>
                  let* h := set_field h n l (FList []) in
                  let* f := get_field h self l in
                  let* xs := iterate f in
                  for_each (clone_into (add_list l)) xs h) (lists x) h in
      let* h := set_parent h n None in
      Ok (h, n)
  end.

Section MoreModel.
Context `{PyBuiltins}.

(** [EagleFile.remove_layer] of a [Layer]: the branch [isinstance(layer, Layer)] *)
Definition remove_Layer (h : heap) (self layer : oid) : result heap :=
  let* x := deref h self in
  let* layersByName := getattr x "layersByName" in
  let* name := get_field h layer "name" in
  let* filed := getitem layersByName name in
  let* h := set_parent h filed None in
  let* x := deref h self in
  let* layersByName := getattr x "layersByName" in
  let* name := get_field h layer "name" in
  let* layersByName' := delitem layersByName name in
  let h := <[self := setattr x "layersByName" layersByName']> h in
  let* x := deref h self in
  let* layers := getattr x "layers" in
  let* number := get_field h layer "number" in
  let* n := match number with FVal v => py_int v | _ => Raise TypeError end in
  let* layers' := delitem layers (FVal (VInt n)) in
  Ok (<[self := setattr x "layers" layers']> h).

(** [remove_layer(l)] for the object [l] a name or a number led to *)
Definition remove_layer_obj (h : heap) (self layer : oid) : result heap :=
  let* l := deref h layer in
  if isinstance l "Layer" then remove_Layer h self layer
  else raise_HighEagleError (
         let* s := object_str h layer in Ok ("Invalid layer spec: " +:+ s)).

(** [EagleFile.remove_layer]; a str is a name and an int a number (an int
    too large for a machine word is a long to the interpreter, and no layer
    number) *)
Definition remove_layer (h : heap) (self : oid) (layer : pyarg) : result heap :=
  match layer with
  | AVal (VStr s) =>
      let* layersByName := get_field h self "layersByName" in
      let* l := getitem layersByName (FVal (VStr s)) in
      remove_layer_obj h self l
  | AVal (VInt n) =>
      let* layers := get_field h self "layers" in
      let* l := getitem layers (FVal (VInt n)) in
      remove_layer_obj h self l
  | AObj l => remove_layer_obj h self l
  | AVal v => Raise (HighEagleError ("Invalid layer spec: " +:+ py_str v))
  end.

End MoreModel.

Section MoreFiles.
Context `{PyBuiltins} `{External}.

(** [EagleFile.from_file_by_type]; [ftype] is the name of the class *)
Definition from_file_by_type (depth : nat) (filename ftype : string) (h : heap)
    (w : world) : world * result (heap * oid) :=
  match from_file depth filename true h w with
  | (w, Raise e) => (w, Raise e)
  | (w, Ok (h, n)) =>
      (w,
       let* x := deref h n in
       if isinstance x ftype then Ok (h, n)
       else Raise (HighEagleError ("File is '" +:+ filename +:+ "' is not " +:+ ftype)))
  end.

(** fixEagle.py run without [--layers]: each file is loaded and written back
    under its own name; the first exception ends the run. *)
Fixpoint fixEagle (depth : nat) (fs : list string) (h : heap) (w : world)
  : world * result heap :=
  match fs with
  | [] => (w, Ok h)
  | f :: fs =>
      match from_file depth f true h w with
      | (w, Raise e) => (w, Raise e)
      | (w, Ok (h, ef)) =>
          match write depth h ef f w with
          | (w, Raise e) => (w, Raise e)
          | (w, Ok _) => fixEagle depth fs h w
          end
      end
  end.

End MoreFiles.

(** ** Data for the examples *)

Fixpoint digits (s : string) (acc : Z) : option Z :=
  match s with
  | EmptyString => Some acc
  | String c r =>
      let n := nat_of_ascii c in
      if (Nat.leb 48 n && Nat.leb n 57)%bool
      then digits r (10 * acc + Z.of_nat (n - 48))
      else None
  end.

(** Builtins for the examples: [int] reads unsigned decimal digits, and no
    string is a float. *)
Definition demo_builtins : PyBuiltins :=
  {| int_of_str := fun s => match s with EmptyString => None | _ => digits s 0 end;
     float_of_str := fun _ => None;
     str_of_float := fun f => match f with Float r => r end;
     int_of_float := fun _ => None;
     float_truth := fun _ => true |}.

(** An instance of a generated class with no section. *)
Definition leaf (cls : string) (p : option oid) (fs : list (string * field)) : object :=
  {| mro := [cls; "EagleFilePart"]; parent := p; fields := list_to_map fs;
     lists := []; maps := []; tree := None |}.

(** A wire that belongs to nothing. *)
Definition detached : heap := [leaf "Wire" None [("layer", FVal (VStr "Top"))]].

(** An instance of a file class with the sections given. *)
Definition file_obj (cls : string) (fs : list (string * field)) (ls : list string)
    (ms : list (string * string)) : object :=
  {| mro := [cls; "EagleFile"; "EagleFilePart"]; parent := None;
     fields := list_to_map fs; lists := ls; maps := ms; tree := None |}.

Definition Layer_obj (p : option oid) (number : Z) (name : string) : object :=
  leaf "Layer" p [("number", FVal (VInt number)); ("name", FVal (VStr name))].

(** A board with layer 1 "Top", and a second layer numbered 1, "Bottom",
    not yet added. *)
Definition two_layers : heap :=
  [ file_obj "BoardFile"
      [("filename", FVal (VStr "a.brd"));
       ("layers", FDict [(VInt 1, 1%nat)]);
       ("layersByName", FDict [(VStr "Top", 1%nat)])] [] [];
    Layer_obj (Some 0%nat) 1 "Top";
    Layer_obj None 1 "Bottom" ].

(** An instance of a generated class with the sections given. *)
Definition node (cls : string) (p : option oid) (fs : list (string * field))
    (ls : list string) (ms : list (string * string)) : object :=
  {| mro := [cls; "EagleFilePart"]; parent := p; fields := list_to_map fs;
     lists := ls; maps := ms; tree := None |}.

Definition Part_obj (p : option oid) (name library deviceset device technology : string)
  : object :=
  {| mro := ["Part"; "Base_Part"; "EagleFilePart"]; parent := p;
     fields := list_to_map
       [("name", FVal (VStr name)); ("library", FVal (VStr library));
        ("deviceset", FVal (VStr deviceset)); ("device", FVal (VStr device));
        ("technology", FVal (VStr technology)); ("value", FVal VNone);
        ("attributes", FDict []); ("variants", FDict [])];
     lists := []; maps := [("attributes", "name"); ("variants", "name")];
     tree := None |}.

(** A schematic with one library, one device-set, one device with one
    technology, and the part R1 that names them; R1 names a technology "T9"
    the device does not have. *)
Definition schematic : heap :=
  [ file_obj "SchematicFile"
      [("filename", FVal (VStr "a.sch")); ("layers", FDict []);
       ("layersByName", FDict []);
       ("libraries", FDict [(VStr "lib", 1%nat)]);
       ("parts", FDict [(VStr "R1", 5%nat)])]
      [] [("libraries", "name"); ("parts", "name")];
    node "Library" (Some 0%nat)
      [("name", FVal (VStr "lib")); ("devicesets", FDict [(VStr "DS", 2%nat)])]
      [] [("devicesets", "name")];
    node "Deviceset" (Some 1%nat)
      [("name", FVal (VStr "DS")); ("devices", FDict [(VStr "D", 3%nat)])]
      [] [("devices", "name")];
    node "Device" (Some 2%nat)
      [("name", FVal (VStr "D")); ("package", FVal (VStr "P"));
       ("connects", FList []); ("technologies", FDict [(VStr "", 4%nat)])]
      ["connects"] [("technologies", "name")];
    node "Technology" (Some 3%nat)
      [("name", FVal (VStr "")); ("attributes", FDict [])]
      [] [("attributes", "name")];
    Part_obj (Some 0%nat) "R1" "lib" "DS" "D" "T9" ].

(** A schematic with no library at all and the part R1, whose parent is the
    file that holds it. *)
Definition dangling_part : heap :=
  [ file_obj "SchematicFile"
      [("filename", FVal (VStr "b.sch")); ("layers", FDict []);
       ("layersByName", FDict []);
       ("libraries", FDict []);
       ("parts", FDict [(VStr "R1", 1%nat)])]
      [] [("libraries", "name"); ("parts", "name")];
    Part_obj (Some 0%nat) "R1" "lib" "DS" "D" "" ].

(** Stand-ins for lxml, the DTD and the generated file classes: the only
    well-formed text is "<eagle/>"; a file serializes to an <eagle> element
    with its [version]; the DTD wants a version that is not empty; a file
    class parses any root to an empty file. *)
Definition demo_external : External :=
  {| ET_parse := fun text =>
       if String.eqb text "<eagle/>"
       then Some (Element "eagle" [("version", "6.5")] None [])
       else if String.eqb text "<eagle version=''/>"
       then Some (Element "eagle" [("version", EmptyString)] None [])
       else None;
     ET_tostring := fun et =>
       match et with
       | Element _ attrib _ _ =>
           "<eagle version='" +:+ default EmptyString (assoc "version" attrib) +:+ "'/>"
       end;
     DTD_validate := fun et =>
       match et with
       | Element _ attrib _ _ =>
           negb (String.eqb (default EmptyString (assoc "version" attrib)) EmptyString)
       end;
     DTD_error_log := fun et =>
       match et with
       | Element _ attrib _ _ =>
           if String.eqb (default EmptyString (assoc "version" attrib)) EmptyString
           then ["attribute version of element eagle is empty"] else []
       end;
     from_et := fun cls root h =>
       Ok (alloc h (file_obj cls
                      [("filename", FVal VNone); ("layers", FDict []);
                       ("layersByName", FDict []);
                       ("version", FVal (VStr "6.5"))] [] []));
     get_et := fun h o =>
       let* x := deref h o in
       let* v := getattr x "version" in
       Ok (Element "eagle" [("version", @field_str demo_builtins v)] None []) |}.

(** A world with a well-formed file, a file that is no XML and a file the
    DTD refuses; every path can be written. *)
Definition demo_world : world :=
  {| files := list_to_map [("a.sch", "<eagle/>"); ("b.sch", "PK...");
                           ("c.sch", "<eagle version=''/>")];
     writable := fun _ => true;
     log := [] |}.

(** A loaded schematic whose version is empty, and one whose version is not. *)
Definition unversioned : heap :=
  [ file_obj "SchematicFile"
      [("filename", FVal (VStr "c.sch")); ("layers", FDict []);
       ("layersByName", FDict []); ("version", FVal (VStr EmptyString))] [] [] ].

Definition versioned : heap :=
  [ file_obj "SchematicFile"
      [("filename", FVal (VStr "a.sch")); ("layers", FDict []);
       ("layersByName", FDict []); ("version", FVal (VStr "6.5"))] [] [] ].

(** The tags of [Device] and [Technology] for the examples. *)
Definition demo_Device_tag : Tag :=
  {| classes := ["Device"; "EagleFilePart"];
     attrs := ["name"; "package"];
     tlists := ["connects"];
     tmaps := [("technologies", "name")] |}.

Definition demo_Technology_tag : Tag :=
  {| classes := ["Technology"; "EagleFilePart"];
     attrs := ["name"];
     tlists := [];
     tmaps := [("attributes", "name")] |}.

Definition Attribute_obj (p : option oid) (name value : string) : object :=
  {| mro := ["Attribute"; "Base_Attribute"; "EagleFilePart"]; parent := p;
     fields := list_to_map [("name", FVal (VStr name)); ("value", FVal (VStr value));
                            ("constant", FVal VNone); ("in_library", FVal (VBool true))];
     lists := []; maps := []; tree := None |}.

(** A device-set with two devices: A, with one connect and the attribute TOL
    on its technology, and B, with the attribute PWR on its technology. *)
Definition two_devices : heap :=
  [ node "Deviceset" None
      [("name", FVal (VStr "R"));
       ("devices", FDict [(VStr "A", 1%nat); (VStr "B", 2%nat)])]
      [] [("devices", "name")];
    node "Device" (Some 0%nat)
      [("name", FVal (VStr "A")); ("package", FVal (VStr "0603"));
       ("connects", FList [3%nat]); ("technologies", FDict [(VStr "", 4%nat)])]
      ["connects"] [("technologies", "name")];
    node "Device" (Some 0%nat)
      [("name", FVal (VStr "B")); ("package", FVal (VStr "0805"));
       ("connects", FList []); ("technologies", FDict [(VStr "", 5%nat)])]
      ["connects"] [("technologies", "name")];
    leaf "Connect" (Some 1%nat) [("gate", FVal (VStr "G$1")); ("pin", FVal (VStr "1"))];
    node "Technology" (Some 1%nat)
      [("name", FVal (VStr "")); ("attributes", FDict [(VStr "TOL", 6%nat)])]
      [] [("attributes", "name")];
    node "Technology" (Some 2%nat)
      [("name", FVal (VStr "")); ("attributes", FDict [(VStr "PWR", 7%nat)])]
      [] [("attributes", "name")];
    Attribute_obj (Some 4%nat) "TOL" "1%";
    Attribute_obj (Some 5%nat) "PWR" "0.1W" ].

(** A device-set with no device. *)
Definition no_device : heap :=
  [ node "Deviceset" None
      [("name", FVal (VStr "R")); ("devices", FDict [])]
      [] [("devices", "name")] ].

(** The schematic with no library and its part R1, and a second part of the
    same name that belongs to nothing. *)
Definition same_name : heap :=
  dangling_part ++ [Part_obj None "R1" "lib2" "DS" "D" ""].

(** The same, the second part being R2. *)
Definition other_name : heap :=
  dangling_part ++ [Part_obj None "R2" "lib" "DS" "D" ""].

(** A device with two connects, and a third connect not yet added. *)
Definition connected : heap :=
  [ node "Device" None
      [("name", FVal (VStr "D")); ("package", FVal (VStr "P"));
       ("connects", FList [1%nat; 2%nat]); ("technologies", FDict [])]
      ["connects"] [("technologies", "name")];
    leaf "Connect" (Some 0%nat) [("gate", FVal (VStr "G$1")); ("pin", FVal (VStr "1"))];
    leaf "Connect" (Some 0%nat) [("gate", FVal (VStr "G$1")); ("pin", FVal (VStr "2"))];
    leaf "Connect" None [("gate", FVal (VStr "G$1")); ("pin", FVal (VStr "3"))] ].

(** The board with layer 1 "Top" and a layer 16 "Bottom" not yet added, and
    a wire. *)
Definition fresh_layer : heap :=
  [ file_obj "BoardFile"
      [("filename", FVal (VStr "a.brd"));
       ("layers", FDict [(VInt 1, 1%nat)]);
       ("layersByName", FDict [(VStr "Top", 1%nat)])] [] [];
    Layer_obj (Some 0%nat) 1 "Top";
    Layer_obj None 16 "Bottom";
    leaf "Wire" None [("layer", FVal (VStr "Top"))] ].

(** A schematic as the constructor leaves it: no file name yet. *)
Definition unnamed : heap :=
  [ file_obj "SchematicFile"
      [("filename", FVal VNone); ("layers", FDict []);
       ("layersByName", FDict []); ("version", FVal (VStr "6.5"))] [] [] ].

(** Stand-ins with a DTD that accepts every tree and a serializer that
    gives every file one part whose value was never set. *)
Definition lenient_external : External :=
  {| ET_parse := fun _ => None;
     ET_tostring := fun _ => "<eagle/>";
     DTD_validate := fun _ => true;
     DTD_error_log := fun _ => [];
     from_et := fun _ _ _ => Raise ValueError;
     get_et := fun _ _ =>
       Ok (Element "eagle" [("version", "6.5")] None
             [Element "part" [("name", "R1"); ("value", "None")] None []]) |}.

(** The schematic with its library, and a second part R2 that names a
    library the file does not have. *)
Definition dangling_library : heap :=
  schematic ++ [Part_obj (Some 0%nat) "R2" "nolib" "DS" "D" ""].

(** Two objects, each the parent of the other. *)
Definition looped : heap := [leaf "Wire" (Some 1%nat) []; leaf "Wire" (Some 0%nat) []].

(** ** Predicates the statements use *)

(** What the attribute [a] of the object at [o] holds, if there is one. *)
Definition fld (h : heap) (o : oid) (a : string) : option field :=
  match h !! o with
  | Some x => fields x !! a
  | None => None
  end.

(** [h'] is [h] after some calls that assigned parents and the attributes
    in [P] only: every object of [h] is still there, of the same class and
    with the same sections declared, and holds what it held in every
    attribute outside [P]. *)
Definition frame (P : oid -> string -> Prop) (h h' : heap) : Prop :=
  forall o x, h !! o = Some x ->
    exists x',
      h' !! o = Some x' /\ mro x' = mro x /\ lists x' = lists x /\
      maps x' = maps x /\ forall a, ~ P o a -> fields x' !! a = fields x !! a.

(** [clear_a] can run on the object at [o]: [a] is a list section that
    holds a list, or a map section that holds a dict, of objects. *)
Definition clearable (h : heap) (o : oid) (a : string) : Prop :=
  exists x, h !! o = Some x /\
    (((a ∈ lists x) /\
      (exists cs, fields x !! a = Some (FList cs) /\
                  forall c, c ∈ cs -> is_Some (h !! c))) \/
     ((a ∉ lists x) /\ is_Some (assoc a (maps x)) /\
      (exists d, fields x !! a = Some (FDict d) /\
                 forall c, c ∈ dict_values d -> is_Some (h !! c)))).

(** The attributes [add_layer] and [remove_layer] assign: the two indexes
    of the file at [self]. *)
Definition indexes (self : oid) : oid -> string -> Prop :=
  fun o a => o = self /\ (a = "layers" \/ a = "layersByName").

(** Some element below the root of [et] has an attribute whose value is
    the text "None": what the loop of [validate] looks for. *)
Definition None_attribute (et : element) : bool :=
  existsb (fun t => existsb (fun a => String.eqb a "None") (attrib_values t))
    (descendants et).

(** [h'] is [h] with its first [k] objects untouched, and no shorter. *)
Definition keeps (k : nat) (h h' : heap) : Prop :=
  (length h <= length h')%nat /\ forall i, (i < k)%nat -> h' !! i = h !! i.

(** The name of a list or map section of [x]. *)
Definition section_of (x : object) (a : string) : Prop :=
  a ∈ lists x \/ a ∈ map fst (maps x).

(** [Attribute(name="_EXTERNAL_")] *)
Definition marker_attribute : object :=
  match new_Attribute [("name", FVal (VStr "_EXTERNAL_"))] with
  | Ok x => x
  | Raise _ => leaf "Attribute" None []
  end.

(** The object at [a] is a marker attribute. *)
Definition is_marker (h : heap) (a : oid) : Prop :=
  exists x, h !! a = Some x /\ isinstance x "Attribute" = true /\
            fields x !! "name" = Some (FVal (VStr "_EXTERNAL_")).

(** [s] is one of the objects the section [f] holds. *)
Definition holds (f : field) (s : oid) : Prop :=
  match f with
  | FList xs => s ∈ xs
  | FDict d => s ∈ dict_values d
  | FVal _ => False
  end.



(** [o] is [r] or an object [clone] of [r] copies: a chain of list and map
    sections leads from [r] to it. *)
Inductive below (h : heap) (r : oid) : oid -> Prop :=
| below_root : below h r r
| below_child (o c : oid) (x : object) (a : string) (f : field) :
    below h r o -> h !! o = Some x -> section_of x a ->
    fields x !! a = Some f -> holds f c -> below h r c.

(** None of the objects [clone] of [r] copies is a file. *)
Definition no_file_below (h : heap) (r : oid) : Prop :=
  forall o x, below h r o -> h !! o = Some x -> isinstance x "EagleFile" = false.





Section Predicates.
Context `{PyBuiltins}.

(** The two indexes of a layer table agree: every layer of the name index
    is filed there under its own name, and in the number index under its own
    number. *)
Definition layers_in_sync (h : heap) (layers layersByName : dict) : bool :=
  forallb (fun kl =>
    match h !! kl.2 with
    | Some l =>
        match fields l !! "name", fields l !! "number" with
        | Some (FVal k), Some (FVal v) =>
            bool_decide (k = kl.1) &&
            match py_int v with
            | Ok n => bool_decide (dict_get layers (VInt n) = Some kl.2)
            | Raise _ => false
            end
        | _, _ => false
        end
    | None => false
    end) layersByName.

End Predicates.

(* ------------------------------------------------------------------ *)

(** * Attribute coercion *)

Section CoercionFacts.
Context `{PyBuiltins}.
Variables (depth : nat) (h : heap) (efp : option oid).

(** C10: for every attribute kind, declared or not, an absent value is
    coerced to an absent value and nothing is raised, by [parseByType] and by
    [unparseByType]; an absent raw value of kind [constant_bool] parses to
    absent, not to true. *)
Theorem coercion_of_None (attrType : string) :
  parseByType depth h efp attrType None = Ok (FVal VNone) /\
  unparseByType depth h efp attrType (FVal VNone) = Ok (FVal VNone).
Proof. split; reflexivity. Qed.

(** C2, amended: for kind [constant_bool], [parseByType] maps the raw string
    "no" to false, every other raw string to true and an absent raw value to
    absent; [unparseByType] maps false to "no" and true to absent. *)
Theorem constant_bool_coercion :
  parseByType depth h efp "constant_bool" (Some "no") = Ok (FVal (VBool false)) /\
  (forall s, s <> "no" ->
     parseByType depth h efp "constant_bool" (Some s) = Ok (FVal (VBool true))) /\
  parseByType depth h efp "constant_bool" None = Ok (FVal VNone) /\
  unparseByType depth h efp "constant_bool" (FVal (VBool false)) = Ok (FVal (VStr "no")) /\
  unparseByType depth h efp "constant_bool" (FVal (VBool true)) = Ok (FVal VNone).
Proof.
  repeat split; try reflexivity.
  intros s Hs. cbn.
  destruct (String.eqb_spec s "no") as [->|_]; [contradiction | reflexivity].
Qed.

End CoercionFacts.

(** C2 as stated fails on the absent raw value: it parses to absent, not to
    true. *)
Lemma constant_bool_absent_is_not_true :
  @parseByType demo_builtins 0 [] None "constant_bool" None
  <> Ok (FVal (VBool true)).
Proof. discriminate. Qed.

Lemma constant_bool_coercion_witness :
  @parseByType demo_builtins 0 [] None "constant_bool" (Some "yes")
  = Ok (FVal (VBool true)).
Proof.
  apply (proj1 (proj2 (@constant_bool_coercion demo_builtins 0 [] None))).
  discriminate.
Defined.

Section LayerReference.
Context `{PyBuiltins}.

(** C5: when [get_file] of a node returns [None], parsing a present raw
    value and unparsing a present value of kind [layer_string] on that node
    both raise: the layer table is looked for on [None], an
    [AttributeError]. *)
Theorem layer_string_needs_file (depth : nat) (h : heap) (e : oid)
    (s : string) (v : field) :
  get_file depth h e = Ok None ->
  v <> FVal VNone ->
  parseByType depth h (Some e) "layer_string" (Some s) = Raise AttributeError /\
  unparseByType depth h (Some e) "layer_string" v = Raise AttributeError.
Proof.
  intros Hf Hv. split.
  - cbn. rewrite Hf. reflexivity.
  - unfold unparseByType.
    destruct v as [[]| |]; try contradiction; cbn; rewrite Hf; reflexivity.
Qed.

End LayerReference.

Lemma layer_string_needs_file_witness :
  @parseByType demo_builtins 5 detached (Some 0%nat) "layer_string" (Some "1")
    = Raise AttributeError /\
  @unparseByType demo_builtins 5 detached (Some 0%nat) "layer_string"
    (FVal (VStr "Top")) = Raise AttributeError.
Proof.
  apply (@layer_string_needs_file demo_builtins 5 detached 0%nat "1" (FVal (VStr "Top"))).
  - vm_compute. reflexivity.
  - discriminate.
Defined.

(** * The layer table *)

Lemma dict_get_set_eq (d : dict) (k : value) (v : oid) :
  dict_get (dict_set d k v) k = Some v.
Proof.
  induction d as [|[k' v'] d IH]; cbn.
  - rewrite decide_True; done.
  - destruct (decide (k' = k)) as [->|Hne]; cbn.
    + rewrite decide_True; done.
    + rewrite decide_False; done.
Qed.

Lemma dict_get_elem_of (d : dict) (k : value) (v : oid) :
  dict_get d k = Some v -> (k, v) ∈ d.
Proof.
  induction d as [|[k' v'] d IH]; cbn; [done|].
  destruct (decide (k' = k)) as [->|Hne]; intros Hg.
  - injection Hg as ->. left.
  - right. auto.
Qed.

Lemma getattr_setattr_eq (x : object) (a : string) (f : field) :
  getattr (setattr x a f) a = Ok f.
Proof. unfold getattr, setattr; cbn. by rewrite lookup_insert_eq. Qed.

Lemma getattr_setattr_ne (x : object) (a b : string) (f : field) :
  a <> b -> getattr (setattr x a f) b = getattr x b.
Proof. intros Hne. unfold getattr, setattr; cbn. by rewrite lookup_insert_ne. Qed.

Lemma getattr_with_parent (x : object) (p : option oid) (a : string) :
  getattr (with_parent x p) a = getattr x a.
Proof. reflexivity. Qed.

Lemma getattr_Some (x : object) (a : string) (f : field) :
  fields x !! a = Some f -> getattr x a = Ok f.
Proof. intros Hf. unfold getattr. by rewrite Hf. Qed.

Lemma deref_Some (h : heap) (o : oid) (x : object) :
  h !! o = Some x -> deref h o = Ok x.
Proof. intros Hx. unfold deref. by rewrite Hx. Qed.

Lemma get_field_Some (h : heap) (o : oid) (x : object) (a : string) :
  h !! o = Some x -> get_field h o a = getattr x a.
Proof. intros Hx. unfold get_field, deref. by rewrite Hx. Qed.

Lemma get_field_insert_eq (h : heap) (o : oid) (x : object) (a : string) :
  (o < length h)%nat -> get_field (<[o := x]> h) o a = getattr x a.
Proof.
  intros Hlt. unfold get_field, deref.
  by rewrite list_lookup_insert_eq.
Qed.

Lemma get_field_insert_ne (h : heap) (o o' : oid) (x : object) (a : string) :
  o <> o' -> get_field (<[o := x]> h) o' a = get_field h o' a.
Proof.
  intros Hne. unfold get_field, deref.
  by rewrite list_lookup_insert_ne.
Qed.

Section LayerTable.
Context `{PyBuiltins}.

(** C3, amended: [add_layer] of a [Layer] never rejects on a conflict: on a
    file whose two indexes are dicts it returns normally whatever they hold,
    and afterwards the number index has the layer under [int(layer.number)],
    the name index has it under [layer.name], each overwriting what was filed
    there, and the layer's parent is the file. *)
Theorem add_layer_overwrites (h : heap) (self layer : oid) (x l : object)
    (d dn : dict) (v k : value) (n : Z) :
  h !! self = Some x ->
  h !! layer = Some l ->
  isinstance l "Layer" = true ->
  fields x !! "layers" = Some (FDict d) ->
  fields x !! "layersByName" = Some (FDict dn) ->
  fields l !! "number" = Some (FVal v) ->
  py_int v = Ok n ->
  fields l !! "name" = Some (FVal k) ->
  exists h',
    add_layer h self layer = Ok h' /\
    get_field h' self "layers" = Ok (FDict (dict_set d (VInt n) layer)) /\
    get_field h' self "layersByName" = Ok (FDict (dict_set dn k layer)) /\
    dict_get (dict_set d (VInt n) layer) (VInt n) = Some layer /\
    dict_get (dict_set dn k layer) k = Some layer /\
    parent <$> h' !! layer = Some (Some self).
Proof.
  intros Hx Hl Hcls Hd Hdn Hnum Hint Hname.
  assert (Hlen_s : (self < length h)%nat) by (eapply lookup_lt_Some; eauto).
  assert (Hlen_l : (layer < length h)%nat) by (eapply lookup_lt_Some; eauto).
  unfold add_layer.
  rewrite (deref_Some _ _ _ Hl); cbn [bind]. rewrite Hcls.
  rewrite (deref_Some _ _ _ Hx); cbn [bind].
  rewrite (getattr_Some _ _ _ Hd), (getattr_Some _ _ _ Hnum); cbn [bind].
  rewrite Hint; cbn [bind setitem].
  set (x1 := setattr x "layers" (FDict (dict_set d (VInt n) layer))).
  assert (Hx1 : <[self := x1]> h !! self = Some x1)
    by (apply list_lookup_insert_eq; done).
  rewrite (deref_Some _ _ _ Hx1); cbn [bind].
  assert (Hdn1 : getattr x1 "layersByName" = Ok (FDict dn)).
  { unfold x1. rewrite getattr_setattr_ne by done. by apply getattr_Some. }
  rewrite Hdn1; cbn [bind].
  set (x2 := setattr x1 "layersByName" (FDict (dict_set dn k layer))).
  destruct (decide (self = layer)) as [<-|Hne].
  - (* the file is the layer itself *)
    assert (l = x) by congruence; subst l.
    rewrite (get_field_Some _ _ _ _ Hx1).
    assert (Hn1 : getattr x1 "name" = Ok (FVal k)).
    { unfold x1. rewrite getattr_setattr_ne by done. by apply getattr_Some. }
    rewrite Hn1; cbn [bind setitem].
    fold x2. unfold set_parent.
    rewrite list_insert_insert_eq.
    assert (Hx2 : <[self := x2]> h !! self = Some x2)
      by (apply list_lookup_insert_eq; done).
    rewrite (deref_Some _ _ _ Hx2); cbn [bind].
    eexists; split; [reflexivity|].
    rewrite !get_field_insert_eq by (rewrite length_insert; done).
    rewrite !getattr_with_parent.
    repeat split.
    + unfold x2, x1. rewrite getattr_setattr_ne by done. apply getattr_setattr_eq.
    + unfold x2. apply getattr_setattr_eq.
    + apply dict_get_set_eq.
    + apply dict_get_set_eq.
    + rewrite list_lookup_insert_eq by (rewrite length_insert; done). done.
  - assert (Hl1 : <[self := x1]> h !! layer = Some l)
      by (rewrite list_lookup_insert_ne; done).
    rewrite (get_field_Some _ _ _ _ Hl1).
    rewrite (getattr_Some _ _ _ Hname); cbn [bind setitem].
    fold x2. unfold set_parent.
    rewrite list_insert_insert_eq.
    assert (Hl2 : <[self := x2]> h !! layer = Some l)
      by (rewrite list_lookup_insert_ne; done).
    rewrite (deref_Some _ _ _ Hl2); cbn [bind].
    eexists; split; [reflexivity|].
    rewrite !(get_field_insert_ne _ layer self) by done.
    rewrite !get_field_insert_eq by done.
    repeat split.
    + unfold x2, x1. rewrite getattr_setattr_ne by done. apply getattr_setattr_eq.
    + unfold x2. apply getattr_setattr_eq.
    + apply dict_get_set_eq.
    + apply dict_get_set_eq.
    + rewrite list_lookup_insert_eq by (rewrite length_insert; done). done.
Qed.

End LayerTable.

(** C3 as stated fails: number 1 is already filed, and adding a second layer
    with that number returns normally and takes the slot over. *)
Lemma add_layer_conflict_accepted :
  get_field two_layers 0%nat "layers" = Ok (FDict [(VInt 1, 1%nat)]) /\
  get_field two_layers 2%nat "number" = Ok (FVal (VInt 1)) /\
  exists h',
    @add_layer demo_builtins two_layers 0%nat 2%nat = Ok h' /\
    get_field h' 0%nat "layers" = Ok (FDict [(VInt 1, 2%nat)]).
Proof.
  split; [reflexivity|]. split; [reflexivity|].
  eexists. split; vm_compute; reflexivity.
Qed.

Lemma add_layer_overwrites_witness :
  exists h',
    @add_layer demo_builtins two_layers 0%nat 2%nat = Ok h' /\
    get_field h' 0%nat "layers" = Ok (FDict (dict_set [(VInt 1, 1%nat)] (VInt 1) 2%nat)) /\
    get_field h' 0%nat "layersByName"
      = Ok (FDict (dict_set [(VStr "Top", 1%nat)] (VStr "Bottom") 2%nat)) /\
    dict_get (dict_set [(VInt 1, 1%nat)] (VInt 1) 2%nat) (VInt 1) = Some 2%nat /\
    dict_get (dict_set [(VStr "Top", 1%nat)] (VStr "Bottom") 2%nat) (VStr "Bottom")
      = Some 2%nat /\
    parent <$> h' !! 2%nat = Some (Some 0%nat).
Proof.
  eapply (@add_layer_overwrites demo_builtins two_layers 0%nat 2%nat);
    vm_compute; reflexivity.
Defined.

Section LayerLookup.
Context `{PyBuiltins}.

Lemma layers_in_sync_lookup (h : heap) (d dn : dict) (k : value) (l : oid) :
  layers_in_sync h d dn = true ->
  dict_get dn k = Some l ->
  exists x v n,
    h !! l = Some x /\ fields x !! "name" = Some (FVal k) /\
    fields x !! "number" = Some (FVal v) /\ py_int v = Ok n /\
    dict_get d (VInt n) = Some l.
Proof.
  intros Hsync Hget. apply dict_get_elem_of in Hget.
  unfold layers_in_sync in Hsync. rewrite forallb_forall in Hsync.
  apply list_elem_of_In in Hget. specialize (Hsync _ Hget). cbn in Hsync.
  destruct (h !! l) as [x|] eqn:Hx; [|done].
  destruct (fields x !! "name") as [[k'| |]|] eqn:Hk'; try done.
  destruct (fields x !! "number") as [[v| |]|] eqn:Hv; try done.
  apply andb_prop in Hsync as [Hk Hn].
  apply bool_decide_eq_true in Hk as ->.
  destruct (py_int v) as [n|] eqn:Hint; [|done].
  apply bool_decide_eq_true in Hn.
  exists x, v, n. done.
Qed.

(** C7, amended: on a file whose two indexes agree ([layers_in_sync]),
    every name of the name index goes to a number with [layer_name_to_number]
    that [layer_number_to_name] takes back to the name; a number missing from
    the number index, and a name missing from the name index, raise
    [HighEagleError] with a message that ends in [str(self.filename)]. *)
Theorem layer_round_trip (h : heap) (self : oid) (x : object) (d dn : dict)
    (filename : field) :
  h !! self = Some x ->
  fields x !! "layers" = Some (FDict d) ->
  fields x !! "layersByName" = Some (FDict dn) ->
  fields x !! "filename" = Some filename ->
  (layers_in_sync h d dn = true ->
   forall name, is_Some (dict_get dn (VStr name)) ->
     exists v,
       layer_name_to_number h self (FVal (VStr name)) = Ok (FVal v) /\
       layer_number_to_name h self v = Ok (FVal (VStr name))) /\
  (forall num n, py_int num = Ok n -> dict_get d (VInt n) = None ->
     layer_number_to_name h self num
     = Raise (HighEagleError ("No layer number " +:+ str_of_int n +:+ " in "
                                +:+ field_str filename))) /\
  (forall name, dict_get dn (VStr name) = None ->
     layer_name_to_number h self (FVal (VStr name))
     = Raise (HighEagleError ("No layer named '" +:+ name +:+ "' in "
                                +:+ field_str filename))).
Proof.
  intros Hx Hd Hdn Hfn. repeat split.
  - intros Hsync name [l Hl].
    destruct (layers_in_sync_lookup _ _ _ _ _ Hsync Hl)
      as (lx & v & n & Hlx & Hname & Hnum & Hint & Hdl).
    exists v. split.
    + unfold layer_name_to_number.
      rewrite (deref_Some _ _ _ Hx); cbn [bind].
      rewrite (getattr_Some _ _ _ Hdn); cbn [bind py_in].
      rewrite bool_decide_eq_true_2 by (rewrite Hl; eauto). cbn [negb getitem].
      rewrite Hl; cbn [bind].
      rewrite (get_field_Some _ _ _ _ Hlx). by apply getattr_Some.
    + unfold layer_number_to_name.
      rewrite (deref_Some _ _ _ Hx); cbn [bind].
      rewrite Hint; cbn [bind].
      rewrite (getattr_Some _ _ _ Hd); cbn [bind py_in].
      rewrite bool_decide_eq_true_2 by (rewrite Hdl; eauto). cbn [negb getitem].
      rewrite Hdl; cbn [bind].
      rewrite (get_field_Some _ _ _ _ Hlx). by apply getattr_Some.
  - intros num n Hint Hnone. unfold layer_number_to_name.
    rewrite (deref_Some _ _ _ Hx); cbn [bind].
    rewrite Hint; cbn [bind].
    rewrite (getattr_Some _ _ _ Hd); cbn [bind py_in].
    rewrite bool_decide_eq_false_2 by (rewrite Hnone; apply is_Some_None).
    cbn [negb]. rewrite (getattr_Some _ _ _ Hfn). reflexivity.
  - intros name Hnone. unfold layer_name_to_number.
    rewrite (deref_Some _ _ _ Hx); cbn [bind].
    rewrite (getattr_Some _ _ _ Hdn); cbn [bind py_in].
    rewrite bool_decide_eq_false_2 by (rewrite Hnone; apply is_Some_None).
    cbn [negb]. rewrite (getattr_Some _ _ _ Hfn). reflexivity.
Qed.

End LayerLookup.

(** C7 as stated fails once [add_layer] has overwritten a number: "Top" is
    still in the name index, its number is 1, and number 1 now names
    "Bottom". *)
Lemma layer_round_trip_broken :
  exists h',
    @add_layer demo_builtins two_layers 0%nat 2%nat = Ok h' /\
    @py_in (VStr "Top")
       (FDict [(VStr "Top", 1%nat); (VStr "Bottom", 2%nat)]) = Ok true /\
    get_field h' 0%nat "layersByName"
      = Ok (FDict [(VStr "Top", 1%nat); (VStr "Bottom", 2%nat)]) /\
    @layer_name_to_number demo_builtins h' 0%nat (FVal (VStr "Top"))
      = Ok (FVal (VInt 1)) /\
    @layer_number_to_name demo_builtins h' 0%nat (VInt 1)
      = Ok (FVal (VStr "Bottom")).
Proof.
  eexists. split; [vm_compute; reflexivity|].
  repeat split; vm_compute; reflexivity.
Qed.

Lemma layer_round_trip_witness :
  (exists v,
     @layer_name_to_number demo_builtins two_layers 0%nat (FVal (VStr "Top"))
       = Ok (FVal v) /\
     @layer_number_to_name demo_builtins two_layers 0%nat v = Ok (FVal (VStr "Top"))) /\
  @layer_number_to_name demo_builtins two_layers 0%nat (VInt 7)
    = Raise (HighEagleError "No layer number 7 in a.brd") /\
  @layer_name_to_number demo_builtins two_layers 0%nat (FVal (VStr "Dimension"))
    = Raise (HighEagleError "No layer named 'Dimension' in a.brd").
Proof.
  destruct (@layer_round_trip demo_builtins two_layers 0%nat
              (file_obj "BoardFile"
                 [("filename", FVal (VStr "a.brd"));
                  ("layers", FDict [(VInt 1, 1%nat)]);
                  ("layersByName", FDict [(VStr "Top", 1%nat)])] [] [])
              [(VInt 1, 1%nat)] [(VStr "Top", 1%nat)] (FVal (VStr "a.brd"))
              eq_refl eq_refl eq_refl eq_refl) as (Hrt & Hnum & Hname).
  split; [|split].
  - apply (Hrt eq_refl "Top"). exists 1%nat. reflexivity.
  - apply (Hnum (VInt 7) 7 eq_refl eq_refl).
  - apply (Hname "Dimension" eq_refl).
Defined.

(** * Cross references of a Part *)


Section CrossReference.
Context `{PyBuiltins}.



End CrossReference.


(** * The ownership invariant and check_sanity *)






Section Ownership.
Context `{PyBuiltins}.




End Ownership.

Ltac bind_inv H :=
  match type of H with
  | bind ?m _ = Ok _ =>
      let E := fresh "E" in
      destruct m eqn:E; cbn [bind] in H; [|discriminate H]
  end.

Lemma deref_Ok (h : heap) (o : oid) (x : object) :
  deref h o = Ok x -> h !! o = Some x.
Proof. unfold deref. destruct (h !! o); congruence. Qed.

Lemma set_parent_Ok (h h' : heap) (s : oid) (p : option oid) :
  set_parent h s p = Ok h' ->
  exists x, h !! s = Some x /\ h' = <[s := with_parent x p]> h.
Proof.
  unfold set_parent. intros Hs. bind_inv Hs. apply deref_Ok in E.
  injection Hs as <-. eauto.
Qed.

Lemma dict_set_holds (d : dict) (k : value) (s : oid) :
  s ∈ dict_values (dict_set d k s).
Proof.
  unfold dict_values. apply list_elem_of_fmap. exists (k, s).
  split; [done|]. apply dict_get_elem_of, dict_get_set_eq.
Qed.

Lemma list_setitem_holds (xs xs' : list oid) (k : value) (s : oid) :
  list_setitem xs k s = Ok xs' -> s ∈ xs'.
Proof.
  assert (Hat : forall i : Z,
    (if (0 <=? i) && (i <? Z.of_nat (length xs)) then Ok (<[Z.to_nat i := s]> xs)
     else if (- Z.of_nat (length xs) <=? i) && (i <? 0)
          then Ok (<[Z.to_nat (Z.of_nat (length xs) + i) := s]> xs)
          else Raise IndexError) = Ok xs' -> s ∈ xs').
  { intros i Hi.
    destruct ((0 <=? i) && (i <? Z.of_nat (length xs))) eqn:H1.
    - injection Hi as <-. apply list_elem_of_lookup. exists (Z.to_nat i).
      apply list_lookup_insert_eq. lia.
    - destruct ((- Z.of_nat (length xs) <=? i) && (i <? 0)) eqn:H2; [|discriminate].
      injection Hi as <-. apply list_elem_of_lookup.
      exists (Z.to_nat (Z.of_nat (length xs) + i)).
      apply list_lookup_insert_eq. lia. }
  unfold list_setitem. destruct k as [|b|i| |]; try discriminate; apply Hat.
Qed.

(** What an [add_] accessor leaves: the child is in the section and its
    parent is the owner. *)
Lemma add_list_parent (l : string) (h h' : heap) (self s : oid) :
  add_list l h self s = Ok h' ->
  (exists f, get_field h' self l = Ok f /\ holds f s) /\
  parent <$> h' !! s = Some (Some self).
Proof.
  unfold add_list. intros Ha. bind_inv Ha. apply deref_Ok in E.
  case_bool_decide; [|discriminate]. bind_inv Ha.
  destruct a0 as [|xs|]; try discriminate.
  apply set_parent_Ok in Ha as (x & Hx & ->).
  assert (Hself : (self < length h)%nat) by (eapply lookup_lt_Some; eauto).
  assert (Hs : (s < length (<[self := setattr a l (FList (xs ++ [s]))]> h))%nat)
    by (eapply lookup_lt_Some; eauto).
  split.
  - exists (FList (xs ++ [s])). split; [|cbn; set_solver].
    destruct (decide (s = self)) as [->|Hne].
    + rewrite list_lookup_insert_eq in Hx by done. injection Hx as <-.
      rewrite get_field_insert_eq by done.
      rewrite getattr_with_parent. apply getattr_setattr_eq.
    + rewrite get_field_insert_ne by done.
      rewrite get_field_insert_eq by done. apply getattr_setattr_eq.
  - by rewrite list_lookup_insert_eq.
Qed.

Lemma add_map_parent (m : string) (h h' : heap) (self s : oid) :
  add_map m h self s = Ok h' ->
  (exists f, get_field h' self m = Ok f /\ holds f s) /\
  parent <$> h' !! s = Some (Some self).
Proof.
  unfold add_map. intros Ha. bind_inv Ha. apply deref_Ok in E.
  destruct (assoc m (maps a)) as [key|]; [|discriminate].
  bind_inv Ha. bind_inv Ha.
  assert (Hself : (self < length h)%nat) by (eapply lookup_lt_Some; eauto).
  assert (Hgoal : forall f', holds f' s ->
            set_parent (<[self := setattr a m f']> h) s (Some self) = Ok h' ->
            (exists f, get_field h' self m = Ok f /\ holds f s) /\
            parent <$> h' !! s = Some (Some self)).
  { intros f' Hf' Hsp. apply set_parent_Ok in Hsp as (x & Hx & ->).
    assert (Hs : (s < length (<[self := setattr a m f']> h))%nat)
      by (eapply lookup_lt_Some; eauto).
    split.
    - exists f'. split; [|done].
      destruct (decide (s = self)) as [->|Hne].
      + rewrite list_lookup_insert_eq in Hx by done. injection Hx as <-.
        rewrite get_field_insert_eq by done.
        rewrite getattr_with_parent. apply getattr_setattr_eq.
      + rewrite get_field_insert_ne by done.
        rewrite get_field_insert_eq by done. apply getattr_setattr_eq.
    - by rewrite list_lookup_insert_eq. }
  destruct a0 as [|xs|d], a1 as [k| |]; try discriminate.
  - bind_inv Ha. eapply (Hgoal (FList a0)); [|done].
    cbn. eapply list_setitem_holds; eauto.
  - eapply (Hgoal (FDict (dict_set d k s))); [|done].
    cbn. apply dict_set_holds.
Qed.

Section OwnershipClaim.
Context `{PyBuiltins}.


End OwnershipClaim.

Ltac elem_of_cases :=
  repeat match goal with
         | Hc : _ ∈ _ :: _ |- _ => apply elem_of_cons in Hc as [->|Hc]
         | Hc : _ ∈ [] |- _ => by apply elem_of_nil in Hc
         end.





(** * Load and save *)

Lemma append_nonempty_ne (s t : string) : t <> EmptyString -> s +:+ t <> s.
Proof.
  intros Ht. induction s as [|c s IH].
  - exact Ht.
  - change (String c (s +:+ t) <> String c s). congruence.
Qed.

Lemma write_file_twice (path t1 t2 : string) (w : world) :
  write_file path t2 (write_file path t1 w) = write_file path t2 w.
Proof. unfold write_file; cbn. by rewrite insert_insert_eq. Qed.

Section LoadSave.
Context `{PyBuiltins} `{External}.

(** C4, amended: after the sanity check, when [validate] returns false the
    invalid output is written to the requested path with ".broken.xml"
    appended (when that path can be written), the requested path is left as
    it was, and then an error is raised; when [validate] returns true the
    output is written to the requested path (when it can be written) and
    nothing is raised. *)
Theorem write_validated (depth : nat) (h : heap) (self : oid) (filename : string)
    (w w1 : world) (v : bool) (et : element) :
  check_sanity depth h self = Ok tt ->
  validate h self w = (w1, Ok v) ->
  get_et h self = Ok et ->
  (v = false -> writable w1 (filename +:+ ".broken.xml") = true ->
   exists e,
     write depth h self filename w
     = (write_file (filename +:+ ".broken.xml") (header +:+ ET_tostring et) w1,
        Raise e) /\
     files (write_file (filename +:+ ".broken.xml") (header +:+ ET_tostring et) w1)
       !! filename = files w1 !! filename) /\
  (v = true -> writable w1 filename = true ->
   write depth h self filename w
   = (write_file filename (header +:+ ET_tostring et) w1, Ok tt)).
Proof.
  intros Hsane Hval Het. unfold write. rewrite Hsane, Hval. split.
  - intros -> Hw. cbn [negb]. rewrite Hw, Het. rewrite write_file_twice.
    destruct (first_error et) as [e|e] eqn:Herr.
    + exists (HighEagleError ("element tree does not validate" +:+ e)).
      split; [reflexivity|]. cbn.
      apply lookup_insert_ne, append_nonempty_ne. discriminate.
    + exists e. split; [reflexivity|]. cbn.
      apply lookup_insert_ne, append_nonempty_ne. discriminate.
  - intros -> Hw. cbn [negb]. rewrite Hw, Het. by rewrite write_file_twice.
Qed.

Lemma from_root_checked (depth : nat) (filename : string) (root : element)
    (h h' : heap) (ef : oid) :
  from_root depth filename root h = Ok (h', ef) ->
  check_sanity depth h' ef = Ok tt.
Proof.
  unfold from_root. intros Hr. bind_inv Hr. destruct a as [h1 ef1].
  bind_inv Hr. bind_inv Hr. bind_inv Hr. injection Hr as <- <-.
  destruct a1. exact E2.
Qed.

(** C8: a file that is not well-formed XML is refused with
    [EagleFormatError]; when the DTD refuses the parsed document (leaving, as
    lxml does, at least one error in its log), [bestEffort=False] aborts the
    load with [EagleFormatError], while [bestEffort=True] logs a warning and
    goes on as for a valid document; and whenever [from_file] returns a file,
    [check_sanity] of that file has passed. *)
Theorem from_file_modes (depth : nat) (filename : string) (h : heap) (w : world) :
  (forall et, DTD_validate et = false -> DTD_error_log et <> []) ->
  (forall bestEffort text,
     files w !! filename = Some text -> ET_parse text = None ->
     exists m, from_file depth filename bestEffort h w = (w, Raise (EagleFormatError m))) /\
  (forall text root,
     files w !! filename = Some text -> ET_parse text = Some root ->
     DTD_validate root = false ->
     (exists m, from_file depth filename false h w = (w, Raise (EagleFormatError m))) /\
     (exists m, from_file depth filename true h w
                = (log_msg "warning" m w, from_root depth filename root h))) /\
  (forall bestEffort text root,
     files w !! filename = Some text -> ET_parse text = Some root ->
     DTD_validate root = true ->
     from_file depth filename bestEffort h w = (w, from_root depth filename root h)) /\
  (forall bestEffort w' h' ef,
     from_file depth filename bestEffort h w = (w', Ok (h', ef)) ->
     check_sanity depth h' ef = Ok tt).
Proof.
  intros Hlog. split; [|split; [|split]].
  - intros bestEffort text Htext Hparse. unfold from_file.
    rewrite Htext, Hparse. eauto.
  - intros text root Htext Hparse Hinvalid. unfold from_file.
    rewrite Htext, Hparse, Hinvalid. cbn [negb].
    unfold first_error. specialize (Hlog _ Hinvalid).
    destruct (DTD_error_log root) as [|e l]; [done|]. cbn. split; eauto.
  - intros bestEffort text root Htext Hparse Hvalid. unfold from_file.
    rewrite Htext, Hparse, Hvalid. reflexivity.
  - intros bestEffort w' h' ef. unfold from_file.
    destruct (files w !! filename) as [text|]; [|discriminate].
    destruct (ET_parse text) as [root|]; [|discriminate].
    destruct (DTD_validate root) eqn:Hv; cbn [negb].
    + intros [= <- Hr]. eapply from_root_checked; eauto.
    + specialize (Hlog _ Hv). unfold first_error.
      destruct (DTD_error_log root) as [|e l]; [done|]. cbn [bind].
      destruct bestEffort; [|discriminate].
      intros [= <- Hr]. eapply from_root_checked; eauto.
Qed.

End LoadSave.

(** C4 as stated fails: the diagnostic copy does not go to the requested
    path with ".broken" appended, which stays absent, but to the path with
    ".broken.xml" appended. *)
Lemma broken_copy_path :
  let r := @write demo_builtins demo_external 5 unversioned 0%nat "out.sch" demo_world in
  snd r = Raise (HighEagleError
                   "element tree does not validateattribute version of element eagle is empty") /\
  files (fst r) !! "out.sch.broken" = None /\
  files (fst r) !! "out.sch.broken.xml"
    = Some (header +:+ "<eagle version=''/>") /\
  files (fst r) !! "out.sch" = None.
Proof. vm_compute. repeat split. Qed.

Lemma write_validated_witness :
  (exists e,
     @write demo_builtins demo_external 5 unversioned 0%nat "out.sch" demo_world
     = (write_file "out.sch.broken.xml" (header +:+ "<eagle version=''/>")
          (log_msg "warning"
             "Eagle file opened as 'c.sch' is invalid: attribute version of element eagle is empty"
             demo_world),
        Raise e)) /\
  @write demo_builtins demo_external 5 versioned 0%nat "out.sch" demo_world
  = (write_file "out.sch" (header +:+ "<eagle version='6.5'/>")
       (log_msg "info" "Eagle file opened as 'a.sch' parsed to valid Eagle data."
          demo_world),
     Ok tt).
Proof.
  split.
  - destruct (@write_validated demo_builtins demo_external 5 unversioned 0%nat
                "out.sch" demo_world
                (log_msg "warning"
                   "Eagle file opened as 'c.sch' is invalid: attribute version of element eagle is empty"
                   demo_world)
                false (Element "eagle" [("version", EmptyString)] None [])
                eq_refl eq_refl eq_refl) as [Hbroken _].
    destruct (Hbroken eq_refl eq_refl) as (e & He & _). exists e. exact He.
  - destruct (@write_validated demo_builtins demo_external 5 versioned 0%nat
                "out.sch" demo_world
                (log_msg "info" "Eagle file opened as 'a.sch' parsed to valid Eagle data."
                   demo_world)
                true (Element "eagle" [("version", "6.5")] None [])
                eq_refl eq_refl eq_refl) as [_ Hvalid].
    exact (Hvalid eq_refl eq_refl).
Defined.

Lemma demo_error_log (et : element) :
  @DTD_validate demo_external et = false -> @DTD_error_log demo_external et <> [].
Proof.
  destruct et as [t a x c]. cbn.
  destruct (String.eqb (default EmptyString (assoc "version" a)) EmptyString);
    [discriminate | discriminate].
Qed.

Lemma from_file_modes_witness :
  (exists m, @from_file demo_builtins demo_external 5 "b.sch" true [] demo_world
             = (demo_world, Raise (EagleFormatError m))) /\
  (exists m, @from_file demo_builtins demo_external 5 "c.sch" false [] demo_world
             = (demo_world, Raise (EagleFormatError m))) /\
  (exists m, @from_file demo_builtins demo_external 5 "c.sch" true [] demo_world
             = (log_msg "warning" m demo_world,
                @from_root demo_builtins demo_external 5 "c.sch"
                  (Element "eagle" [("version", EmptyString)] None []) [])).
Proof.
  split; [|split].
  - destruct (@from_file_modes demo_builtins demo_external 5 "b.sch" [] demo_world
                demo_error_log) as (Hbad & _).
    apply (Hbad true "PK..."); reflexivity.
  - destruct (@from_file_modes demo_builtins demo_external 5 "c.sch" [] demo_world
                demo_error_log) as (_ & Hinvalid & _).
    apply (Hinvalid "<eagle version=''/>"
             (Element "eagle" [("version", EmptyString)] None [])); reflexivity.
  - destruct (@from_file_modes demo_builtins demo_external 5 "c.sch" [] demo_world
                demo_error_log) as (_ & Hinvalid & _).
    apply (Hinvalid "<eagle version=''/>"
             (Element "eagle" [("version", EmptyString)] None [])); reflexivity.
Defined.

(** * convertToExternal *)

(** ** Frames *)

Lemma frame_refl (P : oid -> string -> Prop) (h : heap) : frame P h h.
Proof. intros o x Hx. exists x. eauto 10. Qed.

Lemma frame_trans (P : oid -> string -> Prop) (h1 h2 h3 : heap) :
  frame P h1 h2 -> frame P h2 h3 -> frame P h1 h3.
Proof.
  intros H12 H23 o x Hx.
  destruct (H12 _ _ Hx) as (x2 & Hx2 & Hm2 & Hl2 & Hp2 & Hf2).
  destruct (H23 _ _ Hx2) as (x3 & Hx3 & Hm3 & Hl3 & Hp3 & Hf3).
  exists x3. repeat split; try congruence.
  intros a Ha. rewrite Hf3, Hf2; done.
Qed.

Lemma frame_mono (P Q : oid -> string -> Prop) (h h' : heap) :
  (forall o a, P o a -> Q o a) -> frame P h h' -> frame Q h h'.
Proof.
  intros HPQ Hf o x Hx. destruct (Hf _ _ Hx) as (x' & Hx' & Hm & Hl & Hp & Hfs).
  exists x'. repeat split; try done. intros a Ha. apply Hfs. auto.
Qed.

Lemma frame_with_parent (P : oid -> string -> Prop) (h : heap) (o : oid)
    (x : object) (p : option oid) :
  h !! o = Some x -> frame P h (<[o := with_parent x p]> h).
Proof.
  intros Hx o' x' Hx'. destruct (decide (o = o')) as [<-|Hne].
  - assert (x' = x) by congruence; subst x'.
    exists (with_parent x p). rewrite list_lookup_insert_eq
      by (eapply lookup_lt_Some; eauto). done.
  - exists x'. rewrite list_lookup_insert_ne by done. done.
Qed.

Lemma frame_setattr (P : oid -> string -> Prop) (h : heap) (o : oid)
    (x : object) (a : string) (f : field) :
  h !! o = Some x -> P o a -> frame P h (<[o := setattr x a f]> h).
Proof.
  intros Hx HP o' x' Hx'. destruct (decide (o = o')) as [<-|Hne].
  - assert (x' = x) by congruence; subst x'.
    exists (setattr x a f). rewrite list_lookup_insert_eq
      by (eapply lookup_lt_Some; eauto).
    repeat split; try done. intros b Hb. cbn.
    apply lookup_insert_ne. congruence.
  - exists x'. rewrite list_lookup_insert_ne by done. done.
Qed.

Lemma frame_alloc (P : oid -> string -> Prop) (h : heap) (x : object) :
  frame P h (h ++ [x]).
Proof.
  intros o y Hy. exists y. rewrite lookup_app_l by (eapply lookup_lt_Some; eauto). done.
Qed.

Lemma frame_fld (P : oid -> string -> Prop) (h h' : heap) (o : oid) (a : string)
    (f : field) :
  frame P h h' -> ~ P o a -> fld h o a = Some f -> fld h' o a = Some f.
Proof.
  intros Hf HP. unfold fld. destruct (h !! o) as [x|] eqn:Hx; [|done].
  destruct (Hf _ _ Hx) as (x' & -> & _ & _ & _ & Hfs). by rewrite Hfs.
Qed.

Lemma frame_length (P : oid -> string -> Prop) (h h' : heap) :
  frame P h h' -> (length h <= length h')%nat.
Proof.
  intros Hf. destruct (decide (length h = 0%nat)) as [->|Hne]; [lia|].
  destruct (lookup_lt_is_Some_2 h (length h - 1)) as [x Hx]; [lia|].
  destruct (Hf _ _ Hx) as (x' & Hx' & _). apply lookup_lt_Some in Hx'. lia.
Qed.

Lemma frame_alloc_Some (P : oid -> string -> Prop) (h h' : heap) (o : oid) :
  frame P h h' -> is_Some (h !! o) -> is_Some (h' !! o).
Proof. intros Hf [x Hx]. destruct (Hf _ _ Hx) as (x' & -> & _). eauto. Qed.

Lemma fld_Some_alloc (h : heap) (o : oid) (a : string) (f : field) :
  fld h o a = Some f -> exists x, h !! o = Some x /\ fields x !! a = Some f.
Proof. unfold fld. destruct (h !! o) as [x|]; [eauto | done]. Qed.

Lemma fld_get_field (h : heap) (o : oid) (a : string) (f : field) :
  fld h o a = Some f -> get_field h o a = Ok f.
Proof.
  intros (x & Hx & Hf)%fld_Some_alloc.
  rewrite (get_field_Some _ _ _ _ Hx). by apply getattr_Some.
Qed.

Lemma fld_with_parent (h : heap) (o o' : oid) (x : object) (p : option oid)
    (a : string) :
  h !! o = Some x -> fld (<[o := with_parent x p]> h) o' a = fld h o' a.
Proof.
  intros Hx. unfold fld. destruct (decide (o = o')) as [<-|Hne].
  - rewrite list_lookup_insert_eq by (eapply lookup_lt_Some; eauto). by rewrite Hx.
  - by rewrite list_lookup_insert_ne.
Qed.

Lemma fld_setattr_eq (h : heap) (o : oid) (x : object) (a : string) (f : field) :
  (o < length h)%nat -> fld (<[o := setattr x a f]> h) o a = Some f.
Proof.
  intros Hlt. unfold fld. rewrite list_lookup_insert_eq by done.
  cbn. apply lookup_insert_eq.
Qed.

(** ** The steps of convertToExternal *)

Lemma set_parent_frame (P : oid -> string -> Prop) (h : heap) (s : oid)
    (p : option oid) :
  is_Some (h !! s) ->
  exists h', set_parent h s p = Ok h' /\ frame P h h' /\
             forall o a, fld h' o a = fld h o a.
Proof.
  intros [x Hx]. unfold set_parent. rewrite (deref_Some _ _ _ Hx). cbn [bind].
  eexists. split; [reflexivity|]. split.
  - by apply frame_with_parent.
  - intros o a. by apply fld_with_parent.
Qed.

Lemma set_field_frame (P : oid -> string -> Prop) (h : heap) (o : oid)
    (a : string) (f : field) :
  is_Some (h !! o) -> P o a ->
  exists h', set_field h o a f = Ok h' /\ frame P h h' /\ fld h' o a = Some f.
Proof.
  intros [x Hx] HP. unfold set_field. rewrite (deref_Some _ _ _ Hx). cbn [bind].
  eexists. split; [reflexivity|]. split.
  - by apply frame_setattr.
  - apply fld_setattr_eq. eapply lookup_lt_Some; eauto.
Qed.

Lemma detach_all (P : oid -> string -> Prop) (xs : list oid) (h : heap) :
  (forall c, c ∈ xs -> is_Some (h !! c)) ->
  exists h', for_each (fun h' efp => set_parent h' efp None) xs h = Ok h' /\
             frame P h h' /\ forall o a, fld h' o a = fld h o a.
Proof.
  revert h. induction xs as [|c xs IH]; intros h Hall; cbn [for_each].
  - exists h. split; [done|]. split; [apply frame_refl | done].
  - destruct (set_parent_frame P h c None) as (h1 & -> & Hf1 & Hfld1);
      [apply Hall; by left|]. cbn [bind].
    destruct (IH h1) as (h2 & -> & Hf2 & Hfld2).
    { intros c' Hc'. eapply frame_alloc_Some; [done|]. apply Hall. by right. }
    exists h2. split; [done|]. split; [eapply frame_trans; eauto|].
    intros o a. by rewrite Hfld2, Hfld1.
Qed.

Lemma remove_map_head (P : oid -> string -> Prop) (m key : string) (h : heap)
    (self i : oid) (x : object) (k : value) (r : dict) :
  h !! self = Some x -> assoc m (maps x) = Some key ->
  fields x !! m = Some (FDict ((k, i) :: r)) ->
  fld h i key = Some (FVal k) -> P self m ->
  exists h', remove_map m h self i = Ok h' /\ frame P h h' /\
             fld h' self m = Some (FDict r).
Proof.
  intros Hx Hkey Hm Hk HP. unfold remove_map.
  rewrite (deref_Some _ _ _ Hx); cbn [bind]. rewrite Hkey.
  rewrite (getattr_Some _ _ _ Hm), (fld_get_field _ _ _ _ Hk); cbn [bind dict_del].
  rewrite decide_True by done.
  apply fld_Some_alloc in Hk as (xi & Hxi & _).
  assert (Hself : (self < length h)%nat) by (eapply lookup_lt_Some; eauto).
  destruct (set_parent_frame P (<[self := setattr x m (FDict r)]> h) i None)
    as (h' & Hsp & Hf & Hfld).
  { apply lookup_lt_is_Some. rewrite length_insert. eapply lookup_lt_Some; eauto. }
  exists h'. split; [done|]. split.
  - eapply frame_trans; [|done]. by apply frame_setattr.
  - rewrite Hfld. by apply fld_setattr_eq.
Qed.

Lemma remove_all (self : oid) (devs : dict) (h : heap) (x : object) :
  h !! self = Some x -> assoc "devices" (maps x) = Some "name" ->
  fields x !! "devices" = Some (FDict devs) ->
  Forall (fun ki => fld h ki.2 "name" = Some (FVal ki.1)) devs ->
  exists h',
    for_each (fun h i => remove_map "devices" h self i) (dict_values devs) h = Ok h' /\
    frame (fun o a => o = self /\ a = "devices") h h' /\
    fld h' self "devices" = Some (FDict []).
Proof.
  revert h x. induction devs as [|[k i] r IH]; intros h x Hx Hkey Hdevs Hnames;
    cbn [dict_values map for_each snd].
  - exists h. split; [done|]. split; [apply frame_refl|].
    unfold fld. by rewrite Hx.
  - apply Forall_cons in Hnames as [Hk Hnames]. cbn in Hk.
    destruct (remove_map_head (fun o a => o = self /\ a = "devices")
                "devices" "name" h self i x k r Hx Hkey Hdevs Hk)
      as (h1 & -> & Hf1 & Hr); [done|]. cbn [bind].
    destruct (Hf1 _ _ Hx) as (x1 & Hx1 & _ & _ & Hmaps & _).
    destruct (IH h1 x1) as (h2 & Hloop & Hf2 & Hempty).
    + done.
    + by rewrite Hmaps.
    + unfold fld in Hr. by rewrite Hx1 in Hr.
    + eapply Forall_impl; [exact Hnames|]. intros [k' i'] Hk'. cbn in *.
      eapply frame_fld; [exact Hf1 | | done]. intros [_ [=]].
    + exists h2. split; [done|]. split; [eapply frame_trans; eauto | done].
Qed.

Lemma clearable_frame (P : oid -> string -> Prop) (h h' : heap) (o : oid)
    (a : string) :
  frame P h h' -> ~ P o a -> clearable h o a -> clearable h' o a.
Proof.
  intros Hf HP (x & Hx & Hcase).
  destruct (Hf _ _ Hx) as (x' & Hx' & _ & Hl & Hm & Hfs).
  exists x'. split; [done|]. rewrite Hl, Hm, (Hfs _ HP).
  destruct Hcase as [(Hin & cs & Hcs & Hall)|(Hnin & Hmap & d & Hd & Hall)].
  - left. split; [done|]. exists cs. split; [done|].
    intros c Hc. eapply frame_alloc_Some; eauto.
  - right. split; [done|]. split; [done|]. exists d. split; [done|].
    intros c Hc. eapply frame_alloc_Some; eauto.
Qed.

Lemma clear_frame (P : oid -> string -> Prop) (h : heap) (o : oid) (a : string) :
  clearable h o a -> P o a ->
  exists h' f, clear a h o = Ok h' /\ frame P h h' /\
               fld h' o a = Some f /\ py_len f = Ok 0%nat.
Proof.
  intros (x & Hx & Hcase) HP. unfold clear.
  rewrite (deref_Some _ _ _ Hx); cbn [bind].
  destruct Hcase as [(Hin & cs & Hcs & Hall)|(Hnin & [key Hmap] & d & Hd & Hall)].
  - rewrite bool_decide_eq_true_2 by done. unfold clear_list.
    rewrite (deref_Some _ _ _ Hx); cbn [bind].
    rewrite (getattr_Some _ _ _ Hcs); cbn [bind].
    destruct (detach_all P cs h Hall) as (h1 & -> & Hf1 & _). cbn [bind].
    destruct (set_field_frame P h1 o a (FList [])) as (h2 & -> & Hf2 & Hfld);
      [eapply frame_alloc_Some; eauto | done |].
    exists h2, (FList []). split; [done|].
    split; [eapply frame_trans; eauto | done].
  - rewrite bool_decide_eq_false_2 by done. rewrite Hmap. unfold clear_map.
    rewrite (deref_Some _ _ _ Hx); cbn [bind].
    rewrite (getattr_Some _ _ _ Hd); cbn [bind].
    destruct (detach_all P (dict_values d) h Hall) as (h1 & -> & Hf1 & _). cbn [bind].
    destruct (set_field_frame P h1 o a (FDict [])) as (h2 & -> & Hf2 & Hfld);
      [eapply frame_alloc_Some; eauto | done |].
    exists h2, (FDict []). split; [done|].
    split; [eapply frame_trans; eauto | done].
Qed.

Lemma add_map_dict (P : oid -> string -> Prop) (m key : string) (h : heap)
    (self s : oid) (x : object) (d : dict) (k : value) :
  h !! self = Some x -> assoc m (maps x) = Some key ->
  fields x !! m = Some (FDict d) ->
  fld h s key = Some (FVal k) -> P self m ->
  exists h', add_map m h self s = Ok h' /\ frame P h h' /\
             fld h' self m = Some (FDict (dict_set d k s)).
Proof.
  intros Hx Hkey Hm Hk HP. unfold add_map.
  rewrite (deref_Some _ _ _ Hx); cbn [bind]. rewrite Hkey.
  rewrite (getattr_Some _ _ _ Hm), (fld_get_field _ _ _ _ Hk); cbn [bind].
  apply fld_Some_alloc in Hk as (xs & Hxs & _).
  destruct (set_parent_frame P (<[self := setattr x m (FDict (dict_set d k s))]> h)
              s (Some self)) as (h' & Hsp & Hf & Hfld).
  { apply lookup_lt_is_Some. rewrite length_insert. eapply lookup_lt_Some; eauto. }
  exists h'. split; [done|]. split.
  - eapply frame_trans; [|done]. by apply frame_setattr.
  - rewrite Hfld. apply fld_setattr_eq. eapply lookup_lt_Some; eauto.
Qed.

Lemma new_Attribute_marker :
  new_Attribute [("name", FVal (VStr "_EXTERNAL_"))] = Ok marker_attribute.
Proof. reflexivity. Qed.

Lemma marker_attribute_name :
  fields marker_attribute !! "name" = Some (FVal (VStr "_EXTERNAL_")).
Proof. vm_compute. reflexivity. Qed.

Lemma marker_attribute_class : isinstance marker_attribute "Attribute" = true.
Proof. vm_compute. reflexivity. Qed.

Lemma dict_set_set (d : dict) (k : value) (a b : oid) :
  dict_set (dict_set d k a) k b = dict_set d k b.
Proof.
  induction d as [|[k' v'] d IH]; cbn.
  - by rewrite decide_True.
  - destruct (decide (k' = k)) as [->|Hne]; cbn.
    + by rewrite decide_True.
    + rewrite decide_False by done. by rewrite IH.
Qed.

Lemma is_marker_frame (h h' : heap) (a : oid) :
  frame (fun _ b => b = "attributes") h h' -> is_marker h a -> is_marker h' a.
Proof.
  intros Hf (x & Hx & Hcls & Hname).
  destruct (Hf _ _ Hx) as (x' & Hx' & Hmro & _ & _ & Hfs).
  exists x'. split; [done|]. split.
  - unfold isinstance in *. by rewrite Hmro.
  - by rewrite Hfs.
Qed.

Lemma add_marker_step (h : heap) (t : oid) (xt : object) (atts : dict) :
  h !! t = Some xt -> assoc "attributes" (maps xt) = Some "name" ->
  fields xt !! "attributes" = Some (FDict atts) ->
  exists h',
    add_marker h t = Ok h' /\
    frame (fun _ b => b = "attributes") h h' /\
    fld h' t "attributes"
      = Some (FDict (dict_set atts (VStr "_EXTERNAL_") (length h))) /\
    is_marker h' (length h) /\
    (forall t', t' <> t -> forall b, fld h' t' b = fld (h ++ [marker_attribute]) t' b) /\
    length h' = S (length h).
Proof.
  intros Hxt Hkey Hatts. unfold add_marker.
  rewrite new_Attribute_marker; cbn [bind alloc].
  assert (Hxt' : (h ++ [marker_attribute]) !! t = Some xt)
    by (rewrite lookup_app_l; [done | eapply lookup_lt_Some; eauto]).
  assert (Hm : (h ++ [marker_attribute]) !! length h = Some marker_attribute)
    by (rewrite lookup_app_r, Nat.sub_diag; done).
  assert (Hk : fld (h ++ [marker_attribute]) (length h) "name"
               = Some (FVal (VStr "_EXTERNAL_")))
    by (unfold fld; rewrite Hm; apply marker_attribute_name).
  unfold add_map.
  rewrite (deref_Some _ _ _ Hxt'); cbn [bind]. rewrite Hkey.
  rewrite (getattr_Some _ _ _ Hatts), (fld_get_field _ _ _ _ Hk); cbn [bind].
  set (h1 := <[t := setattr xt "attributes"
                      (FDict (dict_set atts (VStr "_EXTERNAL_") (length h)))]>
               (h ++ [marker_attribute])).
  assert (Hlt : (t < length (h ++ [marker_attribute]))%nat)
    by (eapply lookup_lt_Some; eauto).
  assert (Hne : t <> length h) by (apply lookup_lt_Some in Hxt; lia).
  assert (Hm1 : h1 !! length h = Some marker_attribute)
    by (unfold h1; rewrite list_lookup_insert_ne; done).
  unfold set_parent. rewrite (deref_Some _ _ _ Hm1); cbn [bind].
  eexists. split; [reflexivity|]. split; [|split; [|split; [|split]]].
  - eapply frame_trans; [apply frame_alloc|].
    eapply frame_trans; [|apply frame_with_parent; exact Hm1].
    unfold h1. by apply frame_setattr.
  - rewrite (fld_with_parent _ _ _ _ _ _ Hm1). by apply fld_setattr_eq.
  - exists (with_parent marker_attribute (Some t)).
    rewrite list_lookup_insert_eq by (eapply lookup_lt_Some; eauto).
    split; [done|]. split; [apply marker_attribute_class | apply marker_attribute_name].
  - intros t' Hne' b. rewrite (fld_with_parent _ _ _ _ _ _ Hm1).
    unfold h1, fld. by rewrite list_lookup_insert_ne.
  - unfold h1. rewrite !length_insert, length_app. cbn. lia.
Qed.

Lemma mark_all (ts : list oid) (h : heap) :
  (forall t, t ∈ ts ->
     exists xt atts, h !! t = Some xt /\ assoc "attributes" (maps xt) = Some "name" /\
                     fields xt !! "attributes" = Some (FDict atts)) ->
  exists h',
    for_each add_marker ts h = Ok h' /\
    frame (fun _ b => b = "attributes") h h' /\
    (length h <= length h')%nat /\
    forall t atts, fld h t "attributes" = Some (FDict atts) ->
      if decide (t ∈ ts)
      then exists a, (length h <= a)%nat /\
                     fld h' t "attributes"
                       = Some (FDict (dict_set atts (VStr "_EXTERNAL_") a)) /\
                     is_marker h' a
      else fld h' t "attributes" = Some (FDict atts).
Proof.
  revert h. induction ts as [|t r IH]; intros h Hall; cbn [for_each].
  - exists h. split; [done|]. split; [apply frame_refl|]. split; [done|].
    intros t atts Hatts. rewrite decide_False; [done | apply not_elem_of_nil].
  - destruct (Hall t) as (xt & atts_t & Hxt & Hkey & Hatts_t); [by left|].
    destruct (add_marker_step h t xt atts_t Hxt Hkey Hatts_t)
      as (h1 & -> & Hf1 & Ht1 & Hmark1 & Hother1 & Hlen1). cbn [bind].
    destruct (IH h1) as (h2 & -> & Hf2 & Hlen2 & Hrest).
    { intros t' Ht'. destruct (Hall t') as (xt' & atts' & Hxt' & Hkey' & Hatts');
        [by right|].
      destruct (Hf1 _ _ Hxt') as (x1 & Hx1 & _ & _ & Hmaps & _).
      destruct (decide (t' = t)) as [->|Hne].
      - destruct (fld_Some_alloc _ _ _ _ Ht1) as (x1' & Hx1' & Hfx1').
        assert (x1' = x1) by congruence; subst x1'.
        exists x1, (dict_set atts_t (VStr "_EXTERNAL_") (length h)).
        rewrite Hmaps. done.
      - exists x1, atts'. rewrite Hmaps. split; [done|]. split; [done|].
        assert (Hfld : fld h1 t' "attributes" = Some (FDict atts')).
        { rewrite Hother1 by done. unfold fld.
          rewrite lookup_app_l by (eapply lookup_lt_Some; eauto). by rewrite Hxt'. }
        unfold fld in Hfld. by rewrite Hx1 in Hfld. }
    exists h2. split; [done|]. split; [eapply frame_trans; eauto|].
    split; [lia|].
    intros t0 atts Hatts.
    destruct (decide (t0 = t)) as [->|Hne].
    + (* the technology just marked *)
      rewrite decide_True by (by left).
      assert (atts = atts_t); [|subst atts].
      { unfold fld in Hatts. rewrite Hxt in Hatts. congruence. }
      specialize (Hrest t _ Ht1). destruct (decide (t ∈ r)).
      * destruct Hrest as (a & Hnew & Ha & Hmark). exists a.
        split; [lia|]. by rewrite dict_set_set in Ha.
      * exists (length h). split; [done|]. split; [done|].
        by eapply is_marker_frame.
    + assert (Hfld1 : fld h1 t0 "attributes" = Some (FDict atts)).
      { rewrite Hother1 by done.
        destruct (fld_Some_alloc _ _ _ _ Hatts) as (x0 & Hx0 & Hfx0).
        unfold fld. rewrite lookup_app_l by (eapply lookup_lt_Some; eauto).
        by rewrite Hx0. }
      specialize (Hrest t0 _ Hfld1). destruct (decide (t0 ∈ r)) as [Hin|Hnin].
      * rewrite decide_True by (by right).
        destruct Hrest as (a & Hnew & Ha & Hmark). exists a.
        split; [lia | done].
      * rewrite decide_False; [done|]. rewrite elem_of_cons. tauto.
Qed.

Lemma assoc_Some_fst {V : Type} (k : string) (l : list (string * V)) (v : V) :
  assoc k l = Some v -> k ∈ map fst l.
Proof.
  induction l as [|[k' v'] l IH]; cbn; [done|].
  destruct (String.eqb_spec k' k) as [->|Hne]; intros Hk.
  - by left.
  - right. auto.
Qed.

Lemma get_section_map (m : string) (h : heap) (o : oid) (x : object) (f : field) :
  h !! o = Some x -> is_Some (assoc m (maps x)) -> fields x !! m = Some f ->
  get_section m h o = Ok f.
Proof.
  intros Hx [key Hkey] Hf. unfold get_section.
  rewrite (deref_Some _ _ _ Hx); cbn [bind].
  rewrite (bool_decide_eq_true_2 (m ∈ map fst (maps x)))
    by (eapply assoc_Some_fst; eauto).
  rewrite orb_true_r. by apply getattr_Some.
Qed.

Section ExternalizeFacts.
Variables Device_tag Technology_tag : Tag.

(** C1, amended: on a device-set that owns one or more devices, each filed
    under its own name, [convertToExternal] leaves exactly one device, the one
    that came first in the device-set, filed under the empty name, with name
    "" and package "_EXTERNAL_" and no connect; that device keeps its own
    technologies, and each of them keeps its attributes and receives one
    marker attribute named "_EXTERNAL_": a new [Attribute], an object that
    was not in the store before, filed under that name in place of whatever
    was filed there; the other devices are removed and nothing of theirs is
    carried over. *)
Theorem convertToExternal_first_device (h : heap) (self d : oid) (x xd : object)
    (k0 : value) (rest techs : dict) :
  h !! self = Some x ->
  assoc "devices" (maps x) = Some "name" ->
  fields x !! "devices" = Some (FDict ((k0, d) :: rest)) ->
  Forall (fun ki => fld h ki.2 "name" = Some (FVal ki.1)) ((k0, d) :: rest) ->
  h !! d = Some xd ->
  clearable h d "connects" ->
  is_Some (assoc "technologies" (maps xd)) ->
  fields xd !! "technologies" = Some (FDict techs) ->
  (forall t, t ∈ dict_values techs ->
     exists xt atts, h !! t = Some xt /\ assoc "attributes" (maps xt) = Some "name" /\
                     fields xt !! "attributes" = Some (FDict atts)) ->
  exists h',
    convertToExternal Device_tag Technology_tag h self = Ok h' /\
    get_field h' self "devices" = Ok (FDict [(VStr "", d)]) /\
    get_field h' d "name" = Ok (FVal (VStr "")) /\
    get_field h' d "package" = Ok (FVal (VStr "_EXTERNAL_")) /\
    (exists f, get_field h' d "connects" = Ok f /\ py_len f = Ok 0%nat) /\
    get_field h' d "technologies" = Ok (FDict techs) /\
    (forall t atts,
       t ∈ dict_values techs -> fld h t "attributes" = Some (FDict atts) ->
       exists a,
         (length h <= a)%nat /\ h !! a = None /\
         get_field h' t "attributes"
           = Ok (FDict (dict_set atts (VStr "_EXTERNAL_") a)) /\
         is_marker h' a).
Proof.
  intros Hx Hkey Hdevs Hnames Hxd Hclear Htechmap Htechs Htech.
  (* the devices are removed *)
  destruct (remove_all self _ h x Hx Hkey Hdevs Hnames) as (h1 & Hrun1 & Hf1 & Hd1).
  (* the first device is renamed *)
  destruct (set_field_frame (fun o a => o = d /\ a = "name") h1 d "name"
              (FVal (VStr ""))) as (h2 & Hrun2 & Hf2 & Hn2);
    [eapply frame_alloc_Some; eauto | done |].
  destruct (set_field_frame (fun o a => o = d /\ a = "package") h2 d "package"
              (FVal (VStr "_EXTERNAL_"))) as (h3 & Hrun3 & Hf3 & Hp3);
    [eapply frame_alloc_Some; [exact Hf2|]; eapply frame_alloc_Some; eauto | done |].
  (* its connects are cleared *)
  assert (Hclear3 : clearable h3 d "connects").
  { eapply clearable_frame; [exact Hf3 | intros [_ [=]] |].
    eapply clearable_frame; [exact Hf2 | intros [_ [=]] |].
    eapply clearable_frame; [exact Hf1 | intros [_ [=]] | done]. }
  destruct (clear_frame (fun o a => o = d /\ a = "connects") h3 d "connects" Hclear3)
    as (h4 & fc & Hrun4 & Hf4 & Hc4 & Hlen4); [done|].
  (* it is added again, under its new name *)
  assert (Hd4 : fld h4 self "devices" = Some (FDict [])).
  { eapply frame_fld; [exact Hf4 | intros [_ [=]] |].
    eapply frame_fld; [exact Hf3 | intros [_ [=]] |].
    eapply frame_fld; [exact Hf2 | intros [_ [=]] | done]. }
  assert (Hn4 : fld h4 d "name" = Some (FVal (VStr ""))).
  { eapply frame_fld; [exact Hf4 | intros [_ [=]] |].
    eapply frame_fld; [exact Hf3 | intros [_ [=]] | done]. }
  destruct (fld_Some_alloc _ _ _ _ Hd4) as (x4 & Hx4 & Hfx4).
  assert (Hkey4 : assoc "devices" (maps x4) = Some "name").
  { destruct (Hf1 _ _ Hx) as (y1 & Hy1 & _ & _ & Hm1 & _).
    destruct (Hf2 _ _ Hy1) as (y2 & Hy2 & _ & _ & Hm2 & _).
    destruct (Hf3 _ _ Hy2) as (y3 & Hy3 & _ & _ & Hm3 & _).
    destruct (Hf4 _ _ Hy3) as (y4 & Hy4 & _ & _ & Hm4 & _).
    assert (y4 = x4) by congruence; subst y4. congruence. }
  destruct (add_map_dict (fun o a => o = self /\ a = "devices") "devices" "name"
              h4 self d x4 [] (VStr "") Hx4 Hkey4 Hfx4 Hn4)
    as (h5 & Hrun5 & Hf5 & Hd5); [done|].
  (* from the start to here only these four attributes were assigned *)
  set (P := fun (_ : oid) (a : string) =>
              a = "devices" \/ a = "name" \/ a = "package" \/ a = "connects").
  assert (Hf : frame P h h5).
  { eapply frame_trans; [eapply frame_mono; [|exact Hf1]; intros ? ? [_ ->]; unfold P; auto 6|].
    eapply frame_trans; [eapply frame_mono; [|exact Hf2]; intros ? ? [_ ->]; unfold P; auto 6|].
    eapply frame_trans; [eapply frame_mono; [|exact Hf3]; intros ? ? [_ ->]; unfold P; auto 6|].
    eapply frame_trans; [eapply frame_mono; [|exact Hf4]; intros ? ? [_ ->]; unfold P; auto 6|].
    eapply frame_mono; [|exact Hf5]; intros ? ? [_ ->]; unfold P; auto 6. }
  (* the technologies of the device are marked *)
  destruct (Hf _ _ Hxd) as (x5 & Hx5 & _ & _ & Hmaps5 & Hfs5).
  assert (Htechs5 : fields x5 !! "technologies" = Some (FDict techs)).
  { rewrite Hfs5; [done|]. unfold P. intros [[=]|[[=]|[[=]|[=]]]]. }
  destruct (mark_all (dict_values techs) h5) as (h6 & Hrun6 & Hf6 & _ & Hmarked).
  { intros t Ht. destruct (Htech t Ht) as (xt & atts & Hxt & Hkt & Hat).
    destruct (Hf _ _ Hxt) as (xt5 & Hxt5 & _ & _ & Hmt & Hft).
    exists xt5, atts. rewrite Hmt, Hft; [done|].
    unfold P. intros [[=]|[[=]|[[=]|[=]]]]. }
  exists h6. split; [|repeat split].
  - unfold convertToExternal.
    rewrite (get_section_map "devices" h self x _ Hx (mk_is_Some _ _ Hkey) Hdevs).
    cbn [bind py_len length]. rewrite bool_decide_eq_true_2 by lia.
    cbn [values bind].
    change (dict_values ((k0, d) :: rest)) with (d :: dict_values rest) at 1.
    cbn [bind]. rewrite Hrun1; cbn [bind].
    rewrite Hrun2; cbn [bind]. rewrite Hrun3; cbn [bind]. rewrite Hrun4; cbn [bind].
    rewrite Hrun5; cbn [bind].
    rewrite (get_section_map "technologies" h5 d x5 (FDict techs) Hx5);
      [cbn [bind values]; exact Hrun6 | by rewrite Hmaps5 | done].
  - apply fld_get_field. eapply frame_fld; [exact Hf6 | intros [=] | done].
  - apply fld_get_field. eapply frame_fld; [exact Hf6 | intros [=] |].
    eapply frame_fld; [exact Hf5 | intros [_ [=]] | done].
  - apply fld_get_field. eapply frame_fld; [exact Hf6 | intros [=] |].
    eapply frame_fld; [exact Hf5 | intros [_ [=]] |].
    eapply frame_fld; [exact Hf4 | intros [_ [=]] | done].
  - exists fc. split; [|done].
    apply fld_get_field. eapply frame_fld; [exact Hf6 | intros [=] |].
    eapply frame_fld; [exact Hf5 | intros [_ [=]] | done].
  - apply fld_get_field. eapply frame_fld; [exact Hf6 | intros [=] |].
    unfold fld. by rewrite Hx5.
  - intros t atts Ht Hatts.
    assert (Hatts5 : fld h5 t "attributes" = Some (FDict atts)).
    { eapply frame_fld; [exact Hf | | done].
      unfold P. intros [[=]|[[=]|[[=]|[=]]]]. }
    specialize (Hmarked t atts Hatts5). rewrite decide_True in Hmarked by done.
    destruct Hmarked as (a & Hnew & Ha & Hmark). exists a.
    assert (Hlen : (length h <= a)%nat)
      by (pose proof (frame_length _ _ _ Hf); lia).
    split; [done|]. split; [by apply lookup_ge_None|]. split; [|done].
    by apply fld_get_field.
Qed.

End ExternalizeFacts.

(** C1 as stated fails on the union: device B's technology carried the
    attribute PWR, and after [convertToExternal] the sole technology of the
    sole device has TOL, which was device A's, and the marker, and no PWR. *)
Lemma other_devices_attributes_lost :
  fld two_devices 5%nat "attributes" = Some (FDict [(VStr "PWR", 7%nat)]) /\
  exists h',
    convertToExternal demo_Device_tag demo_Technology_tag two_devices 0%nat = Ok h' /\
    get_field h' 0%nat "devices" = Ok (FDict [(VStr "", 1%nat)]) /\
    get_field h' 1%nat "technologies" = Ok (FDict [(VStr "", 4%nat)]) /\
    get_field h' 4%nat "attributes"
      = Ok (FDict [(VStr "TOL", 6%nat); (VStr "_EXTERNAL_", 8%nat)]).
Proof.
  split; [reflexivity|].
  eexists. split; [vm_compute; reflexivity|].
  repeat split; vm_compute; reflexivity.
Qed.

(** On a device-set with no device the other branch hands the constructor of
    [Device] a list where the technologies are a dict, and the loop over
    [d.get_technologies().values()] raises. *)
Lemma convertToExternal_no_device :
  convertToExternal demo_Device_tag demo_Technology_tag no_device 0%nat
  = Raise AttributeError.
Proof. vm_compute. reflexivity. Qed.

Lemma convertToExternal_first_device_witness :
  exists h',
    convertToExternal demo_Device_tag demo_Technology_tag two_devices 0%nat = Ok h' /\
    get_field h' 0%nat "devices" = Ok (FDict [(VStr "", 1%nat)]) /\
    get_field h' 1%nat "package" = Ok (FVal (VStr "_EXTERNAL_")) /\
    exists a,
      (length two_devices <= a)%nat /\ two_devices !! a = None /\
      get_field h' 4%nat "attributes"
        = Ok (FDict (dict_set [(VStr "TOL", 6%nat)] (VStr "_EXTERNAL_") a)) /\
      is_marker h' a.
Proof.
  destruct (convertToExternal_first_device demo_Device_tag demo_Technology_tag
              two_devices 0%nat 1%nat
              (node "Deviceset" None
                 [("name", FVal (VStr "R"));
                  ("devices", FDict [(VStr "A", 1%nat); (VStr "B", 2%nat)])]
                 [] [("devices", "name")])
              (node "Device" (Some 0%nat)
                 [("name", FVal (VStr "A")); ("package", FVal (VStr "0603"));
                  ("connects", FList [3%nat]);
                  ("technologies", FDict [(VStr "", 4%nat)])]
                 ["connects"] [("technologies", "name")])
              (VStr "A") [(VStr "B", 2%nat)] [(VStr "", 4%nat)])
    as (h' & Hrun & Hdevices & _ & Hpackage & _ & _ & Hmarked).
  - reflexivity.
  - reflexivity.
  - reflexivity.
  - repeat constructor.
  - reflexivity.
  - eexists. split; [reflexivity|]. left. split; [by left|].
    exists [3%nat]. split; [reflexivity|].
    intros c Hc. elem_of_cases. by eexists.
  - by eexists.
  - reflexivity.
  - intros t Ht. cbn in Ht. elem_of_cases.
    eexists _, _. split; [reflexivity|]. split; reflexivity.
  - exists h'. split; [done|]. split; [done|]. split; [done|].
    apply (Hmarked 4%nat [(VStr "TOL", 6%nat)]); [by left | reflexivity].
Defined.

(** An attribute that was passed to the constructor holds what was passed. *)
Lemma construct_keyword (t : Tag) (kwargs : list (string * field)) (x : object)
    (a : string) (f g : field) :
  construct t kwargs = Ok x -> assoc a kwargs = Some f ->
  fields x !! a = Some g -> g = f.
Proof.
  unfold construct. destruct (forallb _ kwargs); [|discriminate].
  intros [= <-] Ha Hg. cbn in Hg.
  apply elem_of_list_to_map_2 in Hg.
  rewrite !elem_of_app, !list_elem_of_fmap in Hg.
  unfold kwarg in Hg.
  destruct Hg as [(b & [= -> ->] & _)|[(b & [= -> ->] & _)|(b & [= -> ->] & _)]];
    by rewrite Ha.
Qed.

(** X24: whatever the tags of [Device] and [Technology] are, the branch of
    [convertToExternal] for a device-set with no device raises: the
    constructor is handed a list as [technologies], and a list has no
    [values]. *)
Lemma convertToExternal_no_device_raises (Device_tag Technology_tag : Tag)
    (h : heap) (self : oid) (devices : field) :
  get_section "devices" h self = Ok devices -> py_len devices = Ok 0%nat ->
  is_Raise (convertToExternal Device_tag Technology_tag h self).
Proof.
  intros Hdev Hlen. unfold convertToExternal. rewrite Hdev; cbn [bind].
  rewrite Hlen; cbn [bind]. rewrite bool_decide_eq_false_2 by lia.
  destruct (construct Technology_tag _) as [tx|e]; cbn [bind]; [|by eexists].
  cbn [alloc].
  destruct (construct Device_tag _) as [dx|e] eqn:Hd; cbn [bind]; [|by eexists].
  cbn [alloc].
  set (h2 := (h ++ [tx]) ++ [dx]). set (d := length (h ++ [tx])).
  destruct (add_map "devices" h2 self d) as [h3|e] eqn:Hadd; cbn [bind];
    [|by eexists].
  assert (Hself : (self < length h)%nat).
  { unfold get_section in Hdev. destruct (deref h self) as [o|] eqn:Ho; [|done].
    apply deref_Ok in Ho. eapply lookup_lt_Some; eauto. }
  assert (Hd2 : h2 !! d = Some dx).
  { unfold h2, d. by rewrite lookup_app_r, Nat.sub_diag. }
  assert (Hne : self <> d) by (unfold d; rewrite length_app; lia).
  (* after [add_device] the new device is as it was built, but for its parent *)
  assert (Hd3 : h3 !! d = Some (with_parent dx (Some self))).
  { unfold add_map in Hadd. bind_inv Hadd.
    destruct (assoc "devices" (maps a)); [|discriminate].
    bind_inv Hadd. bind_inv Hadd.
    assert (Hsp : forall f', set_parent (<[self := setattr a "devices" f']> h2) d
                               (Some self) = Ok h3 ->
                             h3 !! d = Some (with_parent dx (Some self))).
    { intros f' (y & Hy & ->)%set_parent_Ok.
      rewrite list_lookup_insert_ne in Hy by done.
      assert (y = dx) by congruence; subst y.
      apply list_lookup_insert_eq. rewrite length_insert.
      eapply lookup_lt_Some; eauto. }
    destruct a0 as [|xs|dd], a1 as [k| |]; try discriminate; eauto.
    bind_inv Hadd. eauto. }
  unfold get_section. rewrite (deref_Some _ _ _ Hd3); cbn [bind].
  destruct (bool_decide _ || bool_decide _); [|by eexists].
  unfold getattr. cbn [with_parent fields].
  destruct (fields dx !! "technologies") as [g|] eqn:Hg; [|by eexists].
  rewrite (construct_keyword _ _ _ "technologies" (FList [length h]) g Hd eq_refl Hg).
  cbn. by eexists.
Qed.

(** * Further properties of the coercions *)

Section CoercionKinds.
Context `{PyBuiltins}.
Variables (depth : nat) (h : heap) (efp : option oid).

(** X1: kind [bool] reads "yes" and "no" in any mix of cases, writes them
    back in lower case, so that what [unparseByType] writes parses to the
    value it was written from; any other present raw value made of ASCII
    characters is refused with a [HighEagleError] that quotes it. *)
Theorem bool_coercion :
  (forall s, upper s = "YES" ->
     parseByType depth h efp "bool" (Some s) = Ok (FVal (VBool true))) /\
  (forall s, upper s = "NO" ->
     parseByType depth h efp "bool" (Some s) = Ok (FVal (VBool false))) /\
  (forall s e, ascii_text s = true -> upper s <> "YES" -> upper s <> "NO" ->
     opt_object_str h efp = Ok e ->
     parseByType depth h efp "bool" (Some s)
     = Raise (HighEagleError ("Invalid eagle bool value '" +:+ s
                                +:+ "' in child of " +:+ e))) /\
  (forall b, exists r,
     unparseByType depth h efp "bool" (FVal (VBool b)) = Ok (FVal (VStr r)) /\
     r = (if b then "yes" else "no") /\
     parseByType depth h efp "bool" (Some r) = Ok (FVal (VBool b))).
Proof.
  split; [|split; [|split]].
  - intros s Hs. cbn. rewrite Hs. reflexivity.
  - intros s Hs. cbn. rewrite Hs. reflexivity.
  - intros s e _ Hyes Hno He. cbn.
    rewrite bool_decide_eq_false_2 by (rewrite list_elem_of_singleton; done).
    rewrite bool_decide_eq_false_2 by (rewrite list_elem_of_singleton; done).
    rewrite He. reflexivity.
  - intros [|]; eexists; (split; [reflexivity|]); split; reflexivity.
Qed.

(** X2: an attribute kind that is none of the six is refused with
    [HighEagleError] naming the kind, by [parseByType] on every present raw
    value and by [unparseByType] on every present value. *)
Theorem unknown_kind_refused (attrType : string) :
  attrType ∉ ["str"; "int"; "float"; "bool"; "constant_bool"; "layer_string"] ->
  (forall s, parseByType depth h efp attrType (Some s)
             = Raise (HighEagleError ("Unknown attr type '" +:+ attrType +:+ "'"))) /\
  (forall v, v <> FVal VNone ->
             unparseByType depth h efp attrType v
             = Raise (HighEagleError ("Unknown attr type '" +:+ attrType +:+ "'"))).
Proof.
  intros Hkind.
  assert (Hne : forall k, k ∈ ["str"; "int"; "float"; "bool"; "constant_bool";
                              "layer_string"] -> String.eqb attrType k = false).
  { intros k Hk. apply String.eqb_neq. intros ->. contradiction. }
  assert (Hin : forall k, bool_decide (k ∈ ["str"; "int"; "float"; "bool";
                                           "constant_bool"; "layer_string"]) = true ->
                          String.eqb attrType k = false).
  { intros k Hk. apply Hne. by apply bool_decide_eq_true in Hk. }
  clear Hne. rename Hin into Hne.
  assert (Hstr := Hne "str"). assert (Hint := Hne "int").
  assert (Hfloat := Hne "float"). assert (Hbool := Hne "bool").
  assert (Hconst := Hne "constant_bool"). assert (Hlayer := Hne "layer_string").
  split.
  - intros s. unfold parseByType.
    rewrite Hstr, Hint, Hfloat, Hbool, Hconst, Hlayer by reflexivity. reflexivity.
  - intros v Hv. unfold unparseByType.
    rewrite Hstr, Hbool, Hconst, Hlayer by reflexivity.
    rewrite bool_decide_eq_false_2.
    2:{ intros Hin. apply Hkind.
        apply elem_of_cons in Hin as [->|Hin]; [by right; left|].
        apply elem_of_cons in Hin as [->|Hin]; [by right; right; left|].
        by apply elem_of_nil in Hin. }
    destruct v as [[]| |]; try contradiction; reflexivity.
Qed.

End CoercionKinds.

Lemma unknown_kind_refused_witness :
  @parseByType demo_builtins 0 [] None "double" (Some "1.5")
    = Raise (HighEagleError "Unknown attr type 'double'") /\
  @unparseByType demo_builtins 0 [] None "double" (FVal (VInt 3))
    = Raise (HighEagleError "Unknown attr type 'double'").
Proof.
  destruct (@unknown_kind_refused demo_builtins 0 [] None "double") as [Hp Hu].
  - intros Hin.
    repeat (apply elem_of_cons in Hin as [Hin|Hin]; [discriminate|]).
    by apply elem_of_nil in Hin.
  - split; [apply Hp | apply Hu; discriminate].
Defined.

Section LayerStringAttached.
Context `{PyBuiltins}.

(** X3: on a node whose root is a file with a dict of layers, parsing a raw
    value of kind [layer_string] reads the raw value as a number and answers
    the name of the layer filed under it; a number that is not filed is
    refused with [HighEagleError] naming number and file, a layer whose name
    is [None] fails the assertion, and a raw value that [int] refuses is a
    [ValueError]. *)
Theorem layer_string_parse (depth : nat) (h : heap) (e f : oid) (x : object)
    (d : dict) (filename : field) :
  get_file depth h e = Ok (Some f) ->
  h !! f = Some x ->
  fields x !! "layers" = Some (FDict d) ->
  fields x !! "filename" = Some filename ->
  (forall s, int_of_str s = None ->
     parseByType depth h (Some e) "layer_string" (Some s) = Raise ValueError) /\
  (forall s n, int_of_str s = Some n -> dict_get d (VInt n) = None ->
     parseByType depth h (Some e) "layer_string" (Some s)
     = Raise (HighEagleError ("No layer number " +:+ str_of_int n +:+ " in "
                                +:+ field_str filename))) /\
  (forall s n l name, int_of_str s = Some n -> dict_get d (VInt n) = Some l ->
     fld h l "name" = Some (FVal (VStr name)) ->
     parseByType depth h (Some e) "layer_string" (Some s) = Ok (FVal (VStr name))) /\
  (forall s n l, int_of_str s = Some n -> dict_get d (VInt n) = Some l ->
     fld h l "name" = Some (FVal VNone) ->
     parseByType depth h (Some e) "layer_string" (Some s) = Raise AssertionError).
Proof.
  intros Hfile Hx Hd Hfn.
  assert (Hrun : forall s, parseByType depth h (Some e) "layer_string" (Some s)
            = let* r := match int_of_str s with
                        | Some z => layer_number_to_name h f (VInt z)
                        | None => Raise ValueError
                        end in
              match r with FVal VNone => Raise AssertionError | _ => Ok r end).
  { intros s. cbn. rewrite Hfile. reflexivity. }
  assert (Hlook : forall n l, dict_get d (VInt n) = Some l ->
            layer_number_to_name h f (VInt n) = get_field h l "name").
  { intros n l Hl. unfold layer_number_to_name.
    rewrite (deref_Some _ _ _ Hx); cbn [bind py_int].
    rewrite (getattr_Some _ _ _ Hd); cbn [bind py_in].
    rewrite bool_decide_eq_true_2 by (rewrite Hl; eauto).
    cbn [negb getitem]. rewrite Hl. reflexivity. }
  split; [|split; [|split]].
  - intros s Hs. rewrite Hrun, Hs. reflexivity.
  - intros s n Hs Hnone. rewrite Hrun, Hs. unfold layer_number_to_name.
    rewrite (deref_Some _ _ _ Hx); cbn [bind py_int].
    rewrite (getattr_Some _ _ _ Hd); cbn [bind py_in].
    rewrite bool_decide_eq_false_2 by (rewrite Hnone; apply is_Some_None).
    cbn [negb]. rewrite (getattr_Some _ _ _ Hfn). reflexivity.
  - intros s n l name Hs Hl Hname. rewrite Hrun, Hs, (Hlook _ _ Hl).
    rewrite (fld_get_field _ _ _ _ Hname). reflexivity.
  - intros s n l Hs Hl Hname. rewrite Hrun, Hs, (Hlook _ _ Hl).
    rewrite (fld_get_field _ _ _ _ Hname). reflexivity.
Qed.

End LayerStringAttached.

(** In [two_layers] the layer "Top" lies under the board: its "1" is "Top",
    its "16" is not filed. *)
Lemma layer_string_parse_witness :
  @parseByType demo_builtins 5 two_layers (Some 1%nat) "layer_string" (Some "1")
    = Ok (FVal (VStr "Top")) /\
  @parseByType demo_builtins 5 two_layers (Some 1%nat) "layer_string" (Some "16")
    = Raise (HighEagleError "No layer number 16 in a.brd") /\
  @parseByType demo_builtins 5 two_layers (Some 1%nat) "layer_string" (Some "top")
    = Raise ValueError.
Proof.
  destruct (@layer_string_parse demo_builtins 5 two_layers 1%nat 0%nat
              (file_obj "BoardFile"
                 [("filename", FVal (VStr "a.brd"));
                  ("layers", FDict [(VInt 1, 1%nat)]);
                  ("layersByName", FDict [(VStr "Top", 1%nat)])] [] [])
              [(VInt 1, 1%nat)] (FVal (VStr "a.brd"))
              eq_refl eq_refl eq_refl eq_refl) as (Hbad & Hmiss & Hhit & _).
  split; [|split].
  - apply (Hhit "1" 1 1%nat "Top"); reflexivity.
  - apply (Hmiss "16" 16); reflexivity.
  - apply (Hbad "top"); reflexivity.
Defined.

(** * Navigation *)

Lemma get_root_mono (d d' : nat) (h : heap) (x r : oid) :
  get_root d h x = Ok r -> (d <= d')%nat -> get_root d' h x = Ok r.
Proof.
  revert d' x. induction d as [|d IH]; intros d' x Hr Hle; [discriminate|].
  destruct d' as [|d']; [lia|]. cbn [get_root] in *.
  destruct (deref h x) as [o|]; cbn [bind] in *; [|done].
  destruct (parent o); [|done]. apply IH; [done | lia].
Qed.

Lemma get_root_is_root (d : nat) (h : heap) (x r : oid) :
  get_root d h x = Ok r -> exists o, h !! r = Some o /\ parent o = None.
Proof.
  revert x. induction d as [|d IH]; intros x Hr; [discriminate|].
  cbn [get_root] in Hr.
  destruct (deref h x) as [o|] eqn:Ho; cbn [bind] in Hr; [|done].
  destruct (parent o) eqn:Hp; [eauto|].
  injection Hr as <-. apply deref_Ok in Ho. eauto.
Qed.

(** X4: what [get_root] answers has no parent and is its own root, so that
    [get_file] of a node is [get_file] of its root; and the answer does not
    change when more recursion depth is allowed. *)
Theorem get_root_idempotent (d : nat) (h : heap) (x r : oid) :
  get_root d h x = Ok r ->
  parent <$> h !! r = Some None /\
  get_root d h r = Ok r /\
  get_file d h r = get_file d h x /\
  (forall d', (d <= d')%nat -> get_root d' h x = Ok r).
Proof.
  intros Hr. destruct (get_root_is_root _ _ _ _ Hr) as (o & Ho & Hp).
  assert (Hrr : get_root d h r = Ok r).
  { destruct d as [|d]; [discriminate|]. cbn [get_root].
    rewrite (deref_Some _ _ _ Ho); cbn [bind]. by rewrite Hp. }
  split; [by rewrite Ho; cbn; rewrite Hp|]. split; [done|]. split.
  - unfold get_file. by rewrite Hrr, Hr.
  - intros d' Hle. eapply get_root_mono; eauto.
Qed.

(** X5: on a chain of parents that never ends (a set of objects each of which
    has a parent in the set) [get_root], and with it [get_file], raises
    [RuntimeError] whatever recursion depth is allowed: it never answers. *)
Theorem get_root_cycle (S : oid -> Prop) (h : heap) :
  (forall o, S o -> exists x p, h !! o = Some x /\ parent x = Some p /\ S p) ->
  forall d x, S x ->
    get_root d h x = Raise RuntimeError /\ get_file d h x = Raise RuntimeError.
Proof.
  intros Hclosed d.
  assert (Hroot : forall x, S x -> get_root d h x = Raise RuntimeError).
  { induction d as [|d IH]; intros x Hx; [reflexivity|].
    destruct (Hclosed x Hx) as (o & p & Ho & Hp & HSp).
    cbn [get_root]. rewrite (deref_Some _ _ _ Ho); cbn [bind]. rewrite Hp. auto. }
  intros x Hx. split; [auto|]. unfold get_file. by rewrite Hroot.
Qed.

Lemma get_root_idempotent_witness :
  get_root 5 schematic 4%nat = Ok 0%nat /\
  parent <$> schematic !! 0%nat = Some None /\
  get_root 5 schematic 0%nat = Ok 0%nat /\
  get_file 5 schematic 0%nat = get_file 5 schematic 4%nat.
Proof.
  destruct (get_root_idempotent 5 schematic 4%nat 0%nat eq_refl) as (Hp & Hr & Hf & _).
  split; [reflexivity|]. split; [exact Hp|]. split; [exact Hr | exact Hf].
Defined.

Lemma get_root_cycle_witness :
  get_root 1000 looped 0%nat = Raise RuntimeError /\
  get_file 1000 looped 0%nat = Raise RuntimeError.
Proof.
  apply (get_root_cycle (fun o => (o < 2)%nat) looped); [|lia].
  intros o Ho. destruct o as [|[|o]]; [| |lia].
  - exists (leaf "Wire" (Some 1%nat) []), 1%nat. split; [reflexivity|]. split; [reflexivity|lia].
  - exists (leaf "Wire" (Some 0%nat) []), 0%nat. split; [reflexivity|]. split; [reflexivity|lia].
Defined.

(** * The accessors of map and list sections *)

Lemma dict_get_set_other (d : dict) (k k' : value) (v : oid) :
  k <> k' -> dict_get (dict_set d k v) k' = dict_get d k'.
Proof.
  intros Hne. induction d as [|[k0 v0] d IH]; cbn.
  - rewrite decide_False; done.
  - destruct (decide (k0 = k)) as [->|Hne0]; cbn.
    + rewrite !decide_False; done.
    + destruct (decide (k0 = k')); done.
Qed.

Lemma dict_set_fresh (d : dict) (k : value) (v : oid) :
  dict_get d k = None -> dict_set d k v = d ++ [(k, v)].
Proof.
  induction d as [|[k' v'] d IH]; cbn; [done|].
  destruct (decide (k' = k)); [done|]. intros Hd. by rewrite IH.
Qed.

Lemma dict_del_set_fresh (d : dict) (k : value) (v : oid) :
  dict_get d k = None -> dict_del (dict_set d k v) k = Some d.
Proof.
  induction d as [|[k' v'] d IH]; cbn.
  - by rewrite decide_True.
  - destruct (decide (k' = k)) as [->|Hne]; [done|]. intros Hd. cbn.
    rewrite decide_False by done. by rewrite IH.
Qed.

Lemma dict_del_None (d : dict) (k : value) :
  dict_get d k = None -> dict_del d k = None.
Proof.
  induction d as [|[k' v'] d IH]; cbn; [done|].
  destruct (decide (k' = k)); [done|]. intros Hd. by rewrite IH.
Qed.

Lemma dict_set_length (d : dict) (k : value) (v old : oid) :
  dict_get d k = Some old -> length (dict_set d k v) = length d.
Proof.
  induction d as [|[k' v'] d IH]; cbn; [done|].
  destruct (decide (k' = k)); [done|]. intros Hd. cbn. by rewrite IH.
Qed.

Lemma dict_set_displaces (d : dict) (k : value) (v old : oid) :
  dict_get d k = Some old -> NoDup (dict_values d) -> old <> v ->
  old ∉ dict_values (dict_set d k v).
Proof.
  unfold dict_values.
  induction d as [|[k' v'] d IH]; cbn; [done|].
  destruct (decide (k' = k)) as [->|Hne]; intros Hd Hnd Hv; cbn.
  - injection Hd as ->. apply NoDup_cons in Hnd as [Hnin _].
    rewrite not_elem_of_cons. done.
  - apply NoDup_cons in Hnd as [Hnin Hnd].
    rewrite not_elem_of_cons. split; [|by apply IH].
    intros <-. apply Hnin. apply list_elem_of_fmap. exists (k, old).
    split; [done|]. by apply dict_get_elem_of.
Qed.

Lemma parent_setattr (h : heap) (o o' : oid) (x : object) (a : string) (f : field) :
  h !! o = Some x ->
  parent <$> <[o := setattr x a f]> h !! o' = parent <$> h !! o'.
Proof.
  intros Hx. destruct (decide (o = o')) as [<-|Hne].
  - rewrite list_lookup_insert_eq by (eapply lookup_lt_Some; eauto). by rewrite Hx.
  - by rewrite list_lookup_insert_ne.
Qed.

Lemma set_parent_spec (P : oid -> string -> Prop) (h : heap) (s : oid)
    (p : option oid) :
  is_Some (h !! s) ->
  exists h', set_parent h s p = Ok h' /\ frame P h h' /\
             (forall o a, fld h' o a = fld h o a) /\
             parent <$> h' !! s = Some p /\
             (forall o, o <> s -> parent <$> h' !! o = parent <$> h !! o).
Proof.
  intros [x Hx]. unfold set_parent. rewrite (deref_Some _ _ _ Hx). cbn [bind].
  eexists. split; [reflexivity|]. split; [by apply frame_with_parent|].
  split; [intros o a; by apply fld_with_parent|]. split.
  - rewrite list_lookup_insert_eq by (eapply lookup_lt_Some; eauto). done.
  - intros o Hne. by rewrite list_lookup_insert_ne.
Qed.

Lemma add_map_parents (P : oid -> string -> Prop) (m key : string) (h : heap)
    (self s : oid) (x : object) (d : dict) (k : value) :
  h !! self = Some x -> assoc m (maps x) = Some key ->
  fields x !! m = Some (FDict d) ->
  fld h s key = Some (FVal k) -> P self m ->
  exists h', add_map m h self s = Ok h' /\ frame P h h' /\
             fld h' self m = Some (FDict (dict_set d k s)) /\
             parent <$> h' !! s = Some (Some self) /\
             (forall o, o <> s -> parent <$> h' !! o = parent <$> h !! o).
Proof.
  intros Hx Hkey Hm Hk HP. unfold add_map.
  rewrite (deref_Some _ _ _ Hx); cbn [bind]. rewrite Hkey.
  rewrite (getattr_Some _ _ _ Hm), (fld_get_field _ _ _ _ Hk); cbn [bind].
  apply fld_Some_alloc in Hk as (xs & Hxs & _).
  destruct (set_parent_spec P (<[self := setattr x m (FDict (dict_set d k s))]> h)
              s (Some self)) as (h' & Hsp & Hf & Hfld & Hps & Hpo).
  { apply lookup_lt_is_Some. rewrite length_insert. eapply lookup_lt_Some; eauto. }
  exists h'. split; [done|]. split; [|split; [|split]].
  - eapply frame_trans; [|done]. by apply frame_setattr.
  - rewrite Hfld. apply fld_setattr_eq. eapply lookup_lt_Some; eauto.
  - done.
  - intros o Hne. rewrite (Hpo o Hne). by apply parent_setattr.
Qed.

Lemma remove_map_parents (P : oid -> string -> Prop) (m key : string) (h : heap)
    (self efp : oid) (x : object) (d d' : dict) (k : value) :
  h !! self = Some x -> assoc m (maps x) = Some key ->
  fields x !! m = Some (FDict d) ->
  fld h efp key = Some (FVal k) -> dict_del d k = Some d' -> P self m ->
  exists h', remove_map m h self efp = Ok h' /\ frame P h h' /\
             fld h' self m = Some (FDict d') /\
             parent <$> h' !! efp = Some None /\
             (forall o, o <> efp -> parent <$> h' !! o = parent <$> h !! o).
Proof.
  intros Hx Hkey Hm Hk Hdel HP. unfold remove_map.
  rewrite (deref_Some _ _ _ Hx); cbn [bind]. rewrite Hkey.
  rewrite (getattr_Some _ _ _ Hm), (fld_get_field _ _ _ _ Hk); cbn [bind].
  rewrite Hdel.
  apply fld_Some_alloc in Hk as (xe & Hxe & _).
  destruct (set_parent_spec P (<[self := setattr x m (FDict d')]> h) efp None)
    as (h' & Hsp & Hf & Hfld & Hps & Hpo).
  { apply lookup_lt_is_Some. rewrite length_insert. eapply lookup_lt_Some; eauto. }
  exists h'. split; [done|]. split; [|split; [|split]].
  - eapply frame_trans; [|done]. by apply frame_setattr.
  - rewrite Hfld. apply fld_setattr_eq. eapply lookup_lt_Some; eauto.
  - done.
  - intros o Hne. rewrite (Hpo o Hne). by apply parent_setattr.
Qed.

Lemma get_item_dict (m : string) (h : heap) (self : oid) (x : object) (d : dict)
    (k : value) :
  h !! self = Some x -> is_Some (assoc m (maps x)) ->
  fields x !! m = Some (FDict d) ->
  get_item m h self k
  = match dict_get d k with Some v => Ok v | None => Raise KeyError end.
Proof.
  intros Hx [key Hkey] Hm. unfold get_item.
  rewrite (deref_Some _ _ _ Hx); cbn [bind]. rewrite Hkey.
  rewrite (getattr_Some _ _ _ Hm). reflexivity.
Qed.

Lemma frame_section (P : oid -> string -> Prop) (h h' : heap) (o : oid)
    (x : object) (a : string) (f : field) :
  frame P h h' -> h !! o = Some x -> fld h' o a = Some f ->
  exists x', h' !! o = Some x' /\ maps x' = maps x /\ lists x' = lists x /\
             fields x' !! a = Some f.
Proof.
  intros Hf Hx Hfld. destruct (Hf _ _ Hx) as (x' & Hx' & _ & Hl & Hm & _).
  exists x'. unfold fld in Hfld. rewrite Hx' in Hfld. done.
Qed.

(** X6: after [add_X(s)] on a map section keyed by a str, the lookup
    [get_X(key)] under the key of [s] answers [s] and every other key answers
    what it answered before; a key that is not filed raises [KeyError] (the
    lookup never answers [None]). *)
Theorem add_map_lookup (m key : string) (h : heap) (self s : oid) (x : object)
    (d : dict) (k : string) :
  h !! self = Some x -> assoc m (maps x) = Some key ->
  fields x !! m = Some (FDict d) ->
  fld h s key = Some (FVal (VStr k)) ->
  exists h',
    add_map m h self s = Ok h' /\
    get_item m h' self (VStr k) = Ok s /\
    (forall k' : string, k' <> k ->
       get_item m h' self (VStr k') = get_item m h self (VStr k')) /\
    (forall k' : string, dict_get d (VStr k') = None ->
       get_item m h self (VStr k') = Raise KeyError).
Proof.
  intros Hx Hkey Hm Hk.
  destruct (add_map_parents (fun o a => o = self /\ a = m) m key h self s x d _
              Hx Hkey Hm Hk) as (h' & Hadd & Hf & Hfld & _); [done|].
  destruct (frame_section _ _ _ _ _ _ _ Hf Hx Hfld) as (x' & Hx' & Hmaps & _ & Hm').
  exists h'. split; [done|].
  assert (Hkey' : is_Some (assoc m (maps x'))) by (rewrite Hmaps; eauto).
  split; [|split].
  - rewrite (get_item_dict _ _ _ _ _ _ Hx' Hkey' Hm'). by rewrite dict_get_set_eq.
  - intros k' Hne.
    rewrite (get_item_dict _ _ _ _ _ _ Hx' Hkey' Hm').
    rewrite (get_item_dict _ _ _ _ _ _ Hx (mk_is_Some _ _ Hkey) Hm).
    rewrite dict_get_set_other; [done | congruence].
  - intros k' Hnone.
    rewrite (get_item_dict _ _ _ _ _ _ Hx (mk_is_Some _ _ Hkey) Hm). by rewrite Hnone.
Qed.

(** X7: [add_X(s)] under a key that is taken overwrites without a word: the
    section does not grow, the key now leads to [s], the object that was filed
    there is no longer in the section, and its parent is left as it was, so it
    still names the owner that no longer holds it. *)
Theorem add_map_displaces (m key : string) (h : heap) (self s old : oid)
    (x : object) (d : dict) (k : value) :
  h !! self = Some x -> assoc m (maps x) = Some key ->
  fields x !! m = Some (FDict d) ->
  fld h s key = Some (FVal k) ->
  dict_get d k = Some old -> old <> s -> NoDup (dict_values d) ->
  exists h' d',
    add_map m h self s = Ok h' /\
    fld h' self m = Some (FDict d') /\
    dict_get d' k = Some s /\
    length d' = length d /\
    (old ∉ dict_values d') /\
    parent <$> h' !! old = parent <$> h !! old.
Proof.
  intros Hx Hkey Hm Hk Hold Hne Hnd.
  destruct (add_map_parents (fun o a => o = self /\ a = m) m key h self s x d k
              Hx Hkey Hm Hk) as (h' & Hadd & Hf & Hfld & _ & Hpar); [done|].
  exists h', (dict_set d k s). split; [done|]. split; [done|].
  split; [apply dict_get_set_eq|]. split; [by eapply dict_set_length|].
  split; [by apply dict_set_displaces|]. by apply Hpar.
Qed.

(** X8: [add_X(s)] under a str key that is free, then [remove_X(s)], gives
    the section back as it was, with [s] detached ([s.parent] is [None]); no
    other attribute and no other parent has changed. *)
Theorem add_remove_map (m key : string) (h : heap) (self s : oid) (x : object)
    (d : dict) (k : string) :
  h !! self = Some x -> assoc m (maps x) = Some key ->
  fields x !! m = Some (FDict d) ->
  fld h s key = Some (FVal (VStr k)) ->
  dict_get d (VStr k) = None ->
  exists h1 h2,
    add_map m h self s = Ok h1 /\
    remove_map m h1 self s = Ok h2 /\
    fld h2 self m = Some (FDict d) /\
    parent <$> h2 !! s = Some None /\
    frame (fun o a => o = self /\ a = m) h h2 /\
    (forall o, o <> s -> parent <$> h2 !! o = parent <$> h !! o).
Proof.
  intros Hx Hkey Hm Hk Hfree.
  set (P := fun (o : oid) (a : string) => o = self /\ a = m).
  destruct (add_map_parents P m key h self s x d _ Hx Hkey Hm Hk)
    as (h1 & Hadd & Hf1 & Hfld1 & _ & Hpar1); [done|].
  destruct (frame_section _ _ _ _ _ _ _ Hf1 Hx Hfld1) as (x1 & Hx1 & Hmaps & _ & Hm1).
  assert (Hk1 : fld h1 s key = Some (FVal (VStr k))).
  { destruct (decide (s = self /\ key = m)) as [[-> ->]|Hn].
    - unfold fld in Hk. rewrite Hx, Hm in Hk. done.
    - eapply frame_fld; [exact Hf1 | exact Hn | done]. }
  destruct (remove_map_parents P m key h1 self s x1 _ d _ Hx1
              ltac:(by rewrite Hmaps) Hm1 Hk1 (dict_del_set_fresh _ _ _ Hfree))
    as (h2 & Hrem & Hf2 & Hfld2 & Hps & Hpar2); [done|].
  exists h1, h2. split; [done|]. split; [done|]. split; [done|]. split; [done|].
  split; [eapply frame_trans; eauto|].
  intros o Hne. rewrite (Hpar2 o Hne). by apply Hpar1.
Qed.

(** X9: [remove_X(efp)] goes by the key of [efp], a str, not by [efp]
    itself: when no object is filed under that key it raises [KeyError]; when
    another object is filed there, that object is taken out of the section
    while its parent is left as it was, and it is [efp] that is detached. *)
Theorem remove_map_by_key (m key : string) (h : heap) (self efp : oid)
    (x : object) (d : dict) (k : string) :
  h !! self = Some x -> assoc m (maps x) = Some key ->
  fields x !! m = Some (FDict d) ->
  fld h efp key = Some (FVal (VStr k)) ->
  (dict_get d (VStr k) = None -> remove_map m h self efp = Raise KeyError) /\
  (forall other, dict_get d (VStr k) = Some other -> other <> efp ->
     exists h' d',
       remove_map m h self efp = Ok h' /\
       fld h' self m = Some (FDict d') /\ dict_del d (VStr k) = Some d' /\
       parent <$> h' !! efp = Some None /\
       parent <$> h' !! other = parent <$> h !! other).
Proof.
  intros Hx Hkey Hm Hk. split.
  - intros Hnone. unfold remove_map.
    rewrite (deref_Some _ _ _ Hx); cbn [bind]. rewrite Hkey.
    rewrite (getattr_Some _ _ _ Hm), (fld_get_field _ _ _ _ Hk); cbn [bind].
    by rewrite (dict_del_None _ _ Hnone).
  - intros other Hother Hne.
    destruct (dict_del d (VStr k)) as [d'|] eqn:Hdel.
    + destruct (remove_map_parents (fun o a => o = self /\ a = m) m key h self efp
                  x d d' _ Hx Hkey Hm Hk Hdel)
        as (h' & Hrem & _ & Hfld & Hpe & Hpar); [done|].
      exists h', d'. eauto 10.
    + exfalso. clear -Hother Hdel. revert Hother Hdel. generalize (VStr k) as kk.
      intros kk. induction d as [|[k' v'] d IH]; cbn in *; [done|].
      destruct (decide (k' = kk)); [done|].
      destruct (dict_del d kk); [done | auto].
Qed.

Lemma add_map_lookup_witness :
  exists h',
    add_map "parts" schematic 0%nat 5%nat = Ok h' /\
    get_item "parts" h' 0%nat (VStr "R1") = Ok 5%nat /\
    (forall k' : string, k' <> "R1" ->
       get_item "parts" h' 0%nat (VStr k') = get_item "parts" schematic 0%nat (VStr k')) /\
    (forall k' : string, dict_get [(VStr "R1", 5%nat)] (VStr k') = None ->
       get_item "parts" schematic 0%nat (VStr k') = Raise KeyError).
Proof.
  eapply (add_map_lookup "parts" "name" schematic 0%nat 5%nat _
            [(VStr "R1", 5%nat)] "R1"); reflexivity.
Defined.

Lemma add_map_displaces_witness :
  exists h' d',
    add_map "parts" same_name 0%nat 2%nat = Ok h' /\
    fld h' 0%nat "parts" = Some (FDict d') /\
    dict_get d' (VStr "R1") = Some 2%nat /\
    length d' = 1%nat /\
    (1%nat ∉ dict_values d') /\
    parent <$> h' !! 1%nat = Some (Some 0%nat).
Proof.
  eapply (add_map_displaces "parts" "name" same_name 0%nat 2%nat 1%nat _
            [(VStr "R1", 1%nat)] (VStr "R1"));
    try reflexivity; [lia|].
  apply NoDup_singleton.
Defined.

Lemma add_remove_map_witness :
  exists h1 h2,
    add_map "parts" other_name 0%nat 2%nat = Ok h1 /\
    remove_map "parts" h1 0%nat 2%nat = Ok h2 /\
    fld h2 0%nat "parts" = Some (FDict [(VStr "R1", 1%nat)]) /\
    parent <$> h2 !! 2%nat = Some None /\
    frame (fun o a => o = 0%nat /\ a = "parts") other_name h2 /\
    (forall o, o <> 2%nat -> parent <$> h2 !! o = parent <$> other_name !! o).
Proof.
  eapply (add_remove_map "parts" "name" other_name 0%nat 2%nat _
            [(VStr "R1", 1%nat)] "R2"); reflexivity.
Defined.

Lemma remove_map_by_key_witness :
  remove_map "attributes" other_name 1%nat 2%nat = Raise KeyError /\
  exists h' d',
    remove_map "parts" same_name 0%nat 2%nat = Ok h' /\
    fld h' 0%nat "parts" = Some (FDict d') /\
    dict_del [(VStr "R1", 1%nat)] (VStr "R1") = Some d' /\
    parent <$> h' !! 2%nat = Some None /\
    parent <$> h' !! 1%nat = parent <$> same_name !! 1%nat.
Proof.
  split.
  - apply (proj1 (remove_map_by_key "attributes" "name" other_name 1%nat 2%nat _
                     [] "R2" eq_refl eq_refl eq_refl eq_refl)).
    reflexivity.
  - apply (proj2 (remove_map_by_key "parts" "name" same_name 0%nat 2%nat _
                     [(VStr "R1", 1%nat)] "R1"
                     eq_refl eq_refl eq_refl eq_refl) 1%nat); [reflexivity | lia].
Defined.

Lemma detach_all_parents (P : oid -> string -> Prop) (xs : list oid) (h : heap) :
  (forall c, c ∈ xs -> is_Some (h !! c)) ->
  exists h', for_each (fun h' efp => set_parent h' efp None) xs h = Ok h' /\
             frame P h h' /\ (forall o a, fld h' o a = fld h o a) /\
             (forall c, c ∈ xs -> parent <$> h' !! c = Some None) /\
             (forall o, o ∉ xs -> parent <$> h' !! o = parent <$> h !! o).
Proof.
  revert h. induction xs as [|c xs IH]; intros h Hall; cbn [for_each].
  - exists h. split; [done|]. split; [apply frame_refl|]. split; [done|].
    split; [|done]. intros c Hc. by apply elem_of_nil in Hc.
  - destruct (set_parent_spec P h c None) as (h1 & -> & Hf1 & Hfld1 & Hpc & Hpo);
      [apply Hall; by left|]. cbn [bind].
    destruct (IH h1) as (h2 & -> & Hf2 & Hfld2 & Hin & Hout).
    { intros c' Hc'. eapply frame_alloc_Some; [done|]. apply Hall. by right. }
    exists h2. split; [done|]. split; [eapply frame_trans; eauto|].
    split; [intros o a; by rewrite Hfld2, Hfld1|]. split.
    + intros c' Hc'. destruct (decide (c' ∈ xs)) as [Hxs|Hxs]; [by apply Hin|].
      rewrite (Hout _ Hxs). apply elem_of_cons in Hc' as [->|Hc']; done.
    + intros o Ho. apply not_elem_of_cons in Ho as [Hne Ho].
      rewrite (Hout _ Ho). by apply Hpo.
Qed.

Lemma set_field_parents (P : oid -> string -> Prop) (h : heap) (o : oid)
    (a : string) (f : field) :
  is_Some (h !! o) -> P o a ->
  exists h', set_field h o a f = Ok h' /\ frame P h h' /\ fld h' o a = Some f /\
             forall o', parent <$> h' !! o' = parent <$> h !! o'.
Proof.
  intros [x Hx] HP. unfold set_field. rewrite (deref_Some _ _ _ Hx). cbn [bind].
  eexists. split; [reflexivity|]. split; [by apply frame_setattr|]. split.
  - apply fld_setattr_eq. eapply lookup_lt_Some; eauto.
  - intros o'. by apply parent_setattr.
Qed.

(** X10: [clear_X] of a list or map section leaves the section empty and
    every object it held detached (parent [None]); the parent of every other
    object, and every attribute but the section itself, is as before. *)
Theorem clear_detaches (a : string) (h : heap) (o : oid) (f0 : field) :
  clearable h o a -> fld h o a = Some f0 ->
  exists h' f,
    clear a h o = Ok h' /\
    fld h' o a = Some f /\ py_len f = Ok 0%nat /\
    (forall c, holds f0 c -> parent <$> h' !! c = Some None) /\
    (forall c, ~ holds f0 c -> parent <$> h' !! c = parent <$> h !! c) /\
    frame (fun o' a' => o' = o /\ a' = a) h h'.
Proof.
  intros (x & Hx & Hcase) Hf0. unfold clear.
  set (P := fun (o' : oid) (a' : string) => o' = o /\ a' = a).
  rewrite (deref_Some _ _ _ Hx); cbn [bind].
  unfold fld in Hf0. rewrite Hx in Hf0.
  destruct Hcase as [(Hin & cs & Hcs & Hall)|(Hnin & [key Hmap] & d & Hd & Hall)].
  - rewrite bool_decide_eq_true_2 by done. unfold clear_list.
    rewrite (deref_Some _ _ _ Hx); cbn [bind].
    rewrite (getattr_Some _ _ _ Hcs); cbn [bind].
    assert (f0 = FList cs) as -> by congruence.
    destruct (detach_all_parents P cs h Hall) as (h1 & -> & Hf1 & _ & Hpin & Hpout).
    cbn [bind].
    destruct (set_field_parents P h1 o a (FList [])) as (h2 & -> & Hf2 & Hfld & Hp2);
      [eapply frame_alloc_Some; eauto | done |].
    exists h2, (FList []). split; [done|]. split; [done|]. split; [done|].
    split; [|split].
    + intros c Hc. rewrite Hp2. by apply Hpin.
    + intros c Hc. rewrite Hp2. by apply Hpout.
    + eapply frame_trans; eauto.
  - rewrite bool_decide_eq_false_2 by done. rewrite Hmap. unfold clear_map.
    rewrite (deref_Some _ _ _ Hx); cbn [bind].
    rewrite (getattr_Some _ _ _ Hd); cbn [bind].
    assert (f0 = FDict d) as -> by congruence.
    destruct (detach_all_parents P (dict_values d) h Hall)
      as (h1 & -> & Hf1 & _ & Hpin & Hpout).
    cbn [bind].
    destruct (set_field_parents P h1 o a (FDict [])) as (h2 & -> & Hf2 & Hfld & Hp2);
      [eapply frame_alloc_Some; eauto | done |].
    exists h2, (FDict []). split; [done|]. split; [done|]. split; [done|].
    split; [|split].
    + intros c Hc. rewrite Hp2. by apply Hpin.
    + intros c Hc. rewrite Hp2. by apply Hpout.
    + eapply frame_trans; eauto.
Qed.

Lemma clear_detaches_witness :
  exists h' f,
    clear "connects" connected 0%nat = Ok h' /\
    fld h' 0%nat "connects" = Some f /\ py_len f = Ok 0%nat /\
    (forall c, holds (FList [1%nat; 2%nat]) c -> parent <$> h' !! c = Some None) /\
    (forall c, ~ holds (FList [1%nat; 2%nat]) c ->
       parent <$> h' !! c = parent <$> connected !! c) /\
    frame (fun o' a' => o' = 0%nat /\ a' = "connects") connected h'.
Proof.
  apply (clear_detaches "connects" connected 0%nat (FList [1%nat; 2%nat]));
    [|reflexivity].
  eexists. split; [reflexivity|]. left. split.
  - cbn. apply list_elem_of_here.
  - exists [1%nat; 2%nat]. split; [reflexivity|].
    intros c Hc. apply elem_of_cons in Hc as [->|Hc]; [by eexists|].
    apply elem_of_cons in Hc as [->|Hc]; [by eexists|].
    by apply elem_of_nil in Hc.
Defined.

Lemma get_nth_list (l : string) (h : heap) (self : oid) (x : object)
    (xs : list oid) (n : value) :
  h !! self = Some x -> l ∈ lists x -> fields x !! l = Some (FList xs) ->
  get_nth l h self n = getitem (FList xs) (FVal n).
Proof.
  intros Hx Hl Hxs. unfold get_nth.
  rewrite (deref_Some _ _ _ Hx); cbn [bind].
  rewrite bool_decide_eq_true_2 by done.
  by rewrite (getattr_Some _ _ _ Hxs).
Qed.

Lemma getitem_index (xs : list oid) (i : nat) (s : oid) :
  xs !! i = Some s -> getitem (FList xs) (FVal (VInt (Z.of_nat i))) = Ok s.
Proof.
  intros Hi. assert (i < length xs)%nat by (eapply lookup_lt_Some; eauto).
  cbn. replace (Z.of_nat i <? 0) with false by (symmetry; apply Z.ltb_ge; lia).
  replace (0 <=? Z.of_nat i) with true by (symmetry; apply Z.leb_le; lia).
  replace (Z.of_nat i <? Z.of_nat (length xs)) with true
    by (symmetry; apply Z.ltb_lt; lia).
  cbn. by rewrite Nat2Z.id, Hi.
Qed.

(** X11: [add_X(s)] on a list section appends: afterwards [s] is the last
    item ([get_nth_X(len)] and [get_nth_X(-1)] both return it, also when [s]
    was in the list already, which then holds it twice), the items before it
    are as they were, the index one past the end raises [IndexError], and the
    parent of [s] is the owner. *)
Theorem add_list_get_nth (l : string) (h : heap) (self s : oid) (x : object)
    (xs : list oid) :
  h !! self = Some x -> l ∈ lists x -> fields x !! l = Some (FList xs) ->
  is_Some (h !! s) ->
  exists h',
    add_list l h self s = Ok h' /\
    fld h' self l = Some (FList (xs ++ [s])) /\
    get_nth l h' self (VInt (Z.of_nat (length xs))) = Ok s /\
    get_nth l h' self (VInt (-1)) = Ok s /\
    (forall i c, xs !! i = Some c ->
       get_nth l h' self (VInt (Z.of_nat i)) = Ok c /\
       get_nth l h self (VInt (Z.of_nat i)) = Ok c) /\
    get_nth l h' self (VInt (Z.of_nat (length xs) + 1)) = Raise IndexError /\
    parent <$> h' !! s = Some (Some self).
Proof.
  intros Hx Hl Hxs Hs. unfold add_list.
  rewrite (deref_Some _ _ _ Hx); cbn [bind].
  rewrite bool_decide_eq_true_2 by done.
  rewrite (getattr_Some _ _ _ Hxs); cbn [bind].
  set (P := fun (o : oid) (a : string) => o = self /\ a = l).
  destruct (set_parent_spec P (<[self := setattr x l (FList (xs ++ [s]))]> h)
              s (Some self)) as (h' & Hsp & Hf & Hfld & Hps & _).
  { apply lookup_lt_is_Some. rewrite length_insert.
    destruct Hs as [y Hy]. eapply lookup_lt_Some; eauto. }
  assert (Hsec : fld h' self l = Some (FList (xs ++ [s]))).
  { rewrite Hfld. apply fld_setattr_eq. eapply lookup_lt_Some; eauto. }
  assert (Hfr : frame P h h').
  { eapply frame_trans; [|done]. by apply frame_setattr. }
  destruct (frame_section _ _ _ _ _ _ _ Hfr Hx Hsec) as (x' & Hx' & _ & Hlists & Hl').
  assert (Hnth : forall n, get_nth l h' self n = getitem (FList (xs ++ [s])) (FVal n)).
  { intros n. apply (get_nth_list l h' self x'); [done | by rewrite Hlists | done]. }
  exists h'. split; [done|]. split; [done|]. split; [|split; [|split; [|split]]].
  - rewrite Hnth. apply getitem_index. apply list_lookup_middle. done.
  - rewrite Hnth. cbn. rewrite length_app. cbn [length].
    replace (Z.of_nat (length xs + 1) + -1) with (Z.of_nat (length xs)) by lia.
    replace (0 <=? Z.of_nat (length xs)) with true by (symmetry; apply Z.leb_le; lia).
    replace (Z.of_nat (length xs) <? Z.of_nat (length xs + 1)) with true
      by (symmetry; apply Z.ltb_lt; lia).
    cbn. rewrite Nat2Z.id. by rewrite list_lookup_middle.
  - intros i c Hi. split.
    + rewrite Hnth. apply getitem_index. apply lookup_app_l_Some. done.
    + rewrite (get_nth_list l h self x xs) by done. by apply getitem_index.
  - rewrite Hnth. cbn. rewrite length_app. cbn [length].
    replace (Z.of_nat (length xs) + 1 <? 0) with false
      by (symmetry; apply Z.ltb_ge; lia).
    replace (Z.of_nat (length xs) + 1 <? Z.of_nat (length xs + 1)) with false
      by (symmetry; apply Z.ltb_ge; lia).
    by rewrite andb_false_r.
  - done.
Qed.

Lemma add_list_get_nth_witness :
  exists h',
    add_list "connects" connected 0%nat 3%nat = Ok h' /\
    fld h' 0%nat "connects" = Some (FList ([1%nat; 2%nat] ++ [3%nat])) /\
    get_nth "connects" h' 0%nat (VInt (Z.of_nat (length [1%nat; 2%nat]))) = Ok 3%nat /\
    get_nth "connects" h' 0%nat (VInt (-1)) = Ok 3%nat /\
    (forall i c, [1%nat; 2%nat] !! i = Some c ->
       get_nth "connects" h' 0%nat (VInt (Z.of_nat i)) = Ok c /\
       get_nth "connects" connected 0%nat (VInt (Z.of_nat i)) = Ok c) /\
    get_nth "connects" h' 0%nat (VInt (Z.of_nat (length [1%nat; 2%nat]) + 1))
    = Raise IndexError /\
    parent <$> h' !! 3%nat = Some (Some 0%nat).
Proof.
  eapply (add_list_get_nth "connects" connected 0%nat 3%nat _ [1%nat; 2%nat]).
  - reflexivity.
  - cbn. apply list_elem_of_here.
  - reflexivity.
  - by eexists.
Defined.

(** * The layer table: adding, looking up and removing *)

Section LayerTable.
Context `{PyBuiltins}.

Lemma fld_lookup (h : heap) (o : oid) (x : object) (a : string) :
  h !! o = Some x -> fld h o a = fields x !! a.
Proof. intros Hx. unfold fld. by rewrite Hx. Qed.

Lemma add_layer_spec (h : heap) (self layer : oid) (l : object)
    (d dn : dict) (v k : value) (n : Z) :
  h !! layer = Some l -> isinstance l "Layer" = true ->
  fld h self "layers" = Some (FDict d) ->
  fld h self "layersByName" = Some (FDict dn) ->
  fields l !! "number" = Some (FVal v) -> py_int v = Ok n ->
  fields l !! "name" = Some (FVal k) ->
  exists h',
    add_layer h self layer = Ok h' /\
    fld h' self "layers" = Some (FDict (dict_set d (VInt n) layer)) /\
    fld h' self "layersByName" = Some (FDict (dict_set dn k layer)) /\
    frame (indexes self) h h' /\
    parent <$> h' !! layer = Some (Some self) /\
    (forall o, o <> layer -> parent <$> h' !! o = parent <$> h !! o).
Proof.
  intros Hl Hcls Hd Hdn Hnum Hint Hname.
  apply fld_Some_alloc in Hd as (x & Hx & Hd).
  rewrite (fld_lookup _ _ _ _ Hx) in Hdn.
  assert (Hlen : (self < length h)%nat) by (eapply lookup_lt_Some; eauto).
  unfold add_layer.
  rewrite (deref_Some _ _ _ Hl); cbn [bind]. rewrite Hcls.
  rewrite (deref_Some _ _ _ Hx); cbn [bind].
  rewrite (getattr_Some _ _ _ Hd), (getattr_Some _ _ _ Hnum); cbn [bind].
  rewrite Hint; cbn [bind setitem].
  set (x1 := setattr x "layers" (FDict (dict_set d (VInt n) layer))).
  set (h1 := <[self := x1]> h).
  assert (Hf1 : frame (indexes self) h h1).
  { unfold h1, x1. apply frame_setattr; [done|]. split; auto. }
  assert (Hx1 : h1 !! self = Some x1) by (by apply list_lookup_insert_eq).
  rewrite (deref_Some _ _ _ Hx1); cbn [bind].
  assert (Hdn1 : getattr x1 "layersByName" = Ok (FDict dn)).
  { unfold x1. rewrite getattr_setattr_ne by done. by apply getattr_Some. }
  rewrite Hdn1; cbn [bind].
  assert (Hname1 : fld h1 layer "name" = Some (FVal k)).
  { eapply frame_fld; [exact Hf1 | | by rewrite (fld_lookup _ _ _ _ Hl)].
    intros [_ [[=]|[=]]]. }
  rewrite (fld_get_field _ _ _ _ Hname1); cbn [bind setitem].
  set (x2 := setattr x1 "layersByName" (FDict (dict_set dn k layer))).
  set (h2 := <[self := x2]> h1).
  assert (Hf2 : frame (indexes self) h1 h2).
  { unfold h2, x2. apply frame_setattr; [done|]. split; auto. }
  destruct (set_parent_spec (indexes self) h2 layer (Some self))
    as (h' & Hsp & Hf3 & Hfld & Hpl & Hpo).
  { eapply frame_alloc_Some; [exact Hf2|]. eapply frame_alloc_Some; [exact Hf1|].
    by eexists. }
  exists h'. split; [done|].
  assert (Hlen1 : (self < length h1)%nat) by (unfold h1; by rewrite length_insert).
  split; [|split; [|split; [|split]]].
  - rewrite Hfld. unfold h2. rewrite (fld_lookup _ _ x2)
      by (by apply list_lookup_insert_eq).
    unfold x2, x1. cbn. rewrite lookup_insert_ne by done. apply lookup_insert_eq.
  - rewrite Hfld. unfold h2. by apply fld_setattr_eq.
  - eapply frame_trans; [exact Hf1|]. eapply frame_trans; [exact Hf2 | exact Hf3].
  - done.
  - intros o Hne. rewrite (Hpo o Hne). unfold h2, x2.
    rewrite (parent_setattr h1 self o x1) by done.
    unfold h1, x1. by apply parent_setattr.
Qed.

Lemma remove_Layer_spec (h : heap) (self layer filed : oid)
    (d dn d' dn' : dict) (v k : value) (n : Z) :
  fld h self "layers" = Some (FDict d) ->
  fld h self "layersByName" = Some (FDict dn) ->
  fld h layer "name" = Some (FVal k) ->
  fld h layer "number" = Some (FVal v) -> py_int v = Ok n ->
  dict_get dn k = Some filed -> is_Some (h !! filed) ->
  dict_del dn k = Some dn' -> dict_del d (VInt n) = Some d' ->
  exists h',
    remove_Layer h self layer = Ok h' /\
    fld h' self "layers" = Some (FDict d') /\
    fld h' self "layersByName" = Some (FDict dn') /\
    frame (indexes self) h h' /\
    parent <$> h' !! filed = Some None /\
    (forall o, o <> filed -> parent <$> h' !! o = parent <$> h !! o).
Proof.
  intros Hd Hdn Hname Hnum Hint Hfiled Hf Hdeln Hdel.
  apply fld_Some_alloc in Hd as (x & Hx & Hd).
  pose proof Hdn as Hdnx. rewrite (fld_lookup _ _ _ _ Hx) in Hdnx.
  unfold remove_Layer.
  rewrite (deref_Some _ _ _ Hx); cbn [bind].
  rewrite (getattr_Some _ _ _ Hdnx); cbn [bind].
  rewrite (fld_get_field _ _ _ _ Hname); cbn [bind getitem].
  rewrite Hfiled; cbn [bind].
  destruct (set_parent_spec (indexes self) h filed None Hf)
    as (h1 & -> & Hf1 & Hfld1 & Hpf & Hpo). cbn [bind].
  assert (Hdn1 : fld h1 self "layersByName" = Some (FDict dn)) by (by rewrite Hfld1).
  apply fld_Some_alloc in Hdn1 as (x1 & Hx1 & Hdn1).
  assert (Hd1 : fields x1 !! "layers" = Some (FDict d)).
  { rewrite <- (fld_lookup h1 self x1) by done. rewrite Hfld1.
    by rewrite (fld_lookup _ _ _ _ Hx). }
  rewrite (deref_Some _ _ _ Hx1); cbn [bind].
  rewrite (getattr_Some _ _ _ Hdn1); cbn [bind].
  assert (Hname1 : fld h1 layer "name" = Some (FVal k)) by (by rewrite Hfld1).
  rewrite (fld_get_field _ _ _ _ Hname1); cbn [bind delitem].
  rewrite Hdeln; cbn [bind].
  set (x2 := setattr x1 "layersByName" (FDict dn')).
  set (h2 := <[self := x2]> h1).
  assert (Hlen1 : (self < length h1)%nat) by (eapply lookup_lt_Some; eauto).
  assert (Hf2 : frame (indexes self) h1 h2).
  { unfold h2, x2. apply frame_setattr; [done|]. split; auto. }
  assert (Hx2 : h2 !! self = Some x2) by (by apply list_lookup_insert_eq).
  rewrite (deref_Some _ _ _ Hx2); cbn [bind].
  assert (Hd2 : getattr x2 "layers" = Ok (FDict d)).
  { unfold x2. rewrite getattr_setattr_ne by done. by apply getattr_Some. }
  rewrite Hd2; cbn [bind].
  assert (Hnum2 : fld h2 layer "number" = Some (FVal v)).
  { eapply frame_fld; [exact Hf2 | | by rewrite Hfld1]. intros [_ [[=]|[=]]]. }
  rewrite (fld_get_field _ _ _ _ Hnum2); cbn [bind].
  rewrite Hint; cbn [bind delitem]. rewrite Hdel; cbn [bind].
  eexists. split; [reflexivity|].
  assert (Hlen2 : (self < length h2)%nat) by (unfold h2; by rewrite length_insert).
  split; [|split; [|split; [|split]]].
  - by apply fld_setattr_eq.
  - rewrite (fld_lookup _ _ (setattr x2 "layers" (FDict d')))
      by (by apply list_lookup_insert_eq).
    unfold x2. cbn. rewrite lookup_insert_ne by done. apply lookup_insert_eq.
  - eapply frame_trans; [exact Hf1|]. eapply frame_trans; [exact Hf2|].
    apply frame_setattr; [done|]. split; auto.
  - rewrite (parent_setattr h2 self filed x2) by done.
    unfold h2, x2. by rewrite (parent_setattr h1 self filed x1).
  - intros o Hne. rewrite (parent_setattr h2 self o x2) by done.
    unfold h2, x2. rewrite (parent_setattr h1 self o x1) by done. by apply Hpo.
Qed.

Lemma layer_number_to_name_found (h : heap) (self l : oid) (d : dict)
    (num : value) (n : Z) :
  fld h self "layers" = Some (FDict d) -> py_int num = Ok n ->
  dict_get d (VInt n) = Some l ->
  layer_number_to_name h self num = get_field h l "name".
Proof.
  intros Hd Hint Hl. apply fld_Some_alloc in Hd as (x & Hx & Hd).
  unfold layer_number_to_name.
  rewrite (deref_Some _ _ _ Hx); cbn [bind]. rewrite Hint; cbn [bind].
  rewrite (getattr_Some _ _ _ Hd); cbn [bind py_in].
  rewrite bool_decide_eq_true_2 by (by rewrite Hl). cbn. by rewrite Hl.
Qed.

Lemma layer_name_to_number_found (h : heap) (self l : oid) (dn : dict)
    (name : string) :
  fld h self "layersByName" = Some (FDict dn) ->
  dict_get dn (VStr name) = Some l ->
  layer_name_to_number h self (FVal (VStr name)) = get_field h l "number".
Proof.
  intros Hdn Hl. apply fld_Some_alloc in Hdn as (x & Hx & Hdn).
  unfold layer_name_to_number.
  rewrite (deref_Some _ _ _ Hx); cbn [bind].
  rewrite (getattr_Some _ _ _ Hdn); cbn [bind py_in].
  rewrite bool_decide_eq_true_2 by (by rewrite Hl). cbn. by rewrite Hl.
Qed.

Lemma layer_number_to_name_Ok (h : heap) (self : oid) (d : dict) (num : value)
    (n : Z) (r : field) :
  fld h self "layers" = Some (FDict d) -> py_int num = Ok n ->
  layer_number_to_name h self num = Ok r ->
  exists l, dict_get d (VInt n) = Some l /\ fld h l "name" = Some r.
Proof.
  intros Hd Hint Hr. destruct (dict_get d (VInt n)) as [l|] eqn:Hl.
  - rewrite (layer_number_to_name_found _ _ _ _ _ _ Hd Hint Hl) in Hr.
    exists l. split; [done|]. unfold get_field in Hr. bind_inv Hr.
    apply deref_Ok in E. rewrite (fld_lookup _ _ _ _ E).
    unfold getattr in Hr. by destruct (fields a !! "name"); inversion Hr.
  - exfalso. apply fld_Some_alloc in Hd as (x & Hx & Hd).
    unfold layer_number_to_name in Hr.
    rewrite (deref_Some _ _ _ Hx) in Hr; cbn [bind] in Hr.
    rewrite Hint in Hr; cbn [bind] in Hr.
    rewrite (getattr_Some _ _ _ Hd) in Hr; cbn [bind py_in] in Hr.
    rewrite bool_decide_eq_false_2 in Hr by (rewrite Hl; by intros [? ?]).
    cbn in Hr. by destruct (getattr x "filename").
Qed.

(** X12: after [add_layer(layer)] the two lookups find the new layer:
    [layer_number_to_name] of its number answers its name and
    [layer_name_to_number] of its name answers its number, as the attribute
    holds it; and every other number that resolved before still resolves to
    the same name. *)
Theorem add_layer_lookup (h : heap) (self layer : oid) (l : object)
    (d dn : dict) (v : value) (name : string) (n : Z) :
  h !! layer = Some l -> isinstance l "Layer" = true ->
  fld h self "layers" = Some (FDict d) ->
  fld h self "layersByName" = Some (FDict dn) ->
  fields l !! "number" = Some (FVal v) -> py_int v = Ok n ->
  fields l !! "name" = Some (FVal (VStr name)) ->
  exists h',
    add_layer h self layer = Ok h' /\
    layer_number_to_name h' self v = Ok (FVal (VStr name)) /\
    layer_name_to_number h' self (FVal (VStr name)) = Ok (FVal v) /\
    (forall num' n' r, py_int num' = Ok n' -> n' <> n ->
       layer_number_to_name h self num' = Ok r ->
       layer_number_to_name h' self num' = Ok r).
Proof.
  intros Hl Hcls Hd Hdn Hnum Hint Hname.
  destruct (add_layer_spec h self layer l d dn v (VStr name) n)
    as (h' & Hadd & Hd' & Hdn' & Hf & _); try done.
  exists h'. split; [done|].
  assert (Hname' : fld h' layer "name" = Some (FVal (VStr name))).
  { eapply frame_fld; [exact Hf | | by rewrite (fld_lookup _ _ _ _ Hl)].
    intros [_ [[=]|[=]]]. }
  assert (Hnum' : fld h' layer "number" = Some (FVal v)).
  { eapply frame_fld; [exact Hf | | by rewrite (fld_lookup _ _ _ _ Hl)].
    intros [_ [[=]|[=]]]. }
  split; [|split].
  - rewrite (layer_number_to_name_found _ _ layer _ _ _ Hd' Hint)
      by apply dict_get_set_eq.
    by apply fld_get_field.
  - rewrite (layer_name_to_number_found _ _ layer _ _ Hdn')
      by apply dict_get_set_eq.
    by apply fld_get_field.
  - intros num' n' r Hint' Hne Hr.
    destruct (layer_number_to_name_Ok _ _ _ _ _ _ Hd Hint' Hr) as (l' & Hl' & Hr').
    rewrite (layer_number_to_name_found _ _ l' _ _ _ Hd' Hint').
    + apply fld_get_field. eapply frame_fld; [exact Hf | | done].
      intros [_ [[=]|[=]]].
    + rewrite dict_get_set_other; [done | congruence].
Qed.

(** X13: [add_layer(layer)] under a number and a name that are both free,
    then [remove_layer], gives both indexes back as they were and leaves
    the layer detached; [remove_layer] of the layer itself, of its name and
    (for a number that is an int on every platform) of its number do the same. *)
Theorem add_remove_layer (h : heap) (self layer : oid) (l : object)
    (d dn : dict) (v : value) (name : string) (n : Z) :
  h !! layer = Some l -> isinstance l "Layer" = true ->
  fld h self "layers" = Some (FDict d) ->
  fld h self "layersByName" = Some (FDict dn) ->
  fields l !! "number" = Some (FVal v) -> py_int v = Ok n ->
  fields l !! "name" = Some (FVal (VStr name)) ->
  dict_get d (VInt n) = None -> dict_get dn (VStr name) = None ->
  exists h1 h2,
    add_layer h self layer = Ok h1 /\
    remove_layer h1 self (AObj layer) = Ok h2 /\
    remove_layer h1 self (AVal (VStr name)) = Ok h2 /\
    (- 2 ^ 31 <= n < 2 ^ 31 -> remove_layer h1 self (AVal (VInt n)) = Ok h2) /\
    fld h2 self "layers" = Some (FDict d) /\
    fld h2 self "layersByName" = Some (FDict dn) /\
    parent <$> h2 !! layer = Some None /\
    (forall o, o <> layer -> parent <$> h2 !! o = parent <$> h !! o).
Proof.
  intros Hl Hcls Hd Hdn Hnum Hint Hname Hfree Hfreen.
  destruct (add_layer_spec h self layer l d dn v (VStr name) n)
    as (h1 & Hadd & Hd1 & Hdn1 & Hf & _ & Hpar1); try done.
  assert (Hname1 : fld h1 layer "name" = Some (FVal (VStr name))).
  { eapply frame_fld; [exact Hf | | by rewrite (fld_lookup _ _ _ _ Hl)].
    intros [_ [[=]|[=]]]. }
  assert (Hnum1 : fld h1 layer "number" = Some (FVal v)).
  { eapply frame_fld; [exact Hf | | by rewrite (fld_lookup _ _ _ _ Hl)].
    intros [_ [[=]|[=]]]. }
  destruct (Hf _ _ Hl) as (l1 & Hl1 & Hmro & _).
  assert (Hcls1 : isinstance l1 "Layer" = true)
    by (unfold isinstance in *; by rewrite Hmro).
  destruct (remove_Layer_spec h1 self layer layer _ _ d dn v (VStr name) n
              Hd1 Hdn1 Hname1 Hnum1 Hint)
    as (h2 & Hrem & Hd2 & Hdn2 & Hf2 & Hpl & Hpar2).
  { apply dict_get_set_eq. }
  { by eexists. }
  { by apply dict_del_set_fresh. }
  { by apply dict_del_set_fresh. }
  assert (Hobj : remove_layer_obj h1 self layer = Ok h2).
  { unfold remove_layer_obj. rewrite (deref_Some _ _ _ Hl1); cbn [bind].
    by rewrite Hcls1. }
  exists h1, h2. split; [done|]. split; [done|].
  split; [|split; [|split; [|split; [|split]]]]; try done.
  - cbn [remove_layer]. rewrite (fld_get_field _ _ _ _ Hdn1); cbn [bind getitem].
    rewrite dict_get_set_eq. done.
  - intros _. cbn [remove_layer].
    rewrite (fld_get_field _ _ _ _ Hd1); cbn [bind getitem].
    rewrite dict_get_set_eq. done.
  - intros o Hne. rewrite (Hpar2 o Hne). by apply Hpar1.
Qed.

(** X14: what [remove_layer] refuses: a name or a number (an int on every
    platform) that is not filed raises [KeyError] (the lookups raise [HighEagleError] for the same
    name or number); [None], a bool and a float raise [HighEagleError]
    "Invalid layer spec: <str of it>", and so does an object that is not a
    [Layer]. *)
Theorem remove_layer_refusals (h : heap) (self : oid) (d dn : dict) :
  fld h self "layers" = Some (FDict d) ->
  fld h self "layersByName" = Some (FDict dn) ->
  (forall name, dict_get dn (VStr name) = None ->
     remove_layer h self (AVal (VStr name)) = Raise KeyError) /\
  (forall n, - 2 ^ 31 <= n < 2 ^ 31 -> dict_get d (VInt n) = None ->
     remove_layer h self (AVal (VInt n)) = Raise KeyError) /\
  (forall v, (forall s, v <> VStr s) -> (forall n, v <> VInt n) ->
     remove_layer h self (AVal v)
     = Raise (HighEagleError ("Invalid layer spec: " +:+ py_str v))) /\
  (forall o x, h !! o = Some x ->
     isinstance x "Layer" = false -> isinstance x "Attribute" = false ->
     remove_layer h self (AObj o)
     = Raise (HighEagleError ("Invalid layer spec: " +:+ default_str o x))).
Proof.
  intros Hd Hdn. split; [|split; [|split]].
  - intros name Hnone. cbn [remove_layer].
    rewrite (fld_get_field _ _ _ _ Hdn); cbn [bind getitem]. by rewrite Hnone.
  - intros n _ Hnone. cbn [remove_layer].
    rewrite (fld_get_field _ _ _ _ Hd); cbn [bind getitem]. by rewrite Hnone.
  - intros v Hs Hn. destruct v as [|b|n|f|s]; try reflexivity.
    + by destruct (Hn n).
    + by destruct (Hs s).
  - intros o x Hx Hlayer Hattr. cbn [remove_layer]. unfold remove_layer_obj.
    rewrite (deref_Some _ _ _ Hx); cbn [bind]. rewrite Hlayer.
    unfold raise_HighEagleError, object_str.
    rewrite (deref_Some _ _ _ Hx); cbn [bind]. by rewrite Hattr.
Qed.

End LayerTable.

Lemma add_layer_lookup_witness :
  exists h',
    @add_layer demo_builtins two_layers 0%nat 2%nat = Ok h' /\
    @layer_number_to_name demo_builtins h' 0%nat (VInt 1) = Ok (FVal (VStr "Bottom")) /\
    @layer_name_to_number demo_builtins h' 0%nat (FVal (VStr "Bottom"))
    = Ok (FVal (VInt 1)) /\
    (forall num' n' r, @py_int demo_builtins num' = Ok n' -> n' <> 1 ->
       @layer_number_to_name demo_builtins two_layers 0%nat num' = Ok r ->
       @layer_number_to_name demo_builtins h' 0%nat num' = Ok r).
Proof.
  eapply (@add_layer_lookup demo_builtins two_layers 0%nat 2%nat _
            [(VInt 1, 1%nat)] [(VStr "Top", 1%nat)] (VInt 1) "Bottom" 1);
    reflexivity.
Defined.

Lemma add_remove_layer_witness :
  exists h1 h2,
    @add_layer demo_builtins fresh_layer 0%nat 2%nat = Ok h1 /\
    @remove_layer demo_builtins h1 0%nat (AObj 2%nat) = Ok h2 /\
    @remove_layer demo_builtins h1 0%nat (AVal (VStr "Bottom")) = Ok h2 /\
    (- 2 ^ 31 <= 16 < 2 ^ 31 ->
     @remove_layer demo_builtins h1 0%nat (AVal (VInt 16)) = Ok h2) /\
    fld h2 0%nat "layers" = Some (FDict [(VInt 1, 1%nat)]) /\
    fld h2 0%nat "layersByName" = Some (FDict [(VStr "Top", 1%nat)]) /\
    parent <$> h2 !! 2%nat = Some None /\
    (forall o, o <> 2%nat -> parent <$> h2 !! o = parent <$> fresh_layer !! o).
Proof.
  eapply (@add_remove_layer demo_builtins fresh_layer 0%nat 2%nat _
            [(VInt 1, 1%nat)] [(VStr "Top", 1%nat)] (VInt 16) "Bottom" 16);
    reflexivity.
Defined.

Lemma remove_layer_refusals_witness :
  @remove_layer demo_builtins fresh_layer 0%nat (AVal (VStr "Bottom")) = Raise KeyError /\
  @remove_layer demo_builtins fresh_layer 0%nat (AVal (VInt 16)) = Raise KeyError /\
  @remove_layer demo_builtins fresh_layer 0%nat (AVal VNone)
  = Raise (HighEagleError "Invalid layer spec: None") /\
  @remove_layer demo_builtins fresh_layer 0%nat (AObj 3%nat)
  = Raise (HighEagleError "Invalid layer spec: <Wire object at 3>").
Proof.
  destruct (@remove_layer_refusals demo_builtins fresh_layer 0%nat
              [(VInt 1, 1%nat)] [(VStr "Top", 1%nat)] eq_refl eq_refl)
    as (Hname & Hnum & Hval & Hobj).
  split; [|split; [|split]].
  - apply Hname. reflexivity.
  - apply Hnum; [lia | reflexivity].
  - apply (Hval VNone); done.
  - apply (Hobj 3%nat (leaf "Wire" None [("layer", FVal (VStr "Top"))]));
      reflexivity.
Defined.

(** * Load and save: what reaches the file system *)

Section FileFacts.
Context `{PyBuiltins} `{External}.

Lemma validate_Ok (h : heap) (self : oid) (w w1 : world) (v : bool) :
  validate h self w = (w1, Ok v) ->
  exists et, get_et h self = Ok et /\
             v = DTD_validate et && negb (None_attribute et) /\
             files w1 = files w /\ writable w1 = writable w.
Proof.
  unfold validate. destruct (get_et h self) as [et|e]; [|discriminate].
  fold (None_attribute et).
  intros Hv. exists et. split; [done|].
  destruct (DTD_validate et); cbn [negb] in Hv.
  - destruct (let* filename := get_field h self "filename" in _) as [m|e];
      [|discriminate].
    destruct (None_attribute et).
    + destruct (get_field h self "filename"); [|discriminate].
      injection Hv as <- <-. done.
    + injection Hv as <- <-. done.
  - destruct (let* filename := get_field h self "filename" in _) as [m|e];
      [|discriminate].
    destruct (None_attribute et).
    + destruct (get_field h self "filename"); [|discriminate].
      injection Hv as <- <-. done.
    + injection Hv as <- <-. done.
Qed.

Lemma validate_files (h : heap) (self : oid) (w : world) :
  files (validate h self w).1 = files w /\
  writable (validate h self w).1 = writable w.
Proof.
  unfold validate. destruct (get_et h self) as [et|e]; [|done].
  destruct (DTD_validate et); cbn [negb].
  - destruct (let* filename := get_field h self "filename" in _) as [m|e]; [|done].
    destruct (existsb _ _); [|done].
    by destruct (get_field h self "filename").
  - destruct (let* filename := get_field h self "filename" in _) as [m|e]; [|done].
    destruct (existsb _ _); [|done].
    by destruct (get_field h self "filename").
Qed.

(** X15: a file whose [filename] is [None], as [EagleFile.__init__] leaves
    it, and whose tree the DTD accepts cannot be validated or written: the
    message for the valid case adds [self.filename] to a str, so [validate]
    raises [TypeError], and [write], whatever path it is given, raises and
    leaves the file system as it was. *)
Theorem validate_unnamed (depth : nat) (h : heap) (self : oid) (w : world)
    (et : element) (filename : string) :
  get_et h self = Ok et -> DTD_validate et = true ->
  fld h self "filename" = Some (FVal VNone) ->
  validate h self w = (w, Raise TypeError) /\
  (write depth h self filename w).1 = w /\
  is_Raise (write depth h self filename w).2 /\
  (check_sanity depth h self = Ok tt ->
   write depth h self filename w = (w, Raise TypeError)).
Proof.
  intros Het Hv Hname.
  assert (Hval : validate h self w = (w, Raise TypeError)).
  { unfold validate. rewrite Het, Hv. cbn [negb].
    by rewrite (fld_get_field _ _ _ _ Hname). }
  split; [done|]. unfold write. rewrite Hval.
  destruct (check_sanity depth h self) as [[]|e]; cbn.
  - split; [done|]. split; [by eexists | done].
  - split; [done|]. split; [by eexists | done].
Qed.

(** X16: [validate] on a named file: when an element below the root has an
    attribute whose value is the text "None" the answer is [False] even if
    the DTD accepts the tree; otherwise it is the DTD's answer (the
    attributes of the root itself are not looked at); and [validate] writes
    no file. *)
Theorem validate_None_attribute (h : heap) (self : oid) (w : world)
    (et : element) (filename : string) :
  get_et h self = Ok et ->
  fld h self "filename" = Some (FVal (VStr filename)) ->
  (DTD_validate et = false -> DTD_error_log et <> []) ->
  (None_attribute et = true -> (validate h self w).2 = Ok false) /\
  (None_attribute et = false -> (validate h self w).2 = Ok (DTD_validate et)) /\
  files (validate h self w).1 = files w.
Proof.
  intros Het Hname Hlog. split; [|split]; [| |apply validate_files].
  - intros Hnone. unfold validate. rewrite Het. fold (None_attribute et).
    rewrite Hnone. rewrite (fld_get_field _ _ _ _ Hname); cbn [bind].
    destruct (DTD_validate et) eqn:Hv; cbn [negb]; [done|].
    unfold first_error. specialize (Hlog eq_refl).
    by destruct (DTD_error_log et).
  - intros Hnone. unfold validate. rewrite Het. fold (None_attribute et).
    rewrite Hnone. rewrite (fld_get_field _ _ _ _ Hname); cbn [bind].
    destruct (DTD_validate et) eqn:Hv; cbn [negb]; [done|].
    unfold first_error. specialize (Hlog eq_refl).
    by destruct (DTD_error_log et).
Qed.

(** X17: whatever [write] has written when it returns normally has passed
    both checks: the file passed [check_sanity], its tree is accepted by the
    DTD and has no "None" attribute below the root, and the path holds the
    header followed by the serialized tree; no other path has changed. *)
Theorem write_only_valid (depth : nat) (h : heap) (self : oid) (filename : string)
    (w w' : world) :
  write depth h self filename w = (w', Ok tt) ->
  exists et,
    check_sanity depth h self = Ok tt /\
    get_et h self = Ok et /\ DTD_validate et = true /\ None_attribute et = false /\
    files w' = <[filename := header +:+ ET_tostring et]> (files w).
Proof.
  unfold write. destruct (check_sanity depth h self) as [[]|e]; [|discriminate].
  destruct (validate h self w) as [w1 [v|e]] eqn:Hval; [|discriminate].
  apply validate_Ok in Hval as (et & Het & -> & Hfiles & Hwr).
  rewrite Het. destruct (DTD_validate et) eqn:Hv; cbn [andb negb].
  - destruct (None_attribute et) eqn:Hnone; cbn [negb].
    + destruct (writable w1 _); [|discriminate].
      unfold raise_HighEagleError. by destruct (first_error et).
    + destruct (writable w1 filename); [|discriminate].
      intros [= <-]. exists et. split; [done|]. split; [done|].
      split; [done|]. split; [done|].
      cbn. rewrite Hfiles. apply insert_insert_eq.
  - destruct (writable w1 _); [|discriminate].
    unfold raise_HighEagleError. by destruct (first_error et).
Qed.

Lemma write_other_paths (depth : nat) (h : heap) (self : oid)
    (filename : string) (w : world) (p : string) :
  p <> filename -> p <> filename +:+ ".broken.xml" ->
  files (write depth h self filename w).1 !! p = files w !! p.
Proof.
  intros Hp Hb. unfold write.
  destruct (check_sanity depth h self) as [[]|e]; [|done].
  destruct (validate h self w) as [w1 [v|e]] eqn:Hval.
  - apply validate_Ok in Hval as (et & Het & -> & Hfiles & Hwr).
    rewrite Het.
    destruct (negb (DTD_validate et && negb (None_attribute et))).
    + destruct (writable w1 _); cbn; rewrite ?Hfiles; [|done].
      by rewrite !lookup_insert_ne.
    + destruct (writable w1 filename); cbn; rewrite ?Hfiles; [|done].
      by rewrite !lookup_insert_ne.
  - pose proof (validate_files h self w) as [Hfiles _]. rewrite Hval in Hfiles.
    cbn in *. by rewrite Hfiles.
Qed.

(** X18: [write] changes no path but the one it is given and that path
    followed by ".broken.xml"; and when it raises, the path it was given
    holds what it held before. *)
Theorem write_touches_only (depth : nat) (h : heap) (self : oid)
    (filename : string) (w : world) :
  (forall p, p <> filename -> p <> filename +:+ ".broken.xml" ->
     files (write depth h self filename w).1 !! p = files w !! p) /\
  (is_Raise (write depth h self filename w).2 ->
   files (write depth h self filename w).1 !! filename = files w !! filename).
Proof.
  split; [intros p; apply write_other_paths|].
  assert (Hne : filename +:+ ".broken.xml" <> filename)
    by (apply append_nonempty_ne; discriminate).
  unfold write. destruct (check_sanity depth h self) as [[]|e]; [|done].
  destruct (validate h self w) as [w1 [v|e]] eqn:Hval.
  - apply validate_Ok in Hval as (et & Het & -> & Hfiles & Hwr).
    rewrite Het.
    destruct (negb (DTD_validate et && negb (None_attribute et))).
    + destruct (writable w1 _); cbn; rewrite ?Hfiles; [|done].
      intros _. by rewrite !lookup_insert_ne.
    + destruct (writable w1 filename); cbn; rewrite ?Hfiles; [|done].
      intros [e He]. discriminate.
  - pose proof (validate_files h self w) as [Hfiles _]. rewrite Hval in Hfiles.
    cbn in *. by rewrite Hfiles.
Qed.

Lemma from_file_files (depth : nat) (filename : string) (bestEffort : bool)
    (h : heap) (w : world) :
  files (from_file depth filename bestEffort h w).1 = files w /\
  writable (from_file depth filename bestEffort h w).1 = writable w.
Proof.
  unfold from_file. destruct (files w !! filename) as [text|]; [|done].
  destruct (ET_parse text) as [root|]; [|done].
  destruct (DTD_validate root); cbn [negb]; [done|].
  destruct bestEffort; by destruct (first_error root).
Qed.

(** X19: what [from_file] refuses, and what it leaves alone: a path that
    does not exist raises [IOError]; a document with another suffix than
    ".sch", ".brd", ".lbr" (the last four characters, compared as they are)
    raises [HighEagleError] "Unknown file suffix: '<suffix>'", after the
    DTD has been consulted; and no file is ever written. *)
Theorem from_file_refusals (depth : nat) (filename : string) (bestEffort : bool)
    (h : heap) (w : world) :
  (files w !! filename = None ->
   from_file depth filename bestEffort h w = (w, Raise IOError)) /\
  (forall text root,
     files w !! filename = Some text -> ET_parse text = Some root ->
     last4 filename ∉ [".sch"; ".brd"; ".lbr"] ->
     (DTD_validate root = false -> bestEffort = true /\ DTD_error_log root <> []) ->
     (from_file depth filename bestEffort h w).2
     = Raise (HighEagleError ("Unknown file suffix: '" +:+ last4 filename +:+ "'"))) /\
  files (from_file depth filename bestEffort h w).1 = files w.
Proof.
  split; [|split]; [| |apply from_file_files].
  - intros Hnone. unfold from_file. by rewrite Hnone.
  - intros text root Htext Hparse Hsuffix Hvalid.
    assert (Hroot : from_root depth filename root h
                    = Raise (HighEagleError ("Unknown file suffix: '"
                                               +:+ last4 filename +:+ "'"))).
    { unfold from_root.
      rewrite !not_elem_of_cons in Hsuffix. destruct Hsuffix as (H1 & H2 & H3 & _).
      apply String.eqb_neq in H1, H2, H3. by rewrite H1, H2, H3. }
    unfold from_file. rewrite Htext, Hparse.
    destruct (DTD_validate root); cbn [negb]; [done|].
    destruct (Hvalid eq_refl) as [-> Hlog]. unfold first_error.
    destruct (DTD_error_log root); [done|]. done.
Qed.

(** X20: [from_file_by_type] loads as [from_file] does with [bestEffort]
    left at [True]; what it returns is what [from_file] returned and is an
    instance of the class asked for, and a loaded file of another class is
    refused with [HighEagleError] "File is '<filename>' is not <class>". *)
Theorem from_file_by_type_checked (depth : nat) (filename ftype : string)
    (h h' : heap) (w w' : world) (n : oid) (x : object) :
  from_file depth filename true h w = (w', Ok (h', n)) ->
  h' !! n = Some x ->
  (isinstance x ftype = true ->
   from_file_by_type depth filename ftype h w = (w', Ok (h', n))) /\
  (isinstance x ftype = false ->
   from_file_by_type depth filename ftype h w
   = (w', Raise (HighEagleError ("File is '" +:+ filename +:+ "' is not " +:+ ftype)))) /\
  (forall w2 h2 n2,
     from_file_by_type depth filename ftype h w = (w2, Ok (h2, n2)) ->
     w2 = w' /\ h2 = h' /\ n2 = n /\ isinstance x ftype = true).
Proof.
  intros Hload Hx. unfold from_file_by_type. rewrite Hload.
  rewrite (deref_Some _ _ _ Hx); cbn [bind].
  destruct (isinstance x ftype); (split; [done|]); (split; [done|]);
    intros w2 h2 n2 [=]; by subst.
Qed.

(** X21: a run of fixEagle over the files [fs] changes no path but those
    files and their ".broken.xml" companions. *)
Theorem fixEagle_touches_only (depth : nat) (fs : list string) (h : heap)
    (w : world) (p : string) :
  (forall f, f ∈ fs -> p <> f /\ p <> f +:+ ".broken.xml") ->
  files (fixEagle depth fs h w).1 !! p = files w !! p.
Proof.
  revert h w. induction fs as [|f fs IH]; intros h w Hp; cbn [fixEagle]; [done|].
  destruct (Hp f) as [Hf Hb]; [by left|].
  pose proof (from_file_files depth f true h w) as [Hfiles _].
  destruct (from_file depth f true h w) as [w1 [[h1 ef]|e]]; cbn in Hfiles;
    [|cbn; by rewrite Hfiles].
  pose proof (write_other_paths depth h1 ef f w1 p Hf Hb) as Hw.
  destruct (write depth h1 ef f w1) as [w2 [[]|e]]; cbn in Hw.
  - rewrite IH; [by rewrite Hw, Hfiles|]. intros f' Hf'. apply Hp. by right.
  - cbn. by rewrite Hw, Hfiles.
Qed.

End FileFacts.

Lemma validate_unnamed_witness :
  @validate demo_builtins demo_external unnamed 0%nat demo_world
  = (demo_world, Raise TypeError) /\
  (@write demo_builtins demo_external 5 unnamed 0%nat "out.sch" demo_world).1
  = demo_world /\
  is_Raise (@write demo_builtins demo_external 5 unnamed 0%nat "out.sch" demo_world).2 /\
  (@check_sanity demo_builtins 5 unnamed 0%nat = Ok tt ->
   @write demo_builtins demo_external 5 unnamed 0%nat "out.sch" demo_world
   = (demo_world, Raise TypeError)).
Proof.
  apply (@validate_unnamed demo_builtins demo_external 5 unnamed 0%nat demo_world
           (Element "eagle" [("version", "6.5")] None []) "out.sch");
    reflexivity.
Defined.

Lemma validate_None_attribute_witness :
  (@validate demo_builtins lenient_external versioned 0%nat demo_world).2 = Ok false /\
  (@validate demo_builtins demo_external versioned 0%nat demo_world).2 = Ok true /\
  files (@validate demo_builtins lenient_external versioned 0%nat demo_world).1
  = files demo_world.
Proof.
  destruct (@validate_None_attribute demo_builtins lenient_external versioned 0%nat
              demo_world
              (Element "eagle" [("version", "6.5")] None
                 [Element "part" [("name", "R1"); ("value", "None")] None []])
              "a.sch" eq_refl eq_refl) as (Hnone & _ & Hfiles); [done|].
  destruct (@validate_None_attribute demo_builtins demo_external versioned 0%nat
              demo_world (Element "eagle" [("version", "6.5")] None [])
              "a.sch" eq_refl eq_refl) as (_ & Hplain & _); [done|].
  split; [|split].
  - apply Hnone. reflexivity.
  - apply Hplain. reflexivity.
  - exact Hfiles.
Defined.

Lemma write_only_valid_witness :
  exists et,
    @check_sanity demo_builtins 5 versioned 0%nat = Ok tt /\
    @get_et demo_external versioned 0%nat = Ok et /\
    @DTD_validate demo_external et = true /\ None_attribute et = false /\
    files (@write demo_builtins demo_external 5 versioned 0%nat "out.sch" demo_world).1
    = <[ "out.sch" := header +:+ @ET_tostring demo_external et ]> (files demo_world).
Proof.
  apply (@write_only_valid demo_builtins demo_external 5 versioned 0%nat "out.sch"
           demo_world).
  reflexivity.
Defined.

Lemma from_file_by_type_checked_witness :
  (exists r, @from_file_by_type demo_builtins demo_external 5 "a.sch" "SchematicFile"
               [] demo_world = (demo_world, Ok r)) /\
  @from_file_by_type demo_builtins demo_external 5 "a.sch" "BoardFile" [] demo_world
  = (demo_world, Raise (HighEagleError "File is 'a.sch' is not BoardFile")).
Proof.
  pose (h' := match (@from_file demo_builtins demo_external 5 "a.sch" true []
                       demo_world).2 with
              | Ok (h', _) => h'
              | Raise _ => []
              end).
  pose (x := default (leaf "Wire" None []) (h' !! 0%nat)).
  split.
  - destruct (@from_file_by_type_checked demo_builtins demo_external 5 "a.sch"
                "SchematicFile" [] h' demo_world demo_world 0%nat x
                eq_refl eq_refl) as (Hyes & _).
    eexists. apply Hyes. reflexivity.
  - destruct (@from_file_by_type_checked demo_builtins demo_external 5 "a.sch"
                "BoardFile" [] h' demo_world demo_world 0%nat x
                eq_refl eq_refl) as (_ & Hno & _).
    apply Hno. reflexivity.
Defined.

Lemma fixEagle_touches_only_witness :
  files (@fixEagle demo_builtins demo_external 5 ["a.sch"; "c.sch"] [] demo_world).1
    !! "b.sch" = files demo_world !! "b.sch".
Proof.
  apply (@fixEagle_touches_only demo_builtins demo_external 5 ["a.sch"; "c.sch"] []
           demo_world "b.sch").
  intros f Hf. apply elem_of_cons in Hf as [->|Hf]; [done|].
  apply elem_of_cons in Hf as [->|Hf]; [done|]. by apply elem_of_nil in Hf.
Defined.

(** * Part: following the references of a part *)




Lemma find_chain_breaks_example :
  find_library 5 dangling_part 1%nat = Ok None /\
  find_deviceset 5 dangling_part 1%nat = Raise AttributeError /\
  get_package 5 dangling_part 1%nat = Raise AttributeError /\
  find_device 5 schematic 5%nat = Ok (Some 3%nat) /\
  find_technology 5 schematic 5%nat = Ok None.
Proof. repeat split. Qed.

(** * Attribute: the string of an attribute *)

Section AttributeStr.
Context `{PyBuiltins}.

Lemma construct_fields (t : Tag) (kwargs : list (string * field)) (x : object)
    (a : string) :
  construct t kwargs = Ok x ->
  a ∉ attrs t ++ tlists t ++ map fst (tmaps t) ->
  fields x !! a = None.
Proof.
  unfold construct. destruct (forallb _ kwargs); [|discriminate].
  intros [= <-] Hnin. cbn [fields].
  apply not_elem_of_list_to_map_1.
  rewrite !fmap_app, <- !list_fmap_compose. cbn.
  intros Hin. apply Hnin.
  rewrite !elem_of_app in Hin. rewrite !elem_of_app.
  destruct Hin as [Hin|[Hin|Hin]].
  - left. apply list_elem_of_fmap in Hin as (b & -> & Hb). done.
  - right; left. apply list_elem_of_fmap in Hin as (b & -> & Hb). done.
  - right; right. apply list_elem_of_fmap in Hin as (b & -> & Hb).
    apply list_elem_of_fmap. by exists b.
Qed.

(** X23: [str] of an [Attribute] the constructor built never returns:
    [__str__] reads [self.from_library], which [__init__] never sets (it
    sets [in_library]), so it raises; with a str name and a str value the
    error is that [AttributeError].  This holds of the attribute
    [Part.set_attribute] builds as well. *)
Theorem Attribute_str_constructed (kwargs : list (string * field)) (x : object) :
  new_Attribute kwargs = Ok x ->
  is_Raise (Attribute_str x) /\
  (forall n v, fields x !! "name" = Some (FVal (VStr n)) ->
               fields x !! "value" = Some (FVal (VStr v)) ->
               Attribute_str x = Raise AttributeError) /\
  (forall name value y, new_part_Attribute name value = Ok y ->
                        is_Raise (Attribute_str y)).
Proof.
  assert (Hany : forall kw y b,
            construct Attribute_tag kw = Ok y ->
            getattr (setattr y "in_library" (FVal (VBool b))) "from_library"
            = Raise AttributeError).
  { intros kw y b Hy. unfold getattr. cbn [setattr fields].
    rewrite lookup_insert_ne by done.
    rewrite (construct_fields _ _ _ "from_library" Hy); [done|].
    cbn. rewrite !not_elem_of_cons. repeat split; try done. apply not_elem_of_nil. }
  assert (Hraise : forall kw y b,
            construct Attribute_tag kw = Ok y ->
            is_Raise (Attribute_str (setattr y "in_library" (FVal (VBool b))))).
  { intros kw y b Hy. unfold Attribute_str.
    destruct (getattr _ "name") as [[[| | | |n]| |]|e]; cbn [bind]; try by eexists.
    destruct (getattr _ "value") as [value|e]; cbn [bind]; [|by eexists].
    destruct (str_add_field _ value) as [s|e]; cbn [bind]; [|by eexists].
    destruct (getattr _ "constant") as [c|e]; cbn [bind]; [|by eexists].
    rewrite (Hany kw y b Hy). by eexists. }
  intros Hx. unfold new_Attribute in Hx. bind_inv Hx. injection Hx as <-.
  split; [by eapply Hraise|]. split.
  - intros n v Hn Hv. unfold Attribute_str.
    rewrite (getattr_Some _ _ _ Hn); cbn [bind].
    rewrite (getattr_Some _ _ _ Hv); cbn [bind str_add_field str_add].
    destruct (getattr _ "constant") as [c|e] eqn:Hc; cbn [bind].
    + by rewrite (Hany kwargs a true E).
    + unfold getattr in Hc. cbn [setattr fields] in Hc.
      rewrite lookup_insert_ne in Hc by done.
      unfold construct in E. destruct (forallb _ kwargs); [|discriminate].
      injection E as <-. cbn in Hc. by destruct (kwarg kwargs "constant" _).
  - intros name value y Hy. unfold new_part_Attribute in Hy. bind_inv Hy.
    injection Hy as <-. by eapply Hraise.
Qed.

End AttributeStr.

Lemma Attribute_str_constructed_witness :
  is_Raise (@Attribute_str demo_builtins marker_attribute) /\
  (forall n v, fields marker_attribute !! "name" = Some (FVal (VStr n)) ->
               fields marker_attribute !! "value" = Some (FVal (VStr v)) ->
               @Attribute_str demo_builtins marker_attribute = Raise AttributeError) /\
  (forall name value y, new_part_Attribute name value = Ok y ->
                        is_Raise (@Attribute_str demo_builtins y)).
Proof.
  apply (@Attribute_str_constructed demo_builtins
           [("name", FVal (VStr "_EXTERNAL_"))]).
  reflexivity.
Defined.

Lemma convertToExternal_no_device_raises_witness :
  is_Raise (convertToExternal demo_Device_tag demo_Technology_tag no_device 0%nat).
Proof.
  apply (convertToExternal_no_device_raises demo_Device_tag demo_Technology_tag
           no_device 0%nat (FDict [])); reflexivity.
Defined.

(** * Part: setting the device and the attributes *)

Lemma fld_setattr_ne (h : heap) (o o' : oid) (x : object) (a a' : string)
    (f : field) :
  h !! o = Some x -> o <> o' \/ a <> a' ->
  fld (<[o := setattr x a f]> h) o' a' = fld h o' a'.
Proof.
  intros Hx Hne. unfold fld. destruct (decide (o = o')) as [<-|Ho].
  - rewrite list_lookup_insert_eq by (eapply lookup_lt_Some; eauto).
    rewrite Hx. cbn. apply lookup_insert_ne. by destruct Hne.
  - by rewrite list_lookup_insert_ne.
Qed.

Lemma set_field_spec (h : heap) (o : oid) (a : string) (f : field) :
  is_Some (h !! o) ->
  exists h', set_field h o a f = Ok h' /\ fld h' o a = Some f /\
             (forall o' a', o <> o' \/ a <> a' -> fld h' o' a' = fld h o' a') /\
             (forall o', parent <$> h' !! o' = parent <$> h !! o') /\
             length h' = length h.
Proof.
  intros [x Hx]. unfold set_field. rewrite (deref_Some _ _ _ Hx). cbn [bind].
  eexists. split; [reflexivity|]. split; [|split; [|split]].
  - apply fld_setattr_eq. eapply lookup_lt_Some; eauto.
  - intros o' a' Hne. by apply fld_setattr_ne.
  - intros o'. by apply parent_setattr.
  - apply length_insert.
Qed.

Lemma get_root_parents (d : nat) (h h' : heap) (x : oid) :
  (forall o, parent <$> h' !! o = parent <$> h !! o) ->
  get_root d h' x = get_root d h x.
Proof.
  intros Hpar. revert x. induction d as [|d IH]; intros x; cbn [get_root]; [done|].
  specialize (Hpar x). unfold deref.
  destruct (h !! x) as [y|], (h' !! x) as [y'|]; cbn in *; try done.
  injection Hpar as ->. destruct (parent y); [apply IH | done].
Qed.

(** X25: [set_device(library, deviceset, device)] with the names of a
    library of the file, of a device-set of that library and of a device of
    that device-set makes the part resolve: afterwards [find_library],
    [find_deviceset] and [find_device] return these three.  An argument that
    is [None] leaves the reference as it is, so a reference cannot be
    cleared this way. *)
Theorem set_device_find (depth : nat) (h : heap) (self r lib dset dev : oid)
    (l ds d : string) (ls dss devs : dict) :
  get_root depth h self = Ok r -> is_Some (h !! self) ->
  fld h r "libraries" = Some (FDict ls) -> dict_get ls (VStr l) = Some lib ->
  fld h lib "devicesets" = Some (FDict dss) -> dict_get dss (VStr ds) = Some dset ->
  fld h dset "devices" = Some (FDict devs) -> dict_get devs (VStr d) = Some dev ->
  (exists h',
     set_device h self (VStr l) (VStr ds) (VStr d) = Ok h' /\
     find_library depth h' self = Ok (Some lib) /\
     find_deviceset depth h' self = Ok (Some dset) /\
     find_device depth h' self = Ok (Some dev)) /\
  set_device h self VNone VNone VNone = Ok h.
Proof.
  intros Hroot Hself Hls Hlib Hdss Hdset Hdevs Hdev. split; [|reflexivity].
  unfold set_device.
  destruct (set_field_spec h self "library" (FVal (VStr l)) Hself)
    as (h1 & -> & Hl1 & Hf1 & Hp1 & Hn1). cbn [bind].
  assert (Hself1 : is_Some (h1 !! self))
    by (apply lookup_lt_is_Some; rewrite Hn1; by apply lookup_lt_is_Some).
  destruct (set_field_spec h1 self "deviceset" (FVal (VStr ds)) Hself1)
    as (h2 & -> & Hl2 & Hf2 & Hp2 & Hn2). cbn [bind].
  assert (Hself2 : is_Some (h2 !! self))
    by (apply lookup_lt_is_Some; rewrite Hn2; by apply lookup_lt_is_Some).
  destruct (set_field_spec h2 self "device" (FVal (VStr d)) Hself2)
    as (h3 & -> & Hl3 & Hf3 & Hp3 & Hn3).
  exists h3. split; [done|].
  assert (Hroot3 : get_root depth h3 self = Ok r).
  { rewrite <- Hroot. apply get_root_parents. intros o.
    by rewrite Hp3, Hp2, Hp1. }
  assert (Hkept : forall o a f, a <> "library" -> a <> "deviceset" -> a <> "device" ->
            fld h o a = Some f -> fld h3 o a = Some f).
  { intros o a f H1 H2 H3 Hf. rewrite Hf3, Hf2, Hf1 by (right; congruence). done. }
  assert (Hls3 : fld h3 r "libraries" = Some (FDict ls)) by (by apply Hkept).
  assert (Hdss3 : fld h3 lib "devicesets" = Some (FDict dss)) by (by apply Hkept).
  assert (Hdevs3 : fld h3 dset "devices" = Some (FDict devs)) by (by apply Hkept).
  assert (Hlibrary : fld h3 self "library" = Some (FVal (VStr l))).
  { rewrite Hf3, Hf2 by (right; congruence). done. }
  assert (Hdeviceset : fld h3 self "deviceset" = Some (FVal (VStr ds))).
  { rewrite Hf3 by (right; congruence). done. }
  assert (Hfl : find_library depth h3 self = Ok (Some lib)).
  { unfold find_library. rewrite Hroot3; cbn [bind].
    rewrite (fld_get_field _ _ _ _ Hls3).
    cbn [bind]. rewrite (fld_get_field _ _ _ _ Hlibrary); cbn [bind get_method].
    by rewrite Hlib. }
  assert (Hfs : find_deviceset depth h3 self = Ok (Some dset)).
  { unfold find_deviceset. rewrite Hfl; cbn [bind].
    rewrite (fld_get_field _ _ _ _ Hdss3).
    cbn [bind]. rewrite (fld_get_field _ _ _ _ Hdeviceset); cbn [bind get_method].
    by rewrite Hdset. }
  split; [done|]. split; [done|].
  unfold find_device. rewrite Hfs; cbn [bind].
  rewrite (fld_get_field _ _ _ _ Hdevs3).
  cbn [bind]. rewrite (fld_get_field _ _ _ _ Hl3); cbn [bind get_method].
  by rewrite Hdev.
Qed.

Lemma set_device_find_witness :
  (exists h',
     set_device dangling_library 6%nat (VStr "lib") (VStr "DS") (VStr "D") = Ok h' /\
     find_library 5 h' 6%nat = Ok (Some 1%nat) /\
     find_deviceset 5 h' 6%nat = Ok (Some 2%nat) /\
     find_device 5 h' 6%nat = Ok (Some 3%nat)) /\
  set_device dangling_library 6%nat VNone VNone VNone = Ok dangling_library.
Proof.
  eapply (set_device_find 5 dangling_library 6%nat 0%nat 1%nat 2%nat 3%nat
            "lib" "DS" "D"); try reflexivity. by eexists.
Defined.

Lemma new_part_Attribute_fields (name : string) (value : value) :
  exists n, new_part_Attribute (VStr name) value = Ok n /\
            fields n !! "name" = Some (FVal (VStr name)) /\
            fields n !! "value" = Some (FVal value) /\
            fields n !! "in_library" = Some (FVal (VBool false)).
Proof. eexists. split; [reflexivity|]. repeat split; reflexivity. Qed.

(** X26: after [set_attribute(name, value)] on a part whose attributes are
    a dict keyed by name, the attribute filed under [name] has the value
    [value].  When one was filed there already it is that same object, the
    part's attributes are as before and nothing is created; otherwise it is
    a new [Attribute] with [in_library] False, whose parent is the part. *)
Theorem set_attribute_filed (h : heap) (self : oid) (x : object) (d : dict)
    (name : string) (value : value) :
  h !! self = Some x -> assoc "attributes" (maps x) = Some "name" ->
  fields x !! "attributes" = Some (FDict d) ->
  (forall a, a ∈ dict_values d -> is_Some (h !! a)) ->
  exists h' a,
    set_attribute h self (VStr name) value = Ok h' /\
    get_item "attributes" h' self (VStr name) = Ok a /\
    fld h' a "value" = Some (FVal value) /\
    (forall a0, dict_get d (VStr name) = Some a0 ->
       a = a0 /\ length h' = length h /\
       fld h' self "attributes" = Some (FDict d)) /\
    (dict_get d (VStr name) = None ->
       a = length h /\ length h' = S (length h) /\
       fld h' a "name" = Some (FVal (VStr name)) /\
       fld h' a "in_library" = Some (FVal (VBool false)) /\
       parent <$> h' !! a = Some (Some self)).
Proof.
  intros Hx Hkey Hd Hall. unfold set_attribute.
  rewrite (get_field_Some _ _ _ _ Hx), (getattr_Some _ _ _ Hd); cbn [bind py_in].
  destruct (dict_get d (VStr name)) as [a0|] eqn:Hget.
  - rewrite bool_decide_eq_true_2 by done. cbn [bind getitem]. rewrite Hget.
    cbn [bind].
    destruct (set_field_spec h a0 "value" (FVal value)) as (h' & Hset & Hv & Hf & _ & Hn).
    { apply Hall. apply list_elem_of_fmap. exists (VStr name, a0).
      split; [done|]. by apply dict_get_elem_of. }
    assert (Hattrs : fld h' self "attributes" = Some (FDict d)).
    { rewrite Hf by (right; congruence). by rewrite (fld_lookup _ _ _ _ Hx). }
    assert (Hmaps : exists x', h' !! self = Some x' /\ maps x' = maps x).
    { unfold set_field in Hset. bind_inv Hset. injection Hset as <-.
      apply deref_Ok in E. destruct (decide (a0 = self)) as [->|Hne].
      - assert (a = x) by congruence; subst a. eexists.
        rewrite list_lookup_insert_eq by (eapply lookup_lt_Some; eauto). done.
      - exists x. by rewrite list_lookup_insert_ne. }
    destruct Hmaps as (x' & Hx' & Hmaps).
    exists h', a0. split; [done|]. split; [|split; [done|split]].
    + rewrite (get_item_dict "attributes" h' self x' d).
      * by rewrite Hget.
      * done.
      * rewrite Hmaps. eauto.
      * by rewrite <- (fld_lookup h' self x').
    + intros a1 [= <-]. done.
    + done.
  - rewrite bool_decide_eq_false_2 by (by intros [? ?]). cbn [bind].
    destruct (new_part_Attribute_fields name value) as (n & -> & Hnn & Hnv & Hnl).
    cbn [bind alloc].
    set (P := fun (o : oid) (a : string) => o = self /\ a = "attributes").
    assert (Hlen : (self < length h)%nat) by (eapply lookup_lt_Some; eauto).
    assert (Hnew : (h ++ [n]) !! length h = Some n)
      by (by rewrite lookup_app_r, Nat.sub_diag).
    destruct (add_map_parents P "attributes" "name" (h ++ [n]) self (length h) x d
                (VStr name)) as (h' & Hadd & Hfr & Hattrs & Hpar & _).
    { by rewrite lookup_app_l. }
    { done. }
    { done. }
    { by rewrite (fld_lookup _ _ _ _ Hnew). }
    { done. }
    assert (Hx1 : (h ++ [n]) !! self = Some x) by (by rewrite lookup_app_l).
    destruct (frame_section _ _ _ _ _ _ _ Hfr Hx1 Hattrs)
      as (x' & Hx' & Hmaps & _ & Hd').
    assert (Hkeep : forall a f, a <> "attributes" -> fields n !! a = Some f ->
              fld h' (length h) a = Some f).
    { intros a f Ha Hf. eapply frame_fld; [exact Hfr | | ].
      - intros [_ ?]. done.
      - by rewrite (fld_lookup _ _ _ _ Hnew). }
    exists h', (length h). split; [done|]. split; [|split; [|split]].
    + rewrite (get_item_dict "attributes" h' self x' _ _ Hx' ltac:(rewrite Hmaps; eauto) Hd').
      by rewrite dict_get_set_eq.
    + by apply Hkeep.
    + intros a0 [=].
    + intros _. split; [done|]. split.
      * unfold add_map in Hadd. bind_inv Hadd.
        destruct (assoc "attributes" (maps a)); [|discriminate].
        bind_inv Hadd. bind_inv Hadd.
        assert (Hsp : forall g hh, set_parent (<[self := g]> (h ++ [n])) (length h)
                                     (Some self) = Ok hh ->
                                   length hh = S (length h)).
        { intros g hh (y & _ & ->)%set_parent_Ok.
          rewrite !length_insert, length_app. cbn. lia. }
        destruct a0 as [|xs|dd], a1 as [k| |]; try discriminate; eauto.
        bind_inv Hadd. eauto.
      * split; [by apply Hkeep|]. split; [by apply Hkeep | done].
Qed.

Lemma set_attribute_filed_witness :
  exists h' a,
    set_attribute dangling_library 6%nat (VStr "TOL") (VStr "1%") = Ok h' /\
    get_item "attributes" h' 6%nat (VStr "TOL") = Ok a /\
    fld h' a "value" = Some (FVal (VStr "1%")) /\
    (forall a0, dict_get [] (VStr "TOL") = Some a0 ->
       a = a0 /\ length h' = length dangling_library /\
       fld h' 6%nat "attributes" = Some (FDict [])) /\
    (dict_get [] (VStr "TOL") = None ->
       a = length dangling_library /\ length h' = S (length dangling_library) /\
       fld h' a "name" = Some (FVal (VStr "TOL")) /\
       fld h' a "in_library" = Some (FVal (VBool false)) /\
       parent <$> h' !! a = Some (Some 6%nat)).
Proof.
  eapply (set_attribute_filed dangling_library 6%nat _ [] "TOL" (VStr "1%"));
    try reflexivity.
  intros a Ha. by apply elem_of_nil in Ha.
Defined.

(** * Moving a child *)

Lemma for_each_ext {A S : Type} (f g : S -> A -> result S) (xs : list A) (s : S) :
  (forall s a, f s a = g s a) -> for_each f xs s = for_each g xs s.
Proof.
  intros Hfg. revert s. induction xs as [|x xs IH]; intros s; cbn [for_each]; [done|].
  rewrite Hfg. destruct (g s x); cbn [bind]; [apply IH | done].
Qed.

Lemma for_each_raise {A S : Type} (f : S -> A -> result S) (xs : list A) (s : S)
    (x : A) :
  x ∈ xs -> (forall s, is_Raise (f s x)) -> is_Raise (for_each f xs s).
Proof.
  intros Hx Hf. revert s. induction xs as [|y xs IH]; intros s; cbn [for_each].
  - by apply elem_of_nil in Hx.
  - apply elem_of_cons in Hx as [<-|Hx].
    + destruct (Hf s) as [e ->]. by exists e.
    + destruct (f s y) as [s'|e]; cbn [bind]; [by apply IH | by exists e].
Qed.

Lemma get_children_ext (h h' : heap) (o : oid) (x x' : object) :
  h !! o = Some x -> h' !! o = Some x' ->
  lists x' = lists x -> maps x' = maps x ->
  (forall a, fields x' !! a = fields x !! a) ->
  get_children h' o = get_children h o.
Proof.
  intros Hx Hx' Hl Hm Hf. unfold get_children.
  rewrite (deref_Some _ _ _ Hx), (deref_Some _ _ _ Hx'); cbn [bind].
  rewrite Hl, Hm.
  assert (Hg : forall a, getattr x' a = getattr x a)
    by (intros a; unfold getattr; by rewrite Hf).
  rewrite (for_each_ext _ (fun r l => let* f := getattr x l in
                                      match f with
                                      | FList xs => Ok (r ++ xs)
                                      | _ => Raise TypeError
                                      end)) by (intros s a; by rewrite Hg).
  destruct (for_each _ (lists x) []) as [r|e]; cbn [bind]; [|done].
  apply for_each_ext. intros s a. by rewrite Hg.
Qed.

Lemma add_list_frame (l : string) (h h' : heap) (self s : oid) :
  add_list l h self s = Ok h' ->
  frame (fun o a => o = self /\ a = l) h h' /\
  parent <$> h' !! s = Some (Some self).
Proof.
  intros Hadd. split; [|by apply add_list_parent in Hadd as [_ ?]].
  unfold add_list in Hadd. bind_inv Hadd. apply deref_Ok in E.
  case_bool_decide; [|discriminate]. bind_inv Hadd.
  destruct a0 as [|xs|]; try discriminate.
  apply set_parent_Ok in Hadd as (y & Hy & ->).
  eapply frame_trans; [by apply frame_setattr | by apply frame_with_parent].
Qed.

Lemma add_map_frame (m : string) (h h' : heap) (self s : oid) :
  add_map m h self s = Ok h' ->
  frame (fun o a => o = self /\ a = m) h h' /\
  parent <$> h' !! s = Some (Some self).
Proof.
  intros Hadd. split; [|by apply add_map_parent in Hadd as [_ ?]].
  unfold add_map in Hadd. bind_inv Hadd. apply deref_Ok in E.
  destruct (assoc m (maps a)); [|discriminate].
  bind_inv Hadd. bind_inv Hadd.
  assert (Hsp : forall f', set_parent (<[self := setattr a m f']> h) s (Some self)
                           = Ok h' -> frame (fun o a => o = self /\ a = m) h h').
  { intros f' (y & Hy & ->)%set_parent_Ok.
    eapply frame_trans; [by apply frame_setattr | by apply frame_with_parent]. }
  destruct a0 as [|xs|dd], a1 as [k| |]; try discriminate; eauto.
  bind_inv Hadd. eauto.
Qed.

Section Moving.
Context `{PyBuiltins}.

Lemma raise_HighEagleError_raises {A : Type} (msg : result string) :
  is_Raise (@raise_HighEagleError A msg).
Proof. unfold raise_HighEagleError. destruct msg; by eexists. Qed.

(** A child whose parent is not its owner makes [check_sanity] of the owner
    raise, whatever the class of the owner and the depth allowed. *)
Lemma check_sanity_mismatch (depth : nat) (h : heap) (o c : oid) (cs : list oid) :
  get_children h o = Ok cs -> c ∈ cs -> parent <$> h !! c <> Some (Some o) ->
  is_Raise (check_sanity depth h o).
Proof.
  intros Hcs Hc Hpar. destruct depth as [|d]; cbn [check_sanity]; [by eexists|].
  destruct (deref h o) as [x|e]; cbn [bind]; [|by eexists].
  assert (Hbase : is_Raise (EagleFilePart_check_sanity (check_sanity d) h o)).
  { unfold EagleFilePart_check_sanity. rewrite Hcs; cbn [bind].
    apply (for_each_raise _ _ _ c Hc). intros []. unfold check_child.
    destruct (deref h c) as [xc|e] eqn:Hxc; cbn [bind]; [|by eexists].
    apply deref_Ok in Hxc. rewrite Hxc in Hpar. cbn in Hpar.
    rewrite bool_decide_eq_false_2 by congruence.
    apply raise_HighEagleError_raises. }
  destruct (isinstance x "Part"); [|done].
  unfold Part_check_sanity.
  repeat (destruct (negb _); [apply raise_HighEagleError_raises|]). done.
Qed.

(** X27: the [add_] accessors move without removing.  When [s] is a child
    of [o1] and is added to another object [o2], by the accessor of a list
    or of a map section, it stays in the section of [o1] while its parent
    becomes [o2]; from then on [check_sanity] of [o1] raises, at any depth. *)
Theorem add_moves_without_removing (depth : nat) (h : heap) (o1 o2 s : oid)
    (cs : list oid) :
  o1 <> o2 -> get_children h o1 = Ok cs -> s ∈ cs ->
  (forall l h', add_list l h o2 s = Ok h' ->
     get_children h' o1 = Ok cs /\ parent <$> h' !! s = Some (Some o2) /\
     is_Raise (check_sanity depth h' o1)) /\
  (forall m h', add_map m h o2 s = Ok h' ->
     get_children h' o1 = Ok cs /\ parent <$> h' !! s = Some (Some o2) /\
     is_Raise (check_sanity depth h' o1)).
Proof.
  intros Hne Hcs Hs.
  assert (Hmoved : forall h', frame (fun o _ => o = o2) h h' ->
            parent <$> h' !! s = Some (Some o2) ->
            get_children h' o1 = Ok cs /\ parent <$> h' !! s = Some (Some o2) /\
            is_Raise (check_sanity depth h' o1)).
  { intros h' Hf Hpar.
    assert (Hcs' : get_children h' o1 = Ok cs).
    { destruct (h !! o1) as [x1|] eqn:Hx1;
        [|unfold get_children, deref in Hcs; by rewrite Hx1 in Hcs].
      destruct (Hf _ _ Hx1) as (x1' & Hx1' & _ & Hl & Hm & Hfs).
      rewrite <- Hcs. eapply get_children_ext; eauto. }
    split; [done|]. split; [done|].
    apply (check_sanity_mismatch depth h' o1 s cs Hcs' Hs).
    rewrite Hpar. congruence. }
  split.
  - intros l h' Hadd. apply add_list_frame in Hadd as [Hf Hpar].
    apply Hmoved; [|done]. eapply frame_mono; [|exact Hf]. by intros o a [-> _].
  - intros m h' Hadd. apply add_map_frame in Hadd as [Hf Hpar].
    apply Hmoved; [|done]. eapply frame_mono; [|exact Hf]. by intros o a [-> _].
Qed.

End Moving.

Lemma add_moves_without_removing_witness :
  (forall l h', add_list l two_devices 2%nat 3%nat = Ok h' ->
     get_children h' 1%nat = Ok [3%nat; 4%nat] /\
     parent <$> h' !! 3%nat = Some (Some 2%nat) /\
     is_Raise (@check_sanity demo_builtins 5 h' 1%nat)) /\
  (forall m h', add_map m two_devices 2%nat 3%nat = Ok h' ->
     get_children h' 1%nat = Ok [3%nat; 4%nat] /\
     parent <$> h' !! 3%nat = Some (Some 2%nat) /\
     is_Raise (@check_sanity demo_builtins 5 h' 1%nat)).
Proof.
  apply (@add_moves_without_removing demo_builtins 5 two_devices 1%nat 2%nat 3%nat
           [3%nat; 4%nat]); [lia | reflexivity |].
  apply list_elem_of_here.
Defined.

Lemma add_moves_example :
  exists h', add_list "connects" two_devices 2%nat 3%nat = Ok h' /\
             @check_sanity demo_builtins 5 two_devices 1%nat = Ok tt /\
             is_Raise (@check_sanity demo_builtins 5 h' 1%nat).
Proof. eexists. split; [reflexivity|]. split; [reflexivity|]. by eexists. Qed.

(** * clone *)

Lemma keeps_refl (k : nat) (h : heap) : keeps k h h.
Proof. split; [lia | done]. Qed.

Lemma keeps_trans (k : nat) (h1 h2 h3 : heap) :
  keeps k h1 h2 -> keeps k h2 h3 -> keeps k h1 h3.
Proof.
  intros [Hl1 Hk1] [Hl2 Hk2]. split; [lia|].
  intros i Hi. by rewrite Hk2, Hk1.
Qed.

Lemma keeps_mono (k k' : nat) (h h' : heap) :
  (k' <= k)%nat -> keeps k h h' -> keeps k' h h'.
Proof. intros Hle [Hl Hk]. split; [done|]. intros i Hi. apply Hk. lia. Qed.

Lemma keeps_insert (k : nat) (h : heap) (o : oid) (y : object) :
  (k <= o)%nat -> keeps k h (<[o := y]> h).
Proof.
  intros Hle. split; [by rewrite length_insert|].
  intros i Hi. apply list_lookup_insert_ne. lia.
Qed.

Lemma keeps_alloc (h : heap) (x : object) : keeps (length h) h (h ++ [x]).
Proof.
  split; [rewrite length_app; lia|]. intros i Hi. by apply lookup_app_l.
Qed.

Lemma keeps_frame (P : oid -> string -> Prop) (h h' : heap) :
  keeps (length h) h h' -> frame P h h'.
Proof.
  intros [_ Hk] o x Hx. exists x. rewrite Hk by (eapply lookup_lt_Some; eauto). done.
Qed.

Lemma set_field_Ok (h h' : heap) (o : oid) (a : string) (f : field) :
  set_field h o a f = Ok h' ->
  exists x, h !! o = Some x /\ h' = <[o := setattr x a f]> h.
Proof.
  unfold set_field. intros Hs. bind_inv Hs. apply deref_Ok in E.
  injection Hs as <-. eauto.
Qed.

Lemma add_list_keeps (k : nat) (l : string) (h h' : heap) (self s : oid) :
  (k <= self)%nat -> (k <= s)%nat -> add_list l h self s = Ok h' -> keeps k h h'.
Proof.
  intros Hself Hs Hadd. unfold add_list in Hadd. bind_inv Hadd.
  case_bool_decide; [|discriminate]. bind_inv Hadd.
  destruct a0 as [|xs|]; try discriminate.
  apply set_parent_Ok in Hadd as (y & Hy & ->).
  eapply keeps_trans; by apply keeps_insert.
Qed.

Lemma add_map_keeps (k : nat) (m : string) (h h' : heap) (self s : oid) :
  (k <= self)%nat -> (k <= s)%nat -> add_map m h self s = Ok h' -> keeps k h h'.
Proof.
  intros Hself Hs Hadd. unfold add_map in Hadd. bind_inv Hadd.
  destruct (assoc m (maps a)); [|discriminate].
  bind_inv Hadd. bind_inv Hadd.
  assert (Hsp : forall f', set_parent (<[self := setattr a m f']> h) s (Some self)
                           = Ok h' -> keeps k h h').
  { intros f' (y & Hy & ->)%set_parent_Ok.
    eapply keeps_trans; by apply keeps_insert. }
  destruct a0 as [|xs|dd], a1 as [kk| |]; try discriminate; eauto.
  bind_inv Hadd. eauto.
Qed.

Lemma for_each_grows {A : Type} (k : nat) (P : oid -> string -> Prop)
    (f : heap -> A -> result heap) (xs : list A) :
  (forall a s s', a ∈ xs -> (k <= length s)%nat -> f s a = Ok s' ->
                  keeps k s s' /\ frame P s s') ->
  forall s s', (k <= length s)%nat -> for_each f xs s = Ok s' ->
               keeps k s s' /\ frame P s s'.
Proof.
  induction xs as [|x xs IH]; intros Hstep s s' Hk Hrun; cbn [for_each] in Hrun.
  - injection Hrun as <-. split; [apply keeps_refl | apply frame_refl].
  - bind_inv Hrun.
    destruct (Hstep x s a) as [Hk1 Hf1]; [by left | done | done |].
    destruct (IH (fun b t t' Hb => Hstep b t t' (list_elem_of_further _ _ _ Hb)) a s')
      as [Hk2 Hf2]; [destruct Hk1; lia | done |].
    split; [eapply keeps_trans; eauto | eapply frame_trans; eauto].
Qed.

(** What a call of [clone] does to the store: the clone is the next free
    address, what was in the store is untouched, and the clone is the
    original but for its sections and its parent. *)
Lemma clone_spec (d : nat) (h h' : heap) (self n : oid) :
  clone d h self = Ok (h', n) ->
  n = length h /\ keeps (length h) h h' /\
  exists x x',
    h !! self = Some x /\ h' !! n = Some x' /\ parent x' = None /\
    mro x' = mro x /\ lists x' = lists x /\ maps x' = maps x /\
    forall a, ~ section_of x a -> fields x' !! a = fields x !! a.
Proof.
  revert h h' self n. induction d as [|d IH]; intros h h' self n Hc; cbn [clone] in Hc;
    [discriminate|].
  bind_inv Hc. rename a into x. apply deref_Ok in E. cbn [alloc] in Hc.
  set (k := length h) in *. set (P := fun (_ : oid) a => section_of x a).
  bind_inv Hc. rename a into h2, E0 into Hmaps.
  bind_inv Hc. rename a into h3, E0 into Hlists.
  bind_inv Hc. rename a into h4, E0 into Hpar. injection Hc as <- <-.
  assert (Hinto : forall (add : heap -> oid -> oid -> result heap),
            (forall s c s', (k <= length s)%nat -> (k <= c)%nat ->
               add s k c = Ok s' -> keeps k s s' /\ frame P s s') ->
            forall c s s', (k <= length s)%nat ->
              (let* (s1, c') := clone d s c in add s1 k c') = Ok s' ->
              keeps k s s' /\ frame P s s').
  { intros add Hadd c s s' Hk Hrun. bind_inv Hrun. destruct a as [s1 c'].
    apply IH in E0 as (-> & Hk1 & _).
    destruct (Hadd s1 (length s) s') as [Hk2 Hf2];
      [destruct Hk1; lia | done | done |].
    split.
    - eapply keeps_trans; [|exact Hk2]. by eapply keeps_mono.
    - eapply frame_trans; [|exact Hf2]. by apply keeps_frame. }
  assert (Hset : forall a f s s', section_of x a -> set_field s k a f = Ok s' ->
            keeps k s s' /\ frame P s s').
  { intros a f s s' Ha (y & Hy & ->)%set_field_Ok. split.
    - by apply keeps_insert.
    - by apply frame_setattr. }
  assert (H1 : keeps k (h ++ [x]) h2 /\ frame P (h ++ [x]) h2).
  { revert Hmaps. apply for_each_grows; [|rewrite length_app; lia].
    intros m s s' Hm Hk Hrun. bind_inv Hrun. bind_inv Hrun. bind_inv Hrun.
    assert (Hsec : section_of x m.1).
    { right. apply list_elem_of_fmap. by exists m. }
    destruct (Hset _ _ _ _ Hsec E0) as [Hka Hfa].
    destruct (for_each_grows k P _ a1
                (fun c t t' _ => Hinto (add_map m.1)
                   (fun s0 c0 s0' Hk0 Hc0 Hadd =>
                      conj (add_map_keeps k _ _ _ _ _ (le_n k) Hc0 Hadd)
                           (frame_mono _ P _ _
                              (fun o b (Hob : o = k /\ b = m.1) =>
                                 eq_ind_r (section_of x) Hsec (proj2 Hob))
                              (proj1 (add_map_frame _ _ _ _ _ Hadd))))
                   c t t') a s') as [Hkb Hfb]; [destruct Hka; lia | done |].
    split; [eapply keeps_trans; eauto | eapply frame_trans; eauto]. }
  assert (H2 : keeps k h2 h3 /\ frame P h2 h3).
  { revert Hlists. apply for_each_grows;
      [|destruct H1 as [[Hl _] _]; rewrite length_app in Hl; lia].
    intros l s s' Hl Hk Hrun. bind_inv Hrun. bind_inv Hrun. bind_inv Hrun.
    assert (Hsec : section_of x l) by (by left).
    destruct (Hset _ _ _ _ Hsec E0) as [Hka Hfa].
    destruct (for_each_grows k P _ a1
                (fun c t t' _ => Hinto (add_list l)
                   (fun s0 c0 s0' Hk0 Hc0 Hadd =>
                      conj (add_list_keeps k _ _ _ _ _ (le_n k) Hc0 Hadd)
                           (frame_mono _ P _ _
                              (fun o b (Hob : o = k /\ b = l) =>
                                 eq_ind_r (section_of x) Hsec (proj2 Hob))
                              (proj1 (add_list_frame _ _ _ _ _ Hadd))))
                   c t t') a s') as [Hkb Hfb]; [destruct Hka; lia | done |].
    split; [eapply keeps_trans; eauto | eapply frame_trans; eauto]. }
  apply set_parent_Ok in Hpar as (y & Hy & ->).
  destruct H1 as [Hk1 Hf1], H2 as [Hk2 Hf2].
  split; [done|]. split.
  - eapply keeps_trans; [apply keeps_alloc|].
    eapply keeps_trans; [exact Hk1|]. eapply keeps_trans; [exact Hk2|].
    by apply keeps_insert.
  - assert (Hn1 : (h ++ [x]) !! k = Some x)
      by (unfold k; by rewrite lookup_app_r, Nat.sub_diag).
    destruct (Hf1 _ _ Hn1) as (x2 & Hx2 & Hm2 & Hl2 & Hp2 & Hfs2).
    destruct (Hf2 _ _ Hx2) as (x3 & Hx3 & Hm3 & Hl3 & Hp3 & Hfs3).
    assert (y = x3) by congruence; subst y.
    exists x, (with_parent x3 None). split; [done|]. split.
    { apply list_lookup_insert_eq. eapply lookup_lt_Some; eauto. }
    split; [done|]. cbn.
    split; [congruence|]. split; [congruence|]. split; [congruence|].
    intros a Ha. rewrite Hfs3, Hfs2 by done. done.
Qed.

(** X28: [clone] of an object that is no file and has no file below it
    never touches what it copies from: when it returns, every object of the
    store is as it was, and the clone is a new object, of the class of the
    original, with the list and map sections of the original declared, with
    every attribute that is not such a section as the original holds it, and
    with no parent. *)
Theorem clone_fresh (depth : nat) (h h' : heap) (self n : oid) :
  no_file_below h self ->
  clone depth h self = Ok (h', n) ->
  n = length h /\
  (forall o y, h !! o = Some y -> h' !! o = Some y) /\
  exists x x',
    h !! self = Some x /\ h' !! n = Some x' /\ parent x' = None /\
    mro x' = mro x /\ lists x' = lists x /\ maps x' = maps x /\
    forall a, ~ section_of x a -> fields x' !! a = fields x !! a.
Proof.
  intros _ Hc. destruct (clone_spec _ _ _ _ _ Hc) as (Hn & [_ Hk] & Hrec).
  split; [done|]. split; [|done].
  intros o y Hy. rewrite Hk by (eapply lookup_lt_Some; eauto). done.
Qed.

(** No object of the device-set with two devices is a file. *)
Lemma two_devices_no_file (r : oid) : no_file_below two_devices r.
Proof.
  intros o x _ Hx.
  do 8 (destruct o as [|o]; [injection Hx as <-; reflexivity|]).
  discriminate Hx.
Qed.

Lemma clone_fresh_witness :
  exists h',
    clone 5 two_devices 0%nat = Ok (h', 8%nat) /\
    (forall o y, two_devices !! o = Some y -> h' !! o = Some y) /\
    exists x x',
      two_devices !! 0%nat = Some x /\ h' !! 8%nat = Some x' /\ parent x' = None /\
      mro x' = mro x /\ lists x' = lists x /\ maps x' = maps x /\
      forall a, ~ section_of x a -> fields x' !! a = fields x !! a.
Proof.
  pose (h' := match clone 5 two_devices 0%nat with
              | Ok (h', _) => h'
              | Raise _ => []
              end).
  exists h'.
  destruct (clone_fresh 5 two_devices h' 0%nat 8%nat (two_devices_no_file 0%nat)
              eq_refl) as (_ & Hkept & Hrec).
  split; [reflexivity|]. split; [exact Hkept | exact Hrec].
Defined.












(** * Looking a library up by name *)

(** X30: [Part.find_library] is [find_library_by_name] of the root of the
    part, asked for the library the part names.  For a name that is not
    filed [find_library_by_name] answers [None], where the generated lookup
    [get_library] raises [KeyError]. *)
Theorem find_library_by_name_agrees (depth : nat) (h : heap) (self r : oid)
    (l : string) :
  get_root depth h self = Ok r ->
  fld h self "library" = Some (FVal (VStr l)) ->
  find_library depth h self = find_library_by_name h r (VStr l) /\
  (forall x libs,
     h !! r = Some x -> is_Some (assoc "libraries" (maps x)) ->
     fields x !! "libraries" = Some (FDict libs) ->
     (dict_get libs (VStr l) = None ->
      find_library_by_name h r (VStr l) = Ok None /\
      get_item "libraries" h r (VStr l) = Raise KeyError) /\
     (forall lib, dict_get libs (VStr l) = Some lib ->
        find_library_by_name h r (VStr l) = Ok (Some lib) /\
        get_item "libraries" h r (VStr l) = Ok lib)).
Proof.
  intros Hroot Hlib. split.
  - unfold find_library, find_library_by_name. rewrite Hroot; cbn [bind].
    destruct (get_field h r "libraries") as [libs|e]; cbn [bind]; [|done].
    by rewrite (fld_get_field _ _ _ _ Hlib).
  - intros x libs Hx Hmap Hlibs.
    assert (Hfind : find_library_by_name h r (VStr l) = Ok (dict_get libs (VStr l))).
    { unfold find_library_by_name.
      rewrite (get_field_Some _ _ _ _ Hx), (getattr_Some _ _ _ Hlibs). done. }
    rewrite Hfind, (get_item_dict _ _ _ _ _ _ Hx Hmap Hlibs).
    split.
    + by intros ->.
    + by intros lib ->.
Qed.

Lemma find_library_by_name_agrees_witness :
  find_library 5 dangling_library 6%nat
  = find_library_by_name dangling_library 0%nat (VStr "nolib") /\
  find_library_by_name dangling_library 0%nat (VStr "nolib") = Ok None /\
  get_item "libraries" dangling_library 0%nat (VStr "nolib") = Raise KeyError.
Proof.
  destruct (find_library_by_name_agrees 5 dangling_library 6%nat 0%nat "nolib"
              eq_refl eq_refl) as [Hagree Hfile].
  split; [exact Hagree|].
  edestruct Hfile as [Habsent _]; [reflexivity | by eexists | reflexivity |].
  apply Habsent. reflexivity.
Defined.
